(** * Hotel transport service: the booking-resource scheduling core

    A shallow embedding of the scheduling core of [src/index.tsx]: the fare
    estimator, the overlap detector, the assignment handlers, cancellation,
    the payment handler and the simulated ETA.

    Conventions of the model.
    - A JavaScript [number] is an IEEE 754 binary64 value: Rocq's primitive
      [float].  Time values (milliseconds since the epoch) are integers of
      magnitude below 2^53, on which binary64 arithmetic is exact; they are
      modelled in [Z].
    - A JavaScript string is a [string], one character of it for each code
      unit; case mapping and trimming act on the ASCII range (other characters
      are left alone), and the model is exact on strings of ASCII characters,
      such as the alphanumeric confirmation codes the text service is asked
      for.
    - [null] / [undefined] are [None].
    - React state is one record, [AppState]; a setter is a function on it and
      a handler is the composition of the setters it calls, in order.  Timers
      ([setTimeout], [setInterval]) are not modelled.
    - [AdminDashboard], and [AdminBookingItem] inside it, are components
      declared in the body of [App].  A render of [App] creates them anew, so
      React unmounts the dashboard and mounts a fresh one whose own state
      starts from its initial values: see [remountAdminDashboard]. *)

From Stdlib Require Import ZArith QArith Qround Bool List String Ascii Lia.
From Stdlib Require Import Floats Uint63 DecimalString Permutation.
Import ListNotations.

Local Open Scope string_scope.
Set Warnings "-inexact-float".

(** ** Host functions: strings *)

Module Js.

Definition isUpper (c : ascii) : bool :=
  let n := nat_of_ascii c in (65 <=? n)%nat && (n <=? 90)%nat.

Definition lowerChar (c : ascii) : ascii :=
  if isUpper c then ascii_of_nat (nat_of_ascii c + 32) else c.

(** [String.prototype.toLowerCase]. *)
Fixpoint toLowerCase (s : string) : string :=
  match s with
  | EmptyString => EmptyString
  | String c r => String (lowerChar c) (toLowerCase r)
  end.

(** TAB, LF, VT, FF, CR and SPACE. *)
Definition isSpace (c : ascii) : bool :=
  let n := nat_of_ascii c in ((9 <=? n)%nat && (n <=? 13)%nat) || (n =? 32)%nat.

Fixpoint trimStart (s : string) : string :=
  match s with
  | EmptyString => EmptyString
  | String c r => if isSpace c then trimStart r else s
  end.

Fixpoint trimEnd (s : string) : string :=
  match s with
  | EmptyString => EmptyString
  | String c r =>
      match trimEnd r with
      | EmptyString => if isSpace c then EmptyString else String c EmptyString
      | r' => String c r'
      end
  end.

(** [String.prototype.trim]. *)
Definition trim (s : string) : string := trimEnd (trimStart s).

(** [String.prototype.includes]. *)
Fixpoint includes (s sub : string) : bool :=
  String.prefix sub s ||
  match s with
  | EmptyString => false
  | String _ r => includes r sub
  end.

(** [s.slice(-4)]: the last four code units (the whole string if shorter).
    A character of the model stands for one code unit, which is what an ASCII
    character is. *)
Definition sliceLast4 (s : string) : string :=
  String.substring (String.length s - 4) 4 s.

(** Truthiness of a string: only the empty string is falsy. *)
Definition truthy (s : string) : bool := negb (s =? "").

(** ** Host functions: numbers *)

Definition ofZ (n : Z) : float := PrimFloat.of_uint63 (Uint63.of_Z n).

(** [Math.round]: the integral number closest to [x], ties towards +infinity;
    NaN, the infinities, the zeros and integral values are returned as they
    are.  The rounding is computed exactly on the mantissa and exponent. *)
Definition Math_round (x : float) : float :=
  match Prim2SF x with
  | S754_finite s m e =>
      if (0 <=? e)%Z then x
      else
        let num := if s then Z.neg m else Z.pos m in
        let den := (2 ^ (- e))%Z in
        let n := ((2 * num + den) / (2 * den))%Z in
        if (n =? 0)%Z then (if s then (-0)%float else 0%float)
        else if (n <? 0)%Z then (- ofZ (- n))%float
        else ofZ n
  | _ => x
  end.

End Js.

(** ** Fare estimator *)

Section Fare.

Local Open Scope float_scope.

Definition GST_RATE : float := 0.18.
Definition SUV_MULTIPLIER : float := 1.5.
Definition FARE_AIRPORT : float := 500.
Definition FARE_STATION : float := 250.
Definition FARE_OTHER_WITHIN_5KM : float := 250.
Definition FARE_OTHER_ABOVE_5KM : float := 500.

(** [estimateFare], reading the form fields [location] and
    [selectedVehicleType]. *)
Definition estimateFare (location selectedVehicleType : string) : float :=
  let normalizedLocation := Js.trim (Js.toLowerCase location) in
  let baseFare :=
    if Js.includes normalizedLocation "airport" then FARE_AIRPORT
    else if Js.includes normalizedLocation "jabalpur railway station"
         || Js.includes normalizedLocation "madan mahal railway station"
         || Js.includes normalizedLocation "jabalpur station"
         || Js.includes normalizedLocation "madan mahal station"
    then FARE_STATION
    else FARE_OTHER_ABOVE_5KM in
  let fareBeforeGst :=
    if (selectedVehicleType =? "SUV")%string then baseFare * SUV_MULTIPLIER
    else baseFare in
  let finalFare := fareBeforeGst * (1 + GST_RATE) in
  Js.Math_round finalFare.

End Fare.

(** ** Data model *)

Record Vehicle := {
  plate : string;
  model : string
}.

Record VehicleTypeDetails := {
  capacity : Z;
  vehicles : list Vehicle
}.

(** [Record<string, VehicleTypeDetails>]: the entries in [Object.keys] order;
    the keys of an object are pairwise different. *)
Definition VehicleTypes := list (string * VehicleTypeDetails).

Inductive DriverStatus := online | offline.

Record Driver := {
  name : string;
  phone : string;
  username : string;
  password : option string;
  status : DriverStatus;
  position : option (float * float);
  avatar : option string
}.

Inductive BookingStatus := confirmed | assigned | cancelled.

(** The booking's own [driverStatus] field: 'online' | 'offline' | 'arrived'. *)
Inductive TripStatus := tripOnline | tripOffline | tripArrived.

(** A driver's status used where a booking's [driverStatus] is expected. *)
Definition tripStatusOf (s : DriverStatus) : TripStatus :=
  match s with online => tripOnline | offline => tripOffline end.

Inductive PaymentStatus := pending | paid.

Record Booking := {
  confirmationNumber : string;
  confirmationMessage : string;
  estimatedFare : float;
  estimatedTripDuration : string;
  estimatedArrivalTime : string;
  guestName : string;
  guestPhone : string;
  location : string;
  date : string;
  time : string;
  serviceType : string;
  vehicleType : string;
  driverName : option string;
  driverPhone : option string;
  assignedVehicle : option Vehicle;
  bookingStatus : BookingStatus;
  driverStatus : option TripStatus;
  driverPosition : option (float * float);
  paymentStatus : PaymentStatus;
  paymentId : option string;
  eta : option string
}.

Definition bookingStatus_eqb (a b : BookingStatus) : bool :=
  match a, b with
  | confirmed, confirmed | assigned, assigned | cancelled, cancelled => true
  | _, _ => false
  end.

Definition paymentStatus_eqb (a b : PaymentStatus) : bool :=
  match a, b with
  | pending, pending | paid, paid => true
  | _, _ => false
  end.

Inductive NotificationType := success | error | info.

(** A notification banner; its [id] (the clock value at creation) is left out. *)
Record Notification := {
  message : string;
  type : NotificationType
}.

(** The selection held by an [AdminBookingItem] while it is being edited. *)
Record Assignment := {
  driver : string;
  vehicle : string
}.

(** The React state read or written by the modelled handlers.  All fields
    but the last two are state of [App].  [justAssigned] is a state cell of
    the mounted [AdminDashboard] and [assignmentError] one of the mounted
    [AdminBookingItem] that is being edited: they live as long as that
    instance is mounted. *)
Record AppState := {
  bookings : list Booking;
  drivers : list Driver;
  vehicleTypes : VehicleTypes;
  notifications : list Notification;
  isEditingAssignment : option string;
  lastBooking : option Booking;
  guestBookings : list Booking;
  selectedBooking : option Booking;
  justAssigned : option string;
  assignmentError : string
}.

(** *** Object spreads *)

(** [{ ...b, driverName, driverPhone, assignedVehicle, driverStatus, bookingStatus }] *)
Definition spreadAssignment (b : Booking) (dn dp : option string)
    (av : option Vehicle) (ds : option TripStatus) (bs : BookingStatus) : Booking :=
  {| confirmationNumber := confirmationNumber b;
     confirmationMessage := confirmationMessage b;
     estimatedFare := estimatedFare b;
     estimatedTripDuration := estimatedTripDuration b;
     estimatedArrivalTime := estimatedArrivalTime b;
     guestName := guestName b;
     guestPhone := guestPhone b;
     location := location b;
     date := date b;
     time := time b;
     serviceType := serviceType b;
     vehicleType := vehicleType b;
     driverName := dn;
     driverPhone := dp;
     assignedVehicle := av;
     bookingStatus := bs;
     driverStatus := ds;
     driverPosition := driverPosition b;
     paymentStatus := paymentStatus b;
     paymentId := paymentId b;
     eta := eta b |}.

(** [{ ...b, bookingStatus }] *)
Definition spreadBookingStatus (b : Booking) (bs : BookingStatus) : Booking :=
  spreadAssignment b (driverName b) (driverPhone b) (assignedVehicle b)
    (driverStatus b) bs.

(** [{ ...b, paymentStatus, paymentId }] *)
Definition spreadPayment (b : Booking) (ps : PaymentStatus)
    (pid : option string) : Booking :=
  {| confirmationNumber := confirmationNumber b;
     confirmationMessage := confirmationMessage b;
     estimatedFare := estimatedFare b;
     estimatedTripDuration := estimatedTripDuration b;
     estimatedArrivalTime := estimatedArrivalTime b;
     guestName := guestName b;
     guestPhone := guestPhone b;
     location := location b;
     date := date b;
     time := time b;
     serviceType := serviceType b;
     vehicleType := vehicleType b;
     driverName := driverName b;
     driverPhone := driverPhone b;
     assignedVehicle := assignedVehicle b;
     bookingStatus := bookingStatus b;
     driverStatus := driverStatus b;
     driverPosition := driverPosition b;
     paymentStatus := ps;
     paymentId := pid;
     eta := eta b |}.

(** *** State setters *)

Definition Handler := AppState -> AppState.

(** Sequencing of two effects, the left one first. *)
Definition andThen (f g : Handler) : Handler := fun st => g (f st).
Declare Scope handler_scope.
Delimit Scope handler_scope with handler.
Bind Scope handler_scope with Handler.
Notation "f ;; g" := (andThen f g)
  (at level 61, left associativity) : handler_scope.
Local Open Scope handler_scope.

Definition skip : Handler := fun st => st.

Definition setBookings (f : list Booking -> list Booking) : Handler := fun st =>
  {| bookings := f (bookings st); drivers := drivers st;
     vehicleTypes := vehicleTypes st; notifications := notifications st;
     isEditingAssignment := isEditingAssignment st;
     lastBooking := lastBooking st; guestBookings := guestBookings st;
     selectedBooking := selectedBooking st; justAssigned := justAssigned st;
     assignmentError := assignmentError st |}.

Definition setNotifications (f : list Notification -> list Notification) : Handler :=
  fun st =>
  {| bookings := bookings st; drivers := drivers st;
     vehicleTypes := vehicleTypes st; notifications := f (notifications st);
     isEditingAssignment := isEditingAssignment st;
     lastBooking := lastBooking st; guestBookings := guestBookings st;
     selectedBooking := selectedBooking st; justAssigned := justAssigned st;
     assignmentError := assignmentError st |}.

Definition setIsEditingAssignment (v : option string) : Handler := fun st =>
  {| bookings := bookings st; drivers := drivers st;
     vehicleTypes := vehicleTypes st; notifications := notifications st;
     isEditingAssignment := v;
     lastBooking := lastBooking st; guestBookings := guestBookings st;
     selectedBooking := selectedBooking st; justAssigned := justAssigned st;
     assignmentError := assignmentError st |}.

Definition setLastBooking (f : option Booking -> option Booking) : Handler :=
  fun st =>
  {| bookings := bookings st; drivers := drivers st;
     vehicleTypes := vehicleTypes st; notifications := notifications st;
     isEditingAssignment := isEditingAssignment st;
     lastBooking := f (lastBooking st); guestBookings := guestBookings st;
     selectedBooking := selectedBooking st; justAssigned := justAssigned st;
     assignmentError := assignmentError st |}.

Definition setGuestBookings (f : list Booking -> list Booking) : Handler :=
  fun st =>
  {| bookings := bookings st; drivers := drivers st;
     vehicleTypes := vehicleTypes st; notifications := notifications st;
     isEditingAssignment := isEditingAssignment st;
     lastBooking := lastBooking st; guestBookings := f (guestBookings st);
     selectedBooking := selectedBooking st; justAssigned := justAssigned st;
     assignmentError := assignmentError st |}.

Definition setSelectedBooking (f : option Booking -> option Booking) : Handler :=
  fun st =>
  {| bookings := bookings st; drivers := drivers st;
     vehicleTypes := vehicleTypes st; notifications := notifications st;
     isEditingAssignment := isEditingAssignment st;
     lastBooking := lastBooking st; guestBookings := guestBookings st;
     selectedBooking := f (selectedBooking st); justAssigned := justAssigned st;
     assignmentError := assignmentError st |}.

Definition setJustAssigned (v : option string) : Handler := fun st =>
  {| bookings := bookings st; drivers := drivers st;
     vehicleTypes := vehicleTypes st; notifications := notifications st;
     isEditingAssignment := isEditingAssignment st;
     lastBooking := lastBooking st; guestBookings := guestBookings st;
     selectedBooking := selectedBooking st; justAssigned := v;
     assignmentError := assignmentError st |}.

Definition setAssignmentError (v : string) : Handler := fun st =>
  {| bookings := bookings st; drivers := drivers st;
     vehicleTypes := vehicleTypes st; notifications := notifications st;
     isEditingAssignment := isEditingAssignment st;
     lastBooking := lastBooking st; guestBookings := guestBookings st;
     selectedBooking := selectedBooking st; justAssigned := justAssigned st;
     assignmentError := v |}.

(** [addNotification]: appends the banner (its timed removal is not modelled). *)
Definition addNotification (msg : string) (ty : NotificationType) : Handler :=
  setNotifications (fun prev => (prev ++ [{| message := msg; type := ty |}])%list).

(** The end of an event of the admin dashboard whose handler has set state
    of [App] (the booking list, a banner, the drivers, ...).  [App] renders
    again; [AdminDashboard] and [AdminBookingItem], being declared inside
    [App], are new component functions, so the mounted dashboard and its
    items are replaced by fresh instances.  Their state cells start from the
    initial values [useState(null)] and [useState('')], and the updates the
    handler requested of the replaced instances in the same event are lost.
    A handler that sets local state only causes no render of [App] and does
    not end with this step. *)
Definition remountAdminDashboard : Handler :=
  setJustAssigned None ;; setAssignmentError "".

(** ** Overlap detector and the handlers *)

Section Scheduling.

(** [new Date(s).getTime()], the host's date parser: the time value in
    milliseconds, or [None] where the host answers NaN. *)
Variable getTime : string -> option Z.

Definition DURATION_MS : Z := 90 * 60 * 1000.

(** The start of a booking: [new Date(`${date}T${time}`).getTime()]. *)
Definition startOf (b : Booking) : option Z :=
  getTime (date b ++ "T" ++ time b).

Definition isTimeOverlapping (bookingA bookingB : Booking) : bool :=
  match startOf bookingA with
  | None => false
  | Some startA =>
      let endA := (startA + DURATION_MS)%Z in
      match startOf bookingB with
      | None => false
      | Some startB =>
          let endB := (startB + DURATION_MS)%Z in
          (startA <? endB)%Z && (endA >? startB)%Z
      end
  end.

(** [a || null] on a string that may be missing: the empty string is falsy. *)
Definition orNull (a : option string) : option string :=
  match a with
  | Some s => if Js.truthy s then Some s else None
  | None => None
  end.

Definition findDriver (driverName : string) (ds : list Driver) : option Driver :=
  find (fun d => name d =? driverName) ds.

(** The vehicle lookup of [handleAssignDriver]: the first type (in key order)
    one of whose vehicles carries the plate, then the first such vehicle of
    that type; an empty key is falsy and yields [null]. *)
Definition findVehicle (vehiclePlate : string) (vts : VehicleTypes) : option Vehicle :=
  let vehicleTypeKey :=
    find (fun entry => existsb (fun v => plate v =? vehiclePlate)
                               (vehicles (snd entry))) vts in
  match vehicleTypeKey with
  | Some (key, details) =>
      if Js.truthy key
      then find (fun v => plate v =? vehiclePlate) (vehicles details)
      else None
  | None => None
  end.

Definition handleAssignDriver (bookingConfirmation driverName vehiclePlate : string)
    : Handler := fun st =>
  let driver := findDriver driverName (drivers st) in
  let vehicle := findVehicle vehiclePlate (vehicleTypes st) in
  (setBookings (map (fun b =>
     if confirmationNumber b =? bookingConfirmation
     then spreadAssignment b (Some driverName)
            (orNull (option_map phone driver))
            vehicle
            (Some (match driver with
                   | Some d => tripStatusOf (status d)
                   | None => tripOffline
                   end))
            assigned
     else b)) ;;
   addNotification
     ("Driver assigned to booking #" ++ Js.sliceLast4 bookingConfirmation) success ;;
   setIsEditingAssignment None) st.

Definition localHandleAssignDriver (bookingConfirmation driverName vehiclePlate : string)
    : Handler :=
  handleAssignDriver bookingConfirmation driverName vehiclePlate ;;
  setJustAssigned (Some bookingConfirmation).

(** The plate of [b.assignedVehicle?.plate]. *)
Definition assignedPlate (b : Booking) : option string :=
  option_map plate (assignedVehicle b).

Definition optEqb (a : option string) (s : string) : bool :=
  match a with Some x => x =? s | None => false end.

Definition driverIsBooked (bs : list Booking) (booking : Booking)
    (assignment : Assignment) : bool :=
  existsb (fun b =>
    negb (confirmationNumber b =? confirmationNumber booking) &&
    optEqb (driverName b) (driver assignment) &&
    negb (bookingStatus_eqb (bookingStatus b) cancelled) &&
    isTimeOverlapping booking b) bs.

Definition vehicleIsBooked (bs : list Booking) (booking : Booking)
    (assignment : Assignment) : bool :=
  existsb (fun b =>
    negb (confirmationNumber b =? confirmationNumber booking) &&
    optEqb (assignedPlate b) (vehicle assignment) &&
    negb (bookingStatus_eqb (bookingStatus b) cancelled) &&
    isTimeOverlapping booking b) bs.

(** [selectedDriverDetails?.status === 'offline'] *)
Definition selectedDriverOffline (ds : list Driver) (assignment : Assignment) : bool :=
  match findDriver (driver assignment) ds with
  | Some d => match status d with offline => true | online => false end
  | None => false
  end.

(** The click on Save of the booking item showing [booking], with the
    current selection [assignment]: [handleSave], then the render it causes.
    The first path sets the item's own [assignmentError] only, and the text
    stays under the selection.  Every other path calls [addNotification],
    which sets state of [App]: the event ends with the dashboard mounted
    anew, so the error is shown by the banner alone, and the mark requested
    by [localHandleAssignDriver] is never shown. *)
Definition handleSave (booking : Booking) (assignment : Assignment) : Handler :=
  fun st =>
  let st := setAssignmentError "" st in
  if negb (Js.truthy (driver assignment)) || negb (Js.truthy (vehicle assignment))
  then setAssignmentError "Please select both a driver and a vehicle." st
  else if selectedDriverOffline (drivers st) assignment then
    let errorMessage :=
      "Driver " ++ driver assignment ++ " is currently offline and cannot be assigned." in
    (setAssignmentError errorMessage ;; addNotification errorMessage error ;;
     remountAdminDashboard) st
  else if driverIsBooked (bookings st) booking assignment then
    let errorMessage :=
      "Driver " ++ driver assignment ++ " has an overlapping booking." in
    (setAssignmentError errorMessage ;; addNotification errorMessage error ;;
     remountAdminDashboard) st
  else if vehicleIsBooked (bookings st) booking assignment then
    let errorMessage :=
      "Vehicle " ++ vehicle assignment ++ " has an overlapping booking." in
    (setAssignmentError errorMessage ;; addNotification errorMessage error ;;
     remountAdminDashboard) st
  else
    (localHandleAssignDriver (confirmationNumber booking)
       (driver assignment) (vehicle assignment) ;;
     remountAdminDashboard) st.

Definition handleCancelBooking (cn : string) : Handler := fun st =>
  (setBookings (map (fun b =>
     if confirmationNumber b =? cn
     then spreadAssignment b None None None (Some tripOffline) cancelled
     else b)) ;;
   setGuestBookings (map (fun b =>
     if confirmationNumber b =? cn then spreadBookingStatus b cancelled else b)) ;;
   (if optEqb (option_map confirmationNumber (selectedBooking st)) cn
    then setSelectedBooking (option_map (fun prev => spreadBookingStatus prev cancelled))
    else skip) ;;
   addNotification
     ("Booking #" ++ Js.sliceLast4 cn ++ " has been cancelled.") info) st.

(** [updatePaymentStatus] of the payment handler. *)
Definition updatePaymentStatus (paymentId : string) (b : Booking) : Booking :=
  spreadPayment b paid (Some paymentId).

(** The [handler] callback that [handlePayment booking] hands to the payment
    widget, called with the widget's [razorpay_payment_id]. *)
Definition paymentHandler (booking : Booking) (paymentId : string) : Handler :=
  fun st =>
  let cn := confirmationNumber booking in
  (addNotification "Payment Successful! Thank you." success ;;
   setBookings (map (fun b =>
     if confirmationNumber b =? cn then updatePaymentStatus paymentId b else b)) ;;
   (if optEqb (option_map confirmationNumber (lastBooking st)) cn
    then setLastBooking (option_map (updatePaymentStatus paymentId))
    else skip) ;;
   (if optEqb (option_map confirmationNumber (selectedBooking st)) cn
    then setSelectedBooking (option_map (updatePaymentStatus paymentId))
    else skip) ;;
   setGuestBookings (map (fun b =>
     if confirmationNumber b =? cn then updatePaymentStatus paymentId b else b))) st.

(** The two places that offer the payment button: the confirmation screen
    and the guest's booking details. *)
Definition payNowOnConfirmation (lastBooking : Booking) : bool :=
  paymentStatus_eqb (paymentStatus lastBooking) pending.

Definition payNowOnDetails (selectedBooking : Booking) : bool :=
  paymentStatus_eqb (paymentStatus selectedBooking) pending &&
  negb (bookingStatus_eqb (bookingStatus selectedBooking) cancelled).

End Scheduling.

(** ** Tracking simulator: the simulated ETA *)

Section Tracking.

(** The host's number-to-string conversion, consulted only outside the safe
    integers (where the shortest round-trip digits are needed). *)
Variable hostNumberToString : float -> string.

(** The string a template literal gives a number: NaN, the infinities, zero
    and every integral value of magnitude below 2^53 are printed here, in
    decimal digits. *)
Definition numberToString (x : float) : string :=
  match Prim2SF x with
  | S754_nan => "NaN"
  | S754_infinity false => "Infinity"
  | S754_infinity true => "-Infinity"
  | S754_zero _ => "0"
  | S754_finite s m e =>
      let den := (2 ^ (- e))%Z in
      if (e <=? 0)%Z && (Z.pos m mod den =? 0)%Z then
        let digits :=
          DecimalString.NilZero.string_of_uint (N.to_uint (Z.to_N (Z.pos m / den))) in
        if s then "-" ++ digits else digits
      else hostNumberToString x
  end.

Definition calculateSimulatedETA (progress : float) : string :=
  if (1 <=? progress)%float then "Arrived"
  else if (0.95 <? progress)%float then "Arriving now"
  else
    let totalMinutes := 15%float in
    let remainingMinutes := Js.Math_round (totalMinutes * (1 - progress))%float in
    if (remainingMinutes <=? 1)%float then "Less than a minute"
    else "approx. " ++ numberToString remainingMinutes ++ " mins".

End Tracking.

(** ** A sample host

    A date parser for the form [YYYY-MM-DDTHH:mm] that the date and time
    inputs produce, read in a zone whose offset is zero, and a number
    formatter that is never consulted on safe integers.  They serve to run
    the model on concrete inputs. *)

Module SampleHost.

Definition digit (c : ascii) : option Z :=
  let n := nat_of_ascii c in
  if ((48 <=? n) && (n <=? 57))%nat then Some (Z.of_nat (n - 48)) else None.

Fixpoint digits (acc : Z) (s : string) : option Z :=
  match s with
  | EmptyString => Some acc
  | String c r =>
      match digit c with
      | Some d => digits (10 * acc + d) r
      | None => None
      end
  end.

Definition field (from len : nat) (s : string) : option Z :=
  let part := String.substring from len s in
  if (String.length part =? len)%nat then digits 0 part else None.

(** Days from 1970-01-01 to the given civil date. *)
Definition daysFromCivil (y m d : Z) : Z :=
  let y' := if (m <=? 2)%Z then (y - 1)%Z else y in
  let era := (y' / 400)%Z in
  let yoe := (y' - era * 400)%Z in
  let mp := if (m >? 2)%Z then (m - 3)%Z else (m + 9)%Z in
  let doy := ((153 * mp + 2) / 5 + d - 1)%Z in
  let doe := (yoe * 365 + yoe / 4 - yoe / 100 + doy)%Z in
  (era * 146097 + doe - 719468)%Z.

Definition getTime (s : string) : option Z :=
  match field 0 4 s, field 5 2 s, field 8 2 s, field 11 2 s, field 14 2 s with
  | Some y, Some m, Some d, Some hh, Some mm =>
      if ((String.length s =? 16)%nat
          && (String.substring 4 1 s =? "-") && (String.substring 7 1 s =? "-")
          && (String.substring 10 1 s =? "T") && (String.substring 13 1 s =? ":")
          && (1 <=? m)%Z && (m <=? 12)%Z && (1 <=? d)%Z && (d <=? 31)%Z
          && (hh <=? 23)%Z && (mm <=? 59)%Z)
      then Some (((daysFromCivil y m d * 24 + hh) * 60 + mm) * 60000)%Z
      else None
  | _, _, _, _, _ => None
  end.

Definition numberToString (x : float) : string := "?".

End SampleHost.

(** * Further handlers

    The rest of the handlers of [src/index.tsx] that read or write the
    stores: booking creation, login and logout, guest tracking, driver and
    vehicle management, the availability lists of the assignment form, the
    driver's status effects, the simulation tick and the map zoom. *)

(** ** Host functions: [Math.min], [Math.max], integers as numbers *)

Module JsMath.

(** An integer as a number (exact below 2^53 in magnitude). *)
Definition numberOfZ (z : Z) : float :=
  if (z <? 0)%Z then (- Js.ofZ (- z))%float else Js.ofZ z.

Definition isNegativeZero (x : float) : bool :=
  PrimFloat.is_zero x && PrimFloat.get_sign x.

(** [Math.min(a, b)]: NaN if either is NaN; -0 counts as below +0. *)
Definition Math_min (a b : float) : float :=
  if PrimFloat.is_nan a || PrimFloat.is_nan b then nan
  else if (a <? b)%float then a
  else if (b <? a)%float then b
  else if isNegativeZero a then a else b.

(** [Math.max(a, b)]: NaN if either is NaN; +0 counts as above -0. *)
Definition Math_max (a b : float) : float :=
  if PrimFloat.is_nan a || PrimFloat.is_nan b then nan
  else if (a <? b)%float then b
  else if (b <? a)%float then a
  else if isNegativeZero a then b else a.

End JsMath.

(** ** More setters and spreads *)

Definition setDrivers (f : list Driver -> list Driver) : Handler := fun st =>
  {| bookings := bookings st; drivers := f (drivers st);
     vehicleTypes := vehicleTypes st; notifications := notifications st;
     isEditingAssignment := isEditingAssignment st;
     lastBooking := lastBooking st; guestBookings := guestBookings st;
     selectedBooking := selectedBooking st; justAssigned := justAssigned st;
     assignmentError := assignmentError st |}.

Definition setVehicleTypes (f : VehicleTypes -> VehicleTypes) : Handler := fun st =>
  {| bookings := bookings st; drivers := drivers st;
     vehicleTypes := f (vehicleTypes st); notifications := notifications st;
     isEditingAssignment := isEditingAssignment st;
     lastBooking := lastBooking st; guestBookings := guestBookings st;
     selectedBooking := selectedBooking st; justAssigned := justAssigned st;
     assignmentError := assignmentError st |}.

(** [{ ...d, status, position }] *)
Definition spreadDriverStatus (d : Driver) (s : DriverStatus)
    (pos : option (float * float)) : Driver :=
  {| name := name d; phone := phone d; username := username d;
     password := password d; status := s; position := pos;
     avatar := avatar d |}.

(** [{ ...d, avatar }] *)
Definition spreadAvatar (d : Driver) (a : string) : Driver :=
  {| name := name d; phone := phone d; username := username d;
     password := password d; status := status d; position := position d;
     avatar := Some a |}.

(** [{ ...b, driverPosition, driverStatus, eta }] *)
Definition spreadTracking (b : Booking) (pos : float * float)
    (ds : TripStatus) (e : string) : Booking :=
  {| confirmationNumber := confirmationNumber b;
     confirmationMessage := confirmationMessage b;
     estimatedFare := estimatedFare b;
     estimatedTripDuration := estimatedTripDuration b;
     estimatedArrivalTime := estimatedArrivalTime b;
     guestName := guestName b;
     guestPhone := guestPhone b;
     location := location b;
     date := date b;
     time := time b;
     serviceType := serviceType b;
     vehicleType := vehicleType b;
     driverName := driverName b;
     driverPhone := driverPhone b;
     assignedVehicle := assignedVehicle b;
     bookingStatus := bookingStatus b;
     driverStatus := Some ds;
     driverPosition := Some pos;
     paymentStatus := paymentStatus b;
     paymentId := paymentId b;
     eta := Some e |}.

(** [{ ...b, driverStatus }] *)
Definition spreadDriverStatusOfBooking (b : Booking) (ds : TripStatus) : Booking :=
  spreadAssignment b (driverName b) (driverPhone b) (assignedVehicle b)
    (Some ds) (bookingStatus b).

(** ** Screen state outside the stores *)

(** The guest screen: the booking form and its flags. *)
Module Form.

Record t := {
  serviceType : string;
  location : string;
  date : string;
  time : string;
  passengers : float;
  selectedVehicleType : string;
  guestName : string;
  guestPhone : string;
  formError : string;
  isLoading : bool;
  isConfirmationVisible : bool;
  isTermsModalVisible : bool;
  suggestedLocations : list string;
  activeLocationSuggestions : bool
}.

End Form.

(** The details the text service generates for a new booking (the four
    properties of its response schema). *)
Module Generated.

Record t := {
  confirmationNumber : string;
  confirmationMessage : string;
  estimatedTripDuration : string;
  estimatedArrivalTime : string
}.

End Generated.

Module Session.

Record t := {
  currentUserRole : string;
  loginRole : string;
  loggedInDriver : option Driver;
  loginError : string;
  isLoginPopoverOpen : bool
}.

End Session.

Module Tracking.

Record t := {
  isTracking : bool;
  trackingPhone : string;
  trackingError : string
}.

End Tracking.

Record World := {
  app : AppState;
  form : Form.t;
  session : Session.t;
  tracking : Tracking.t
}.

(** The state cells of the mounted admin dashboard that driver and vehicle
    management use. *)
Module Admin.

Record t := {
  newDriverName : string;
  newDriverPhone : string;
  newDriverUsername : string;
  newDriverPassword : string;
  newDriverAvatar : string;
  driverError : string;
  newVehiclePlate : string;
  newVehicleModel : string;
  vehicleError : string;
  justAddedItem : option (string * string)
}.

(** The cells of a dashboard that has just been mounted: the initial values
    of its [useState] calls. *)
Definition initial (defaultAvatarSvg : string) : t :=
  {| newDriverName := ""; newDriverPhone := ""; newDriverUsername := "";
     newDriverPassword := ""; newDriverAvatar := defaultAvatarSvg;
     driverError := "";
     newVehiclePlate := ""; newVehicleModel := ""; vehicleError := "";
     justAddedItem := None |}.

End Admin.

(** A handler either returns or throws; the state updates it made before
    throwing stay. *)
Inductive Outcome (A : Type) : Type :=
  | Returned (a : A)
  | Threw (a : A).
Arguments Returned {A} a.
Arguments Threw {A} a.

Definition stateOf {A : Type} (o : Outcome A) : A :=
  match o with Returned a => a | Threw a => a end.

(** ** Booking creation *)

(** The booking built by [handleBooking] from the form and the generated
    details. *)
Definition newBooking (resultJson : Generated.t) (f : Form.t) : Booking :=
  {| confirmationNumber := Generated.confirmationNumber resultJson;
     confirmationMessage := Generated.confirmationMessage resultJson;
     estimatedFare := estimateFare (Form.location f) (Form.selectedVehicleType f);
     estimatedTripDuration := Generated.estimatedTripDuration resultJson;
     estimatedArrivalTime := Generated.estimatedArrivalTime resultJson;
     guestName := Form.guestName f;
     guestPhone := Form.guestPhone f;
     location := Form.location f;
     date := Form.date f;
     time := Form.time f;
     serviceType := Form.serviceType f;
     vehicleType := Form.selectedVehicleType f;
     driverName := None;
     driverPhone := None;
     assignedVehicle := None;
     bookingStatus := confirmed;
     driverStatus := Some tripOffline;
     driverPosition := Some (15%float, 50%float);
     paymentStatus := pending;
     paymentId := None;
     eta := None |}.

(** [handleBooking]; [response] is the parsed answer of the text service,
    [None] when the call or the parsing throws. *)
Definition handleBooking (response : option Generated.t) (w : World) : World :=
  let f := form w in
  if negb (Js.truthy (Form.guestName f)) || negb (Js.truthy (Form.guestPhone f))
     || negb (Js.truthy (Form.location f)) || negb (Js.truthy (Form.date f))
     || negb (Js.truthy (Form.time f))
  then
    {| app := app w;
       form :=
         {| Form.serviceType := Form.serviceType f; Form.location := Form.location f;
            Form.date := Form.date f; Form.time := Form.time f;
            Form.passengers := Form.passengers f;
            Form.selectedVehicleType := Form.selectedVehicleType f;
            Form.guestName := Form.guestName f; Form.guestPhone := Form.guestPhone f;
            Form.formError := "Please fill out all required fields.";
            Form.isLoading := Form.isLoading f;
            Form.isConfirmationVisible := Form.isConfirmationVisible f;
            Form.isTermsModalVisible := Form.isTermsModalVisible f;
            Form.suggestedLocations := Form.suggestedLocations f;
            Form.activeLocationSuggestions := Form.activeLocationSuggestions f |};
       session := session w; tracking := tracking w |}
  else
    match response with
    | Some resultJson =>
        let b := newBooking resultJson f in
        {| app := (setBookings (fun prev => (prev ++ [b])%list) ;;
                   setLastBooking (fun _ => Some b)) (app w);
           form :=
             {| Form.serviceType := Form.serviceType f; Form.location := "";
                Form.date := ""; Form.time := "";
                Form.passengers := 1%float;
                Form.selectedVehicleType := Form.selectedVehicleType f;
                Form.guestName := ""; Form.guestPhone := "";
                Form.formError := "";
                Form.isLoading := false;
                Form.isConfirmationVisible := true;
                Form.isTermsModalVisible := Form.isTermsModalVisible f;
                Form.suggestedLocations := Form.suggestedLocations f;
                Form.activeLocationSuggestions := Form.activeLocationSuggestions f |};
           session := session w; tracking := tracking w |}
    | None =>
        {| app := addNotification "Failed to create booking. Please try again."
                    error (app w);
           form :=
             {| Form.serviceType := Form.serviceType f; Form.location := Form.location f;
                Form.date := Form.date f; Form.time := Form.time f;
                Form.passengers := Form.passengers f;
                Form.selectedVehicleType := Form.selectedVehicleType f;
                Form.guestName := Form.guestName f; Form.guestPhone := Form.guestPhone f;
                Form.formError := "An unexpected error occurred. Please try again later.";
                Form.isLoading := false;
                Form.isConfirmationVisible := Form.isConfirmationVisible f;
                Form.isTermsModalVisible := Form.isTermsModalVisible f;
                Form.suggestedLocations := Form.suggestedLocations f;
                Form.activeLocationSuggestions := Form.activeLocationSuggestions f |};
           session := session w; tracking := tracking w |}
    end.

(** ** Login and logout *)

Definition withSession (w : World) (a : AppState) (s : Session.t) : World :=
  {| app := a; form := form w; session := s; tracking := tracking w |}.

(** [handleLogin] with the username and password read from the form. *)
Definition handleLogin (enteredUsername enteredPassword : string) (w : World) : World :=
  let s := session w in
  let cleared (role : string) (d : option Driver) (err : string) : Session.t :=
    {| Session.currentUserRole := role; Session.loginRole := Session.loginRole s;
       Session.loggedInDriver := d; Session.loginError := err;
       Session.isLoginPopoverOpen := Session.isLoginPopoverOpen s |} in
  if Session.loginRole s =? "admin" then
    if (enteredUsername =? "admin") && (enteredPassword =? "admin123")
    then withSession w
           (addNotification "Successfully logged in as Admin." success (app w))
           (cleared "admin" (Session.loggedInDriver s) "")
    else withSession w (app w)
           (cleared (Session.currentUserRole s) (Session.loggedInDriver s)
              "Invalid admin credentials.")
  else if Session.loginRole s =? "driver" then
    match find (fun d => (username d =? enteredUsername)
                         && optEqb (password d) enteredPassword)
               (drivers (app w)) with
    | Some d =>
        withSession w
          (addNotification ("Welcome, " ++ name d ++ "!") success (app w))
          (cleared "driver" (Some d) "")
    | None =>
        withSession w (app w)
          (cleared (Session.currentUserRole s) (Session.loggedInDriver s)
             "Invalid driver credentials.")
    end
  else
    withSession w (app w)
      (cleared (Session.currentUserRole s) (Session.loggedInDriver s) "").

(** [handleLogout]. *)
Definition handleLogout (w : World) : World :=
  let role := Session.currentUserRole (session w) in
  let a :=
    ((if (role =? "admin") || (role =? "driver")
      then addNotification "You have been logged out." info else skip) ;;
     setGuestBookings (fun _ => []) ;;
     setSelectedBooking (fun _ => None) ;;
     setLastBooking (fun _ => None) ;;
     setIsEditingAssignment None) (app w) in
  {| app := a;
     form :=
       {| Form.serviceType := "pickup"; Form.location := "";
          Form.date := ""; Form.time := "";
          Form.passengers := 1%float;
          Form.selectedVehicleType := "Standard Sedan";
          Form.guestName := ""; Form.guestPhone := "";
          Form.formError := "";
          Form.isLoading := Form.isLoading (form w);
          Form.isConfirmationVisible := false;
          Form.isTermsModalVisible := false;
          Form.suggestedLocations := [];
          Form.activeLocationSuggestions := false |};
     session :=
       {| Session.currentUserRole := "guest"; Session.loginRole := "";
          Session.loggedInDriver := None; Session.loginError := "";
          Session.isLoginPopoverOpen := false |};
     tracking :=
       {| Tracking.isTracking := false; Tracking.trackingPhone := "";
          Tracking.trackingError := "" |} |}.

(** ** Guest tracking *)

Section GuestTracking.

Variable getTime : string -> option Z.

(** [Array.prototype.sort] with a comparator that may answer NaN ([None]):
    the order is the host's, the elements are those of the array. *)
Variable arraySort :
  (Booking -> Booking -> option Z) -> list Booking -> list Booking.

(** [new Date(..b..).getTime() - new Date(..a..).getTime()] *)
Definition newestFirst (a b : Booking) : option Z :=
  match startOf getTime b, startOf getTime a with
  | Some tb, Some ta => Some (tb - ta)%Z
  | _, _ => None
  end.

Definition handleTrackBooking (w : World) : World :=
  let phone := Tracking.trackingPhone (tracking w) in
  let foundBookings :=
    arraySort newestFirst
      (filter (fun b => guestPhone b =? phone) (bookings (app w))) in
  match foundBookings with
  | _ :: _ =>
      {| app := (setGuestBookings (fun _ => foundBookings) ;;
                 setSelectedBooking (fun _ => None)) (app w);
         form := form w; session := session w;
         tracking :=
           {| Tracking.isTracking := Tracking.isTracking (tracking w);
              Tracking.trackingPhone := phone;
              Tracking.trackingError := "" |} |}
  | [] =>
      {| app := (setGuestBookings (fun _ => []) ;;
                 setSelectedBooking (fun _ => None)) (app w);
         form := form w; session := session w;
         tracking :=
           {| Tracking.isTracking := Tracking.isTracking (tracking w);
              Tracking.trackingPhone := phone;
              Tracking.trackingError := "No bookings found for this mobile number." |} |}
  end.

End GuestTracking.

(** ** Driver and vehicle management

    These handlers are declared in [AdminDashboard].  One that sets state of
    [App] ends with the dashboard mounted anew ([remountAdminDashboard]): the
    cells of [Admin.t] are then those of a fresh dashboard, [Admin.initial],
    whatever the handler requested of the replaced one. *)

(** [vehicleTypes[type]] *)
Definition lookupType (type : string) (vts : VehicleTypes) : option VehicleTypeDetails :=
  option_map snd (find (fun entry => fst entry =? type) vts).

(** The object with the [vehicles] of the entry [type] replaced. *)
Fixpoint updateVehicles (type : string) (f : list Vehicle -> list Vehicle)
    (vts : VehicleTypes) : VehicleTypes :=
  match vts with
  | [] => []
  | (key, details) :: rest =>
      if key =? type
      then (key, {| capacity := capacity details; vehicles := f (vehicles details) |})
           :: rest
      else (key, details) :: updateVehicles type f rest
  end.

Definition withVehicleError (ad : Admin.t) (e : string) : Admin.t :=
  {| Admin.newDriverName := Admin.newDriverName ad;
     Admin.newDriverPhone := Admin.newDriverPhone ad;
     Admin.newDriverUsername := Admin.newDriverUsername ad;
     Admin.newDriverPassword := Admin.newDriverPassword ad;
     Admin.newDriverAvatar := Admin.newDriverAvatar ad;
     Admin.driverError := Admin.driverError ad;
     Admin.newVehiclePlate := Admin.newVehiclePlate ad;
     Admin.newVehicleModel := Admin.newVehicleModel ad;
     Admin.vehicleError := e;
     Admin.justAddedItem := Admin.justAddedItem ad |}.

Section Management.

(** The constant [defaultAvatarSvg]. *)
Variable defaultAvatarSvg : string.

(** [handleAddDriver].  A refusal sets [driverError] only.  An accepted
    request sets the drivers and a banner, so the dashboard is mounted anew:
    its fields are empty again, as the handler asks, and the
    [justAddedItem] it asks for is not kept. *)
Definition handleAddDriver (ad : Admin.t) (st : AppState) : AppState * Admin.t :=
  let withError (e : string) : Admin.t :=
    {| Admin.newDriverName := Admin.newDriverName ad;
       Admin.newDriverPhone := Admin.newDriverPhone ad;
       Admin.newDriverUsername := Admin.newDriverUsername ad;
       Admin.newDriverPassword := Admin.newDriverPassword ad;
       Admin.newDriverAvatar := Admin.newDriverAvatar ad;
       Admin.driverError := e;
       Admin.newVehiclePlate := Admin.newVehiclePlate ad;
       Admin.newVehicleModel := Admin.newVehicleModel ad;
       Admin.vehicleError := Admin.vehicleError ad;
       Admin.justAddedItem := Admin.justAddedItem ad |} in
  if negb (Js.truthy (Admin.newDriverName ad))
     || negb (Js.truthy (Admin.newDriverPhone ad))
     || negb (Js.truthy (Admin.newDriverUsername ad))
     || negb (Js.truthy (Admin.newDriverPassword ad))
  then (st, withError "All fields are required.")
  else if existsb (fun d => username d =? Admin.newDriverUsername ad) (drivers st)
  then (st, withError "Username already exists.")
  else
    let newDriver :=
      {| name := Admin.newDriverName ad; phone := Admin.newDriverPhone ad;
         username := Admin.newDriverUsername ad;
         password := Some (Admin.newDriverPassword ad);
         status := online; position := None;
         avatar := Some (Admin.newDriverAvatar ad) |} in
    ((setDrivers (fun prev => (prev ++ [newDriver])%list) ;;
      addNotification "New driver added successfully." success ;;
      remountAdminDashboard) st,
     Admin.initial defaultAvatarSvg).

(** [handleAddVehicle(e, type)]: pushing onto the vehicles of a type that
    is no key of the object throws, after [vehicleError] has been cleared
    and before any state of [App] is set. *)
Definition handleAddVehicle (type : string) (ad : Admin.t) (st : AppState)
    : Outcome (AppState * Admin.t) :=
  if negb (Js.truthy (Admin.newVehiclePlate ad))
     || negb (Js.truthy (Admin.newVehicleModel ad))
  then Returned (st, withVehicleError ad "Plate and model are required.")
  else
    let newVehicle :=
      {| plate := Admin.newVehiclePlate ad; model := Admin.newVehicleModel ad |} in
    match lookupType type (vehicleTypes st) with
    | None => Threw (st, withVehicleError ad "")
    | Some _ =>
        Returned
          ((setVehicleTypes
              (updateVehicles type (fun vs => (vs ++ [newVehicle])%list)) ;;
            addNotification "New vehicle added." success ;;
            remountAdminDashboard) st,
           Admin.initial defaultAvatarSvg)
    end.

End Management.

Definition handleRemoveDriver (removed : string) : Handler :=
  setDrivers (filter (fun d => negb (username d =? removed))) ;;
  addNotification "Driver removed." info ;;
  remountAdminDashboard.

(** [handleRemoveVehicle(type, plate)]; it throws on a type that is no key. *)
Definition handleRemoveVehicle (type removed : string) (st : AppState)
    : Outcome AppState :=
  match lookupType type (vehicleTypes st) with
  | None => Threw st
  | Some _ =>
      Returned
        ((setVehicleTypes
            (updateVehicles type (filter (fun v => negb (plate v =? removed)))) ;;
          addNotification "Vehicle removed." info ;;
          remountAdminDashboard) st)
  end.

(** [handleFileRead]: the promise of the data URL of a file.  [size] is
    [file.size] and [readResult] what the [FileReader] ends with: the data
    URL on [onload], nothing on [onerror].  The promise is rejected with an
    [Error] carrying a message when the file is too large, and with the
    reader's event, which has no message, when the reading fails. *)
Inductive FileRead :=
  | Resolved (dataUrl : string)
  | Rejected (message : option string).

Definition handleFileRead (size : Z) (readResult : option string) : FileRead :=
  if (size >? 2 * 1024 * 1024)%Z then Rejected (Some "File size exceeds 2MB.")
  else match readResult with
       | Some dataUrl => Resolved dataUrl
       | None => Rejected None
       end.

(** [handleDriverAvatarChange(e, username)]: [file] is [e.target.files[0]],
    given by its size and the outcome of its reading, [None] when no file
    was chosen.  The state is the one at the time the promise settles. *)
Definition handleDriverAvatarChange (file : option (Z * option string))
    (changed : string) : Handler :=
  match file with
  | None => skip
  | Some (size, readResult) =>
      match handleFileRead size readResult with
      | Resolved base64 =>
          setDrivers (map (fun d =>
            if username d =? changed then spreadAvatar d base64 else d)) ;;
          addNotification "Avatar updated successfully." success ;;
          remountAdminDashboard
      | Rejected m =>
          addNotification
            ("Error: " ++ match orNull m with
                          | Some text => text
                          | None => "Failed to read file."
                          end) error ;;
          remountAdminDashboard
      end
  end.

(** ** The availability lists of the assignment form *)

Section Availability.

Variable getTime : string -> option Z.

(** [new Date(t).toLocaleTimeString('en-GB', { hour: '2-digit', minute:
    '2-digit' })] of a time value. *)
Variable toLocaleTimeString : Z -> string.

(** A [Map<string, string>], in insertion order. *)
Definition ConflictMap := list (string * string).

Definition mapHas (k : string) (m : ConflictMap) : bool :=
  existsb (fun e => fst e =? k) m.

Definition mapGet (k : string) (m : ConflictMap) : option string :=
  option_map snd (find (fun e => fst e =? k) m).

(** [m.set(k, v)] on a map that does not hold [k]. *)
Definition mapSet (k v : string) (m : ConflictMap) : ConflictMap :=
  (m ++ [(k, v)])%list.

Definition getEndTime (d t : string) : string :=
  match getTime (d ++ "T" ++ t) with
  | None => ""
  | Some start => toLocaleTimeString (start + DURATION_MS)%Z
  end.

Definition allOtherBookings (bs : list Booking) (booking : Booking) : list Booking :=
  filter (fun b =>
    negb (confirmationNumber b =? confirmationNumber booking) &&
    negb (bookingStatus_eqb (bookingStatus b) cancelled)) bs.

(** The body of the two [if]s of the loop: record the window of
    [otherBooking] under [key] unless the key is missing, empty or taken. *)
Definition noteConflict (key : option string) (otherBooking : Booking)
    (m : ConflictMap) : ConflictMap :=
  match key with
  | Some k =>
      if Js.truthy k && negb (mapHas k m)
      then mapSet k ("Booked " ++ time otherBooking ++ " - "
                     ++ getEndTime (date otherBooking) (time otherBooking)) m
      else m
  | None => m
  end.

(** [driverConflicts] and [vehicleConflicts] after the loop (the lists are
    built this way while the booking's form is open for editing). *)
Definition conflictMaps (bs : list Booking) (booking : Booking)
    : ConflictMap * ConflictMap :=
  fold_left
    (fun maps otherBooking =>
       if isTimeOverlapping getTime booking otherBooking
       then (noteConflict (driverName otherBooking) otherBooking (fst maps),
             noteConflict (assignedPlate otherBooking) otherBooking (snd maps))
       else maps)
    (allOtherBookings bs booking) ([], []).

(** An entry of [allDriversWithStatus]. *)
Record DriverOption := {
  optionDriver : Driver;
  isOffline : bool;
  driverConflictNote : option string
}.

(** An entry of [allVehiclesWithStatus]. *)
Record VehicleOption := {
  optionVehicle : Vehicle;
  vehicleConflictNote : option string
}.

Definition allDriversWithStatus (st : AppState) (booking : Booking)
    : list DriverOption :=
  map (fun d =>
         {| optionDriver := d;
            isOffline := match status d with offline => true | online => false end;
            driverConflictNote :=
              mapGet (name d) (fst (conflictMaps (bookings st) booking)) |})
      (drivers st).

Definition allVehiclesWithStatus (st : AppState) (booking : Booking)
    : list VehicleOption :=
  let allVehiclesForType :=
    match lookupType (vehicleType booking) (vehicleTypes st) with
    | Some details => vehicles details
    | None => []
    end in
  map (fun v =>
         {| optionVehicle := v;
            vehicleConflictNote :=
              mapGet (plate v) (snd (conflictMaps (bookings st) booking)) |})
      allVehiclesForType.

(** Truthiness of a conflict note: present and not empty. *)
Definition noted (c : option string) : bool :=
  match c with Some s => Js.truthy s | None => false end.

(** The option groups of the two selects. *)
Definition availableDrivers (st : AppState) (booking : Booking) : list DriverOption :=
  filter (fun d => negb (noted (driverConflictNote d)) && negb (isOffline d))
         (allDriversWithStatus st booking).

Definition overlappingDrivers (st : AppState) (booking : Booking) : list DriverOption :=
  filter (fun d => noted (driverConflictNote d)) (allDriversWithStatus st booking).

Definition offlineDrivers (st : AppState) (booking : Booking) : list DriverOption :=
  filter (fun d => isOffline d && negb (noted (driverConflictNote d)))
         (allDriversWithStatus st booking).

Definition availableVehicles (st : AppState) (booking : Booking) : list VehicleOption :=
  filter (fun v => negb (noted (vehicleConflictNote v)))
         (allVehiclesWithStatus st booking).

Definition overlappingVehicles (st : AppState) (booking : Booking) : list VehicleOption :=
  filter (fun v => noted (vehicleConflictNote v)) (allVehiclesWithStatus st booking).

End Availability.

(** ** The driver's dashboard *)

(** [isOnline] of the dashboard of [loggedInDriver]. *)
Definition isOnline (loggedInDriver : Driver) (st : AppState) : bool :=
  match find (fun d => username d =? username loggedInDriver) (drivers st) with
  | Some d => match status d with online => true | offline => false end
  | None => false
  end.

(** The effect that copies the driver's status onto the bookings. *)
Definition syncDriverStatus (loggedInDriver : Driver) (online : bool) : Handler :=
  setBookings (map (fun b =>
    if optEqb (driverName b) (name loggedInDriver)
       && negb (match driverStatus b with Some tripArrived => true | _ => false end)
    then spreadDriverStatusOfBooking b (if online then tripOnline else tripOffline)
    else b)).

(** [handleToggleOnlineStatus] when the driver is online: going offline. *)
Definition goOffline (loggedInDriver : Driver) : Handler :=
  setDrivers (map (fun d =>
    if username d =? username loggedInDriver
    then spreadDriverStatus d offline None else d)) ;;
  addNotification "You are now offline." info.

(** The success callback of the position watch; [watchIdIsNull] tells
    whether [watchIdRef.current] is [null] when it runs. *)
Definition onPosition (loggedInDriver : Driver) (latitude longitude : float)
    (watchIdIsNull : bool) : Handler :=
  setDrivers (map (fun d =>
    if username d =? username loggedInDriver
    then spreadDriverStatus d online (Some (latitude, longitude)) else d)) ;;
  (if watchIdIsNull
   then addNotification "You are now online and your location is being shared."
          success
   else skip).

(** The error callback of the position watch. *)
Definition onPositionError (permissionDenied : bool) (loggedInDriver : Driver)
    : Handler :=
  addNotification
    (if permissionDenied
     then "Location access is required to go online. Please enable it in your browser settings."
     else "Could not get your location. Please try again.") error ;;
  setDrivers (map (fun d =>
    if username d =? username loggedInDriver
    then spreadDriverStatus d offline None else d)).

(** ** The simulation tick *)

Section Tick.

Variable hostNumberToString : float -> string.

(** [Math.min((Date.now() - startTime) / duration, 1)] *)
Definition simulationProgress (now startTime : Z) : float :=
  JsMath.Math_min (JsMath.numberOfZ (now - startTime) / 20000)%float 1%float.

Definition simulatedPosition (progress : float) : float * float :=
  ((15 + (85 - 15) * progress)%float, (50 + (50 - 50) * progress)%float).

(** The interval callback of the driver's dashboard for the booking [cn], at
    a given progress. *)
Definition tickAt (cn : string) (progress : float) : Handler :=
  let newPosition := simulatedPosition progress in
  let ds := if (progress <? 1)%float then tripOnline else tripArrived in
  let e := calculateSimulatedETA hostNumberToString progress in
  setBookings (map (fun b =>
    if confirmationNumber b =? cn then spreadTracking b newPosition ds e else b)) ;;
  (if (1 <=? progress)%float
   then addNotification
          ("You have arrived for booking #" ++ Js.sliceLast4 cn ++ ".") success
   else skip).

Definition tick (cn : string) (now startTime : Z) : Handler :=
  tickAt cn (simulationProgress now startTime).

End Tick.

(** ** The map zoom *)

Module Zoom.

Record Transform := {
  scale : float;
  x : float;
  y : float
}.

(** [handleWheel]: [rect] is the corner of the map element, [None] while the
    element is not mounted. *)
Definition handleWheel (deltaY clientX clientY : float) (rect : option (float * float))
    (transform : Transform) : Transform :=
  let scaleAmount := (- deltaY * 0.001)%float in
  let newScale :=
    JsMath.Math_min (JsMath.Math_max 0.5 (scale transform + scaleAmount)) 3 in
  match rect with
  | Some (rectLeft, rectTop) =>
      let mouseX := (clientX - rectLeft)%float in
      let mouseY := (clientY - rectTop)%float in
      {| scale := newScale;
         x := (x transform
               + (mouseX - x transform) * (1 - newScale / scale transform))%float;
         y := (y transform
               + (mouseY - y transform) * (1 - newScale / scale transform))%float |}
  | None => transform
  end.

End Zoom.

(** * Specification vocabulary

    The predicates in which the properties are stated, three sentences of
    the specification as it words them, and sample stores. *)

(** The fare of the specification, in exact rational arithmetic. *)
Module FareSpec.

(** Trimmed, then lowercased. *)
Definition normalize (loc : string) : string := Js.toLowerCase (Js.trim loc).

Definition stationPhrases : list string :=
  ["jabalpur railway station"; "madan mahal railway station";
   "jabalpur station"; "madan mahal station"].

Definition base (loc : string) : Q :=
  if Js.includes (normalize loc) "airport" then 500
  else if existsb (Js.includes (normalize loc)) stationPhrases then 250
  else 500.

Definition multiplier (vehicleType : string) : Q :=
  if vehicleType =? "SUV" then 3 # 2 else 1.

(** Nearest integer, a half rounding up. *)
Definition round (q : Q) : Z := Qfloor (q + (1 # 2)).

Definition fare (loc vehicleType : string) : Z :=
  round (base loc * multiplier vehicleType * (118 # 100)).

End FareSpec.

(** The booking written by a committed assignment. *)
Definition assignedCopy (st : AppState) (driverName vehiclePlate : string)
    (b : Booking) : Booking :=
  spreadAssignment b (Some driverName)
    (orNull (option_map phone (findDriver driverName (drivers st))))
    (findVehicle vehiclePlate (vehicleTypes st))
    (Some (match findDriver driverName (drivers st) with
           | Some d => tripStatusOf (status d)
           | None => tripOffline
           end))
    assigned.

(** The booking written by a cancellation. *)
Definition cancelledCopy (b : Booking) : Booking :=
  spreadAssignment b None None None (Some tripOffline) cancelled.

(** [onMatch cn g]: the function mapped over the list by every handler,
    rewriting the bookings numbered [cn] with [g]. *)
Definition onMatch (cn : string) (g : Booking -> Booking) (b : Booking) : Booking :=
  if confirmationNumber b =? cn then g b else b.

(** The fields of a booking that an assignment never writes. *)
Definition sameRequestFacts (b b' : Booking) : Prop :=
  confirmationNumber b' = confirmationNumber b /\
  confirmationMessage b' = confirmationMessage b /\
  estimatedFare b' = estimatedFare b /\
  estimatedTripDuration b' = estimatedTripDuration b /\
  estimatedArrivalTime b' = estimatedArrivalTime b /\
  guestName b' = guestName b /\
  guestPhone b' = guestPhone b /\
  location b' = location b /\
  date b' = date b /\
  time b' = time b /\
  serviceType b' = serviceType b /\
  vehicleType b' = vehicleType b /\
  driverPosition b' = driverPosition b /\
  paymentStatus b' = paymentStatus b /\
  paymentId b' = paymentId b /\
  eta b' = eta b.

(** The registries and views of bookings, drivers and vehicles. *)
Definition storeOf (st : AppState) :=
  (bookings st, drivers st, vehicleTypes st,
   (guestBookings st, selectedBooking st, lastBooking st)).

(** What the screen shows of a save.  The handler adds at most one banner:
    the success banner of an assignment, or the error banner of a refusal. *)
Definition addsBanner (ty : NotificationType) (st st' : AppState) : Prop :=
  exists msg,
    notifications st' = (notifications st ++ [{| message := msg; type := ty |}])%list.

(** The save has been carried out. *)
Definition reportsSuccess (st st' : AppState) : Prop := addsBanner success st st'.

(** The save has been refused: the text under the selection, with no banner,
    or an error banner. *)
Definition reportsError (st st' : AppState) : Prop :=
  (notifications st' = notifications st /\ assignmentError st' <> "") \/
  addsBanner error st st'.

(** [d] is the first driver of the roster [ds] called [n]: the record that
    [drivers.find(d => d.name === n)] resolves the name to. *)
Definition firstNamed (d : Driver) (n : string) (ds : list Driver) : Prop :=
  exists before after,
    ds = (before ++ d :: after)%list /\ name d = n /\
    forall d', In d' before -> name d' <> n.

Section Vocabulary.

Variable getTime : string -> option Z.

(** No driver or no vehicle selected. *)
Definition missingSelection (a : Assignment) : Prop :=
  driver a = "" \/ vehicle a = "".

(** The selected name resolves to a driver who is offline. *)
Definition offlineDriverSelected (st : AppState) (a : Assignment) : Prop :=
  exists d, findDriver (driver a) (drivers st) = Some d /\ status d = offline.

(** Another live booking of the selected driver overlaps [booking]. *)
Definition driverConflict (st : AppState) (booking : Booking) (a : Assignment) : Prop :=
  exists b, In b (bookings st) /\
    confirmationNumber b <> confirmationNumber booking /\
    driverName b = Some (driver a) /\
    bookingStatus b <> cancelled /\
    isTimeOverlapping getTime booking b = true.

(** Another live booking of the selected vehicle overlaps [booking]. *)
Definition vehicleConflict (st : AppState) (booking : Booking) (a : Assignment) : Prop :=
  exists b, In b (bookings st) /\
    confirmationNumber b <> confirmationNumber booking /\
    (exists v, assignedVehicle b = Some v /\ plate v = vehicle a) /\
    bookingStatus b <> cancelled /\
    isTimeOverlapping getTime booking b = true.

(** The four rejection paths. *)
Definition rejects (st : AppState) (booking : Booking) (a : Assignment) : Prop :=
  missingSelection a \/ offlineDriverSelected st a \/
  driverConflict st booking a \/ vehicleConflict st booking a.

Definition sharesDriver (b1 b2 : Booking) : Prop :=
  exists d, driverName b1 = Some d /\ driverName b2 = Some d.

Definition sharesVehicle (b1 b2 : Booking) : Prop :=
  exists v1 v2, assignedVehicle b1 = Some v1 /\ assignedVehicle b2 = Some v2 /\
                plate v1 = plate v2.

(** Any two distinct live bookings with the same driver, or with vehicles of
    the same plate, have windows that do not overlap. *)
Definition noDoubleBooking (bs : list Booking) : Prop :=
  forall b1 b2, In b1 bs -> In b2 bs -> b1 <> b2 ->
    bookingStatus b1 <> cancelled -> bookingStatus b2 <> cancelled ->
    sharesDriver b1 b2 \/ sharesVehicle b1 b2 ->
    isTimeOverlapping getTime b1 b2 = false.

Definition noAssignments (st : AppState) : Prop :=
  forall b, In b (bookings st) -> driverName b = None /\ assignedVehicle b = None.

Definition uniqueConfirmationNumbers (st : AppState) : Prop :=
  NoDup (map confirmationNumber (bookings st)).

(** The states reached from [st0] by successful saves, each made from the
    item of a booking of the current list. *)
Inductive assigns (st0 : AppState) : AppState -> Prop :=
  | assigns_none : assigns st0 st0
  | assigns_save (st : AppState) (booking : Booking) (a : Assignment) :
      assigns st0 st ->
      In booking (bookings st) ->
      reportsSuccess st (handleSave getTime booking a st) ->
      assigns st0 (handleSave getTime booking a st).

End Vocabulary.

(** The calls that assign or cancel the bookings numbered [cn]. *)
Inductive assignOrCancel (getTime : string -> option Z) (cn : string)
    (st : AppState) : AppState -> Prop :=
  | ac_cancel : assignOrCancel getTime cn st (handleCancelBooking cn st)
  | ac_assign (driverName vehiclePlate : string) :
      assignOrCancel getTime cn st (handleAssignDriver cn driverName vehiclePlate st)
  | ac_save (booking : Booking) (a : Assignment) :
      confirmationNumber booking = cn ->
      assignOrCancel getTime cn st (handleSave getTime booking a st).

(** As the specification words it: an assign call whose driver name or
    vehicle plate resolves to nothing is rejected and changes no booking. *)
Definition unresolvedReferenceRejected : Prop :=
  forall (getTime : string -> option Z) (booking : Booking) (a : Assignment)
         (st : AppState),
    findDriver (driver a) (drivers st) = None \/
    findVehicle (vehicle a) (vehicleTypes st) = None ->
    bookings (handleSave getTime booking a st) = bookings st /\
    reportsError st (handleSave getTime booking a st).

(** As the specification words it: whatever the schedule, after an assign
    call that names a driver whose status is offline the target booking has
    its assignment fields and its bookingStatus as before. *)
Definition offlineDriverNeverAssigned : Prop :=
  forall (getTime : string -> option Z) (booking : Booking) (a : Assignment)
         (st : AppState) (d : Driver),
    In d (drivers st) -> status d = offline -> name d = driver a ->
    forall i b,
      nth_error (bookings st) i = Some b ->
      confirmationNumber b = confirmationNumber booking ->
      exists b',
        nth_error (bookings (handleSave getTime booking a st)) i = Some b' /\
        driverName b' = driverName b /\ driverPhone b' = driverPhone b /\
        assignedVehicle b' = assignedVehicle b /\
        bookingStatus b' = bookingStatus b.

(** As the specification words it: an assign or a cancel changes at most one
    booking of the list. *)
Definition atMostOneBookingModified : Prop :=
  forall (getTime : string -> option Z) (cn : string) (st st' : AppState),
    assignOrCancel getTime cn st st' ->
    forall i j,
      nth_error (bookings st') i <> nth_error (bookings st) i ->
      nth_error (bookings st') j <> nth_error (bookings st) j -> i = j.

(** As the specification words it: marking an already paid booking as paid
    leaves it as it is. *)
Definition paidBookingUntouched : Prop :=
  forall (booking : Booking) (pid : string) (st : AppState) (i : nat) (b : Booking),
    nth_error (bookings st) i = Some b ->
    confirmationNumber b = confirmationNumber booking ->
    paymentStatus b = paid ->
    nth_error (bookings (paymentHandler booking pid st)) i = Some b.

(** As the specification words it: the invariant holds after successful
    saves from any store without assignments. *)
Definition noDoubleBookingFromAnyStore : Prop :=
  forall (getTime : string -> option Z) (st0 st : AppState),
    noAssignments st0 -> assigns getTime st0 st ->
    noDoubleBooking getTime (bookings st).

(** ** Sample stores *)

Module Sample.

Definition booking (cn date time : string) : Booking :=
  {| confirmationNumber := cn;
     confirmationMessage := "Your cab is confirmed.";
     estimatedFare := estimateFare "Jabalpur Airport" "Standard Sedan";
     estimatedTripDuration := "approx. 25 minutes";
     estimatedArrivalTime := "in 10 minutes";
     guestName := "Asha"; guestPhone := "9000000001";
     location := "Jabalpur Airport";
     date := date; time := time;
     serviceType := "pickup"; vehicleType := "Standard Sedan";
     driverName := None; driverPhone := None; assignedVehicle := None;
     bookingStatus := confirmed; driverStatus := Some tripOffline;
     driverPosition := Some (15%float, 50%float);
     paymentStatus := pending; paymentId := None; eta := None |}.

Definition INITIAL_VEHICLE_TYPES : VehicleTypes :=
  [ ("Standard Sedan",
     {| capacity := 4;
        vehicles :=
          [ {| plate := "MP20TA7001"; model := "Tata Tigor XM EV" |};
            {| plate := "MP20TA7002"; model := "Tata Tigor XM EV" |};
            {| plate := "MP20TA7003"; model := "Tata Tigor XM EV" |};
            {| plate := "MP20ZL9504"; model := "Tata Tigor XM EV" |};
            {| plate := "MP20ZL9505"; model := "Tata Tigor XM EV" |} ] |});
    ("SUV",
     {| capacity := 6;
        vehicles := [ {| plate := "MP20TA1969"; model := "Toyota Innova" |} ] |}) ].

Definition mkDriver (name phone username : string) (status : DriverStatus) : Driver :=
  {| name := name; phone := phone; username := username;
     password := Some "password123"; status := status;
     position := None; avatar := None |}.

Definition INITIAL_DRIVERS : list Driver :=
  [ mkDriver "Ravi Kumar" "9876543210" "ravi" online;
    mkDriver "Sunita Sharma" "8765432109" "sunita" online;
    mkDriver "Amit Singh" "7654321098" "amit" online;
    mkDriver "Priya Patel" "6543210987" "priya" online ].

Definition state (bs : list Booking) (ds : list Driver) : AppState :=
  {| bookings := bs; drivers := ds; vehicleTypes := INITIAL_VEHICLE_TYPES;
     notifications := []; isEditingAssignment := None; lastBooking := None;
     guestBookings := []; selectedBooking := None; justAssigned := None;
     assignmentError := "" |}.

Definition at1000 := booking "CNF001" "2024-06-01" "10:00".
Definition at1030 := booking "CNF002" "2024-06-01" "10:30".
Definition at1130 := booking "CNF003" "2024-06-01" "11:30".
Definition unparsed := booking "CNF004" "tomorrow" "noon".

End Sample.

(** Sample states: the 10:00 booking held by Ravi Kumar in MP20TA7001, and a
    roster whose first driver is offline. *)
Module SampleAssigned.

Definition ravi1000 : Booking :=
  spreadAssignment Sample.at1000 (Some "Ravi Kumar") (Some "9876543210")
    (Some {| plate := "MP20TA7001"; model := "Tata Tigor XM EV" |})
    (Some tripOnline) assigned.

Definition st : AppState :=
  Sample.state [ravi1000; Sample.at1030; Sample.at1130] Sample.INITIAL_DRIVERS.

Definition raviOffline : list Driver :=
  [ Sample.mkDriver "Ravi Kumar" "9876543210" "ravi" offline;
    Sample.mkDriver "Sunita Sharma" "8765432109" "sunita" online ].

Definition stOffline : AppState :=
  Sample.state [Sample.at1000; Sample.at1030] raviOffline.

Definition ravi7001 : Assignment := {| driver := "Ravi Kumar"; vehicle := "MP20TA7001" |}.
Definition sunita7001 : Assignment := {| driver := "Sunita Sharma"; vehicle := "MP20TA7001" |}.
Definition sunita7002 : Assignment := {| driver := "Sunita Sharma"; vehicle := "MP20TA7002" |}.

End SampleAssigned.

Module SampleUnresolved.

Definition st : AppState := Sample.state [Sample.at1000] Sample.INITIAL_DRIVERS.
Definition ghost : Assignment := {| driver := "Ghost"; vehicle := "XX00XX0000" |}.

End SampleUnresolved.

(** A second driver called Ravi Kumar is added under the user name "ravi2"
    (only user names are compared by [handleAddDriver]) and goes offline. *)
Module SampleNamesake.

Definition request : Admin.t :=
  {| Admin.newDriverName := "Ravi Kumar"; Admin.newDriverPhone := "9222222222";
     Admin.newDriverUsername := "ravi2"; Admin.newDriverPassword := "secret2";
     Admin.newDriverAvatar := "avatar.svg"; Admin.driverError := "";
     Admin.newVehiclePlate := ""; Admin.newVehicleModel := "";
     Admin.vehicleError := ""; Admin.justAddedItem := None |}.

Definition added : Driver :=
  {| name := "Ravi Kumar"; phone := "9222222222"; username := "ravi2";
     password := Some "secret2"; status := online; position := None;
     avatar := Some "avatar.svg" |}.

Definition namesake : Driver := spreadDriverStatus added offline None.

Definition st0 : AppState := Sample.state [Sample.at1000] Sample.INITIAL_DRIVERS.
Definition st1 : AppState := fst (handleAddDriver "avatar.svg" request st0).
Definition st2 : AppState := goOffline added st1.

End SampleNamesake.

Module SamplePaid.

Definition paid1000 : Booking := spreadPayment Sample.at1000 paid (Some "pay_001").
Definition st : AppState := Sample.state [paid1000] Sample.INITIAL_DRIVERS.

End SamplePaid.

Module SampleDuplicate.

(** Two bookings that were handed the same confirmation number. *)
Definition first : Booking := Sample.booking "CNF007" "2024-06-01" "10:00".
Definition second : Booking := Sample.booking "CNF007" "2024-06-01" "10:30".
Definition st0 : AppState := Sample.state [first; second] Sample.INITIAL_DRIVERS.
Definition st1 : AppState :=
  handleSave SampleHost.getTime first SampleAssigned.ravi7001 st0.

Definition vehicle7001 : Vehicle :=
  {| plate := "MP20TA7001"; model := "Tata Tigor XM EV" |}.

Definition assignedTo (b : Booking) : Booking :=
  spreadAssignment b (Some "Ravi Kumar") (Some "9876543210") (Some vehicle7001)
    (Some tripOnline) assigned.

End SampleDuplicate.

Module SampleDay.

Definition st0 : AppState :=
  Sample.state [Sample.at1000; Sample.at1030; Sample.at1130] Sample.INITIAL_DRIVERS.

(** Ravi Kumar takes the 10:00 trip, then the 11:30 trip in the same car. *)
Definition st1 : AppState :=
  handleSave SampleHost.getTime Sample.at1000 SampleAssigned.ravi7001 st0.
Definition st2 : AppState :=
  handleSave SampleHost.getTime Sample.at1130 SampleAssigned.ravi7001 st1.

(** A third save, of Ravi Kumar for the 10:30 trip. *)
Definition st3 : AppState :=
  handleSave SampleHost.getTime Sample.at1030 SampleAssigned.ravi7001 st2.

End SampleDay.

(** ** Vocabulary of the further properties *)

(** Every field but [paymentStatus] and [paymentId] agrees. *)
Definition samePaymentFrame (b b' : Booking) : Prop :=
  confirmationNumber b' = confirmationNumber b /\
  confirmationMessage b' = confirmationMessage b /\
  estimatedFare b' = estimatedFare b /\
  estimatedTripDuration b' = estimatedTripDuration b /\
  estimatedArrivalTime b' = estimatedArrivalTime b /\
  guestName b' = guestName b /\
  guestPhone b' = guestPhone b /\
  location b' = location b /\
  date b' = date b /\
  time b' = time b /\
  serviceType b' = serviceType b /\
  vehicleType b' = vehicleType b /\
  driverName b' = driverName b /\
  driverPhone b' = driverPhone b /\
  assignedVehicle b' = assignedVehicle b /\
  bookingStatus b' = bookingStatus b /\
  driverStatus b' = driverStatus b /\
  driverPosition b' = driverPosition b /\
  eta b' = eta b.

(** A string that does not start with white space. *)
Definition noLeadingSpace (s : string) : Prop :=
  match s with
  | EmptyString => True
  | String c _ => Js.isSpace c = false
  end.

(** One of the five required fields of the booking form is empty. *)
Definition missingField (f : Form.t) : Prop :=
  Form.guestName f = "" \/ Form.guestPhone f = "" \/ Form.location f = "" \/
  Form.date f = "" \/ Form.time f = "".

(** The worlds reached by submitting booking forms: between two submissions
    the guest edits the form, and each submission meets some answer of the
    text service. *)
Inductive created (w0 : World) : World -> Prop :=
  | created_none : created w0 w0
  | created_submit (w : World) (f : Form.t) (response : option Generated.t) :
      created w0 w ->
      created w0
        (handleBooking response
           {| app := app w; form := f; session := session w;
              tracking := tracking w |}).

(** A driver who is offline shares no position. *)
Definition offlineHidesPosition (ds : list Driver) : Prop :=
  forall d, In d ds -> status d = offline -> position d = None.

(** The handlers that write the driver list: the six callers of
    [setDrivers]. *)
Inductive driverListStep (defaultAvatarSvg : string) (st : AppState)
    : AppState -> Prop :=
  | dl_add (ad : Admin.t) :
      driverListStep defaultAvatarSvg st (fst (handleAddDriver defaultAvatarSvg ad st))
  | dl_remove (removed : string) :
      driverListStep defaultAvatarSvg st (handleRemoveDriver removed st)
  | dl_offline (d : Driver) :
      driverListStep defaultAvatarSvg st (goOffline d st)
  | dl_position (d : Driver) (latitude longitude : float) (watchIdIsNull : bool) :
      driverListStep defaultAvatarSvg st
        (onPosition d latitude longitude watchIdIsNull st)
  | dl_error (denied : bool) (d : Driver) :
      driverListStep defaultAvatarSvg st (onPositionError denied d st)
  | dl_avatar (file : option (Z * option string)) (changed : string) :
      driverListStep defaultAvatarSvg st (handleDriverAvatarChange file changed st).

(** ** More sample data *)

Module SampleForm.

Definition filled : Form.t :=
  {| Form.serviceType := "pickup"; Form.location := "Jabalpur Airport";
     Form.date := "2024-06-01"; Form.time := "10:00";
     Form.passengers := 2%float;
     Form.selectedVehicleType := "SUV";
     Form.guestName := "Asha"; Form.guestPhone := "9000000001";
     Form.formError := ""; Form.isLoading := false;
     Form.isConfirmationVisible := false; Form.isTermsModalVisible := false;
     Form.suggestedLocations := []; Form.activeLocationSuggestions := false |}.

Definition generated : Generated.t :=
  {| Generated.confirmationNumber := "CNF101";
     Generated.confirmationMessage := "Your cab is confirmed.";
     Generated.estimatedTripDuration := "approx. 25 minutes";
     Generated.estimatedArrivalTime := "in 10 minutes" |}.

Definition guestSession : Session.t :=
  {| Session.currentUserRole := "guest"; Session.loginRole := "";
     Session.loggedInDriver := None; Session.loginError := "";
     Session.isLoginPopoverOpen := false |}.

Definition driverLogin : Session.t :=
  {| Session.currentUserRole := "login"; Session.loginRole := "driver";
     Session.loggedInDriver := None; Session.loginError := "";
     Session.isLoginPopoverOpen := false |}.

Definition noTracking : Tracking.t :=
  {| Tracking.isTracking := false; Tracking.trackingPhone := "";
     Tracking.trackingError := "" |}.

Definition world (st : AppState) (s : Session.t) : World :=
  {| app := st; form := filled; session := s; tracking := noTracking |}.

Definition empty : World := world (Sample.state [] Sample.INITIAL_DRIVERS) guestSession.

End SampleForm.

Module SampleAdmin.

Definition newDriver : Admin.t :=
  {| Admin.newDriverName := "Meena Joshi"; Admin.newDriverPhone := "9111111111";
     Admin.newDriverUsername := "meena"; Admin.newDriverPassword := "secret1";
     Admin.newDriverAvatar := "avatar.svg"; Admin.driverError := "";
     Admin.newVehiclePlate := "MP20TA8001"; Admin.newVehicleModel := "Maruti Dzire";
     Admin.vehicleError := ""; Admin.justAddedItem := None |}.

Definition st : AppState := Sample.state [] Sample.INITIAL_DRIVERS.

End SampleAdmin.

(** A host sort: insertion by the comparator, an unanswered comparison
    (NaN) leaving the pair in place; and a time formatter for a zone whose
    offset is zero. *)
Module SampleSort.

Fixpoint insert (cmp : Booking -> Booking -> option Z) (b : Booking)
    (l : list Booking) : list Booking :=
  match l with
  | [] => [b]
  | c :: r =>
      match cmp b c with
      | Some n => if (n <=? 0)%Z then b :: l else c :: insert cmp b r
      | None => b :: l
      end
  end.

Definition sort (cmp : Booking -> Booking -> option Z) (l : list Booking)
    : list Booking :=
  fold_right (insert cmp) [] l.

Definition twoDigits (n : Z) : string :=
  let s := DecimalString.NilZero.string_of_uint (N.to_uint (Z.to_N n)) in
  if (n <? 10)%Z then "0" ++ s else s.

Definition toLocaleTimeString (t : Z) : string :=
  let minutes := ((t / 60000) mod 1440)%Z in
  twoDigits (minutes / 60) ++ ":" ++ twoDigits (minutes mod 60).

End SampleSort.

(** The note recorded for a conflicting booking: its window. *)
Definition conflictNote (getTime : string -> option Z)
    (toLocaleTimeString : Z -> string) (other : Booking) : string :=
  "Booked " ++ time other ++ " - "
  ++ getEndTime getTime toLocaleTimeString (date other) (time other).

(** The conflict map of one kind of resource, as the loop builds it. *)
Definition notesBy (getTime : string -> option Z) (toLocaleTimeString : Z -> string)
    (key : Booking -> option string) (booking : Booking)
    (others : list Booking) (m : ConflictMap) : ConflictMap :=
  fold_left
    (fun m otherBooking =>
       if isTimeOverlapping getTime booking otherBooking
       then noteConflict getTime toLocaleTimeString (key otherBooking) otherBooking m
       else m)
    others m.

(** Every note of the map is a non-empty text. *)
Definition allNoted (m : ConflictMap) : Prop :=
  forall k v, In (k, v) m -> Js.truthy v = true.

Module SampleOptions.

Definition sunita : DriverOption :=
  {| optionDriver := Sample.mkDriver "Sunita Sharma" "8765432109" "sunita" online;
     isOffline := false; driverConflictNote := None |}.

Definition ravi : DriverOption :=
  {| optionDriver := Sample.mkDriver "Ravi Kumar" "9876543210" "ravi" online;
     isOffline := false; driverConflictNote := Some "Booked 10:00 - 11:30" |}.

Definition v7002 : VehicleOption :=
  {| optionVehicle := {| plate := "MP20TA7002"; model := "Tata Tigor XM EV" |};
     vehicleConflictNote := None |}.

End SampleOptions.

(** Every field but [driverPosition], [driverStatus] and [eta] agrees. *)
Definition sameButTracking (b b' : Booking) : Prop :=
  confirmationNumber b' = confirmationNumber b /\
  confirmationMessage b' = confirmationMessage b /\
  estimatedFare b' = estimatedFare b /\
  estimatedTripDuration b' = estimatedTripDuration b /\
  estimatedArrivalTime b' = estimatedArrivalTime b /\
  guestName b' = guestName b /\
  guestPhone b' = guestPhone b /\
  location b' = location b /\
  date b' = date b /\
  time b' = time b /\
  serviceType b' = serviceType b /\
  vehicleType b' = vehicleType b /\
  driverName b' = driverName b /\
  driverPhone b' = driverPhone b /\
  assignedVehicle b' = assignedVehicle b /\
  bookingStatus b' = bookingStatus b /\
  paymentStatus b' = paymentStatus b /\
  paymentId b' = paymentId b.

(** The status the effect writes for an online or offline driver. *)
Definition statusFor (online : bool) : TripStatus :=
  if online then tripOnline else tripOffline.

(** The minutes shown by the ETA at a progress. *)
Definition remainingMinutes (progress : float) : float :=
  Js.Math_round (15 * (1 - progress))%float.

Module SampleTracking.

Definition byPhone (phone : string) : World :=
  {| app := Sample.state [Sample.at1000; Sample.at1030] Sample.INITIAL_DRIVERS;
     form := SampleForm.filled; session := SampleForm.guestSession;
     tracking :=
       {| Tracking.isTracking := true; Tracking.trackingPhone := phone;
          Tracking.trackingError := "" |} |}.

Definition adminSession : Session.t :=
  {| Session.currentUserRole := "admin"; Session.loginRole := "admin";
     Session.loggedInDriver := None; Session.loginError := "";
     Session.isLoginPopoverOpen := false |}.

End SampleTracking.

(** * Properties *)

(** ** Fare estimator *)

Lemma isSpace_lowerChar (c : ascii) : Js.isSpace (Js.lowerChar c) = Js.isSpace c.
Proof.
  destruct c as [[] [] [] [] [] [] [] []]; reflexivity.
Qed.

Lemma trimStart_toLowerCase (s : string) :
  Js.trimStart (Js.toLowerCase s) = Js.toLowerCase (Js.trimStart s).
Proof.
  induction s as [| c s IH]; cbn; [ reflexivity | ].
  rewrite isSpace_lowerChar. destruct (Js.isSpace c); [ exact IH | reflexivity ].
Qed.

Lemma trimEnd_toLowerCase (s : string) :
  Js.trimEnd (Js.toLowerCase s) = Js.toLowerCase (Js.trimEnd s).
Proof.
  induction s as [| c s IH]; cbn; [ reflexivity | ].
  rewrite IH, isSpace_lowerChar.
  destruct (Js.trimEnd s); cbn; [ destruct (Js.isSpace c) |]; reflexivity.
Qed.

(** Lowercasing and trimming commute. *)
Lemma trim_toLowerCase (s : string) :
  Js.trim (Js.toLowerCase s) = Js.toLowerCase (Js.trim s).
Proof.
  unfold Js.trim. rewrite trimStart_toLowerCase. apply trimEnd_toLowerCase.
Qed.

Lemma estimateFare_values (loc vt : string) :
  estimateFare loc vt = 590%float \/ estimateFare loc vt = 885%float \/
  estimateFare loc vt = 295%float \/ estimateFare loc vt = 443%float.
Proof.
  unfold estimateFare.
  destruct (Js.includes _ "airport");
    [| destruct (_ || _ || _ || _)%bool ];
    destruct (vt =? "SUV"); vm_compute; auto.
Qed.

(** C5. For every location and vehicle type the estimate computed in binary64
    arithmetic is the exact value round(base * m * 1.18), with the base chosen
    by substring match on the trimmed, lowercased location (airport 500, else
    a station phrase 250, else 500) and m = 1.5 for "SUV" and 1 otherwise;
    "Jabalpur Airport" costs 590 in a standard vehicle and 885 in an SUV.  The
    estimate is a function of these two inputs alone. *)
Theorem estimateFare_correct :
  (forall loc vt, estimateFare loc vt = Js.ofZ (FareSpec.fare loc vt)) /\
  estimateFare "Jabalpur Airport" "Standard" = 590%float /\
  estimateFare "Jabalpur Airport" "Standard Sedan" = 590%float /\
  estimateFare "Jabalpur Airport" "SUV" = 885%float.
Proof.
  split; [| repeat split; vm_compute; reflexivity ].
  intros loc vt.
  unfold estimateFare, FareSpec.fare, FareSpec.base, FareSpec.multiplier,
    FareSpec.normalize, FareSpec.stationPhrases.
  rewrite <- trim_toLowerCase. cbn [existsb].
  destruct (Js.includes _ "airport").
  - destruct (vt =? "SUV"); vm_compute; reflexivity.
  - rewrite orb_false_r, !orb_assoc.
    destruct (_ || _ || _ || _)%bool;
      destruct (vt =? "SUV"); vm_compute; reflexivity.
Qed.

(** ** Simulated ETA *)

(** Comparison of binary64 values: the order facts used below. *)
Section FloatOrder.

Lemma SFcompare_antisym (x y : spec_float) :
  SFcompare y x = option_map CompOpp (SFcompare x y).
Proof.
  destruct x as [sx | sx | | sx mx ex], y as [sy | sy | | sy my ey];
    cbn; try reflexivity;
    try (destruct sx; reflexivity); try (destruct sy; reflexivity);
    try (destruct sx, sy; reflexivity).
  change (Pos.compare_cont Eq my mx) with (my ?= mx)%positive.
  change (Pos.compare_cont Eq mx my) with (mx ?= my)%positive.
  rewrite (Z.compare_antisym ex ey), (Pos.compare_antisym mx my).
  destruct sx, sy; try reflexivity; f_equal;
    destruct (ex ?= ey)%Z; cbn; try reflexivity;
    destruct (mx ?= my)%positive; reflexivity.
Qed.

Lemma SFcompare_defined (x y : spec_float) :
  x <> S754_nan -> y <> S754_nan -> SFcompare x y <> None.
Proof.
  destruct x, y; cbn; congruence.
Qed.

Lemma ltb_leb_false (x y : float) :
  (x <? y)%float = true -> (y <=? x)%float = false.
Proof.
  rewrite FloatAxioms.ltb_spec, FloatAxioms.leb_spec. unfold SFltb, SFleb.
  rewrite (SFcompare_antisym (Prim2SF x) (Prim2SF y)).
  destruct (SFcompare (Prim2SF x) (Prim2SF y)) as [[ | | ] | ]; cbn; congruence.
Qed.

Lemma ltb_not_nan (a x : float) :
  (a <? x)%float = true -> Prim2SF x <> S754_nan.
Proof.
  rewrite FloatAxioms.ltb_spec. unfold SFltb. intros H E. rewrite E in H.
  destruct (Prim2SF a); discriminate.
Qed.

Lemma leb_false_ltb (x y : float) :
  Prim2SF x <> S754_nan -> Prim2SF y <> S754_nan ->
  (y <=? x)%float = false -> (x <? y)%float = true.
Proof.
  intros Hx Hy. rewrite FloatAxioms.ltb_spec, FloatAxioms.leb_spec. unfold SFltb, SFleb.
  rewrite (SFcompare_antisym (Prim2SF x) (Prim2SF y)).
  pose proof (SFcompare_defined _ _ Hx Hy) as D.
  destruct (SFcompare (Prim2SF x) (Prim2SF y)) as [[ | | ] | ]; cbn; congruence.
Qed.

End FloatOrder.

(** C9. For every progress value p (NaN and the infinities included) the ETA
    is "Arrived" when p >= 1, "Arriving now" when 0.95 < p < 1, and in every
    other case it is decided by N = Math.round(15 * (1 - p)):
    "Less than a minute" when N <= 1 and "approx. N mins" otherwise. *)
Theorem calculateSimulatedETA_cases (fmt : float -> string) (p : float) :
  let N := Js.Math_round (15 * (1 - p))%float in
  ((1 <=? p)%float = true -> calculateSimulatedETA fmt p = "Arrived") /\
  ((0.95 <? p)%float = true -> (p <? 1)%float = true ->
     calculateSimulatedETA fmt p = "Arriving now") /\
  ((1 <=? p)%float = false ->
   ((0.95 <? p)%float && (p <? 1)%float)%bool = false ->
     ((N <=? 1)%float = true ->
        calculateSimulatedETA fmt p = "Less than a minute") /\
     ((N <=? 1)%float = false ->
        calculateSimulatedETA fmt p
        = "approx. " ++ numberToString fmt N ++ " mins")).
Proof.
  intros N. unfold calculateSimulatedETA. fold N.
  split; [| split ].
  - intros ->. reflexivity.
  - intros H95 H1. rewrite (ltb_leb_false _ _ H1), H95. reflexivity.
  - intros Hge Hmid. rewrite Hge.
    assert (H95 : (0.95 <? p)%float = false).
    { destruct (0.95 <? p)%float eqn:E; [| reflexivity ].
      cbn in Hmid. rewrite <- Hmid. symmetry.
      apply leb_false_ltb; [ exact (ltb_not_nan _ _ E) | | exact Hge ].
      vm_compute. discriminate. }
    rewrite H95. split; intros ->; reflexivity.
Qed.

(** At half way the rounding tie 7.5 goes up: eight minutes remain. *)
Lemma calculateSimulatedETA_cases_witness :
  (1 <=? 0.5)%float = false /\
  (Js.Math_round (15 * (1 - 0.5)) <=? 1)%float = false /\
  calculateSimulatedETA SampleHost.numberToString 0.5 = "approx. 8 mins".
Proof.
  split; [ reflexivity | split; [ reflexivity | ] ].
  apply (proj2 (proj2 (proj2
    (calculateSimulatedETA_cases SampleHost.numberToString 0.5))
    eq_refl eq_refl) eq_refl).
Defined.

(** ** Overlap detector *)

(** C4. Two bookings overlap exactly when startA < endB and endA > startB,
    each start being the parsed date+time and each end the start plus 90
    minutes (so windows that only touch do not overlap); when either start
    fails to parse the answer is [false].  The detector is a total function:
    no input makes it fail. *)
Theorem isTimeOverlapping_spec (getTime : string -> option Z) (A B : Booking) :
  startOf getTime A = getTime (date A ++ "T" ++ time A) /\
  (forall startA startB,
     startOf getTime A = Some startA -> startOf getTime B = Some startB ->
     let endA := (startA + 90 * 60 * 1000)%Z in
     let endB := (startB + 90 * 60 * 1000)%Z in
     (isTimeOverlapping getTime A B = true <-> (startA < endB /\ endA > startB)%Z) /\
     (endA = startB -> isTimeOverlapping getTime A B = false)) /\
  (startOf getTime A = None \/ startOf getTime B = None ->
     isTimeOverlapping getTime A B = false).
Proof.
  split; [ reflexivity | split ].
  - intros startA startB HA HB endA endB. unfold isTimeOverlapping.
    rewrite HA, HB. subst endA endB. unfold DURATION_MS. split.
    + rewrite andb_true_iff, Z.ltb_lt, Z.gtb_lt. lia.
    + intros E. apply andb_false_iff. right. rewrite Z.gtb_ltb.
      apply Z.ltb_ge. lia.
  - unfold isTimeOverlapping. intros [-> | HB]; [ reflexivity | ].
    rewrite HB. destruct (startOf getTime A); reflexivity.
Qed.

Lemma isTimeOverlapping_sym (getTime : string -> option Z) (A B : Booking) :
  isTimeOverlapping getTime A B = isTimeOverlapping getTime B A.
Proof.
  unfold isTimeOverlapping.
  destruct (startOf getTime A) as [a|], (startOf getTime B) as [b|];
    try reflexivity.
  rewrite !Z.gtb_ltb. apply andb_comm.
Qed.

(** 10:00 and 10:30 overlap; 10:00 and 11:30 only touch; a booking whose
    date does not parse overlaps nothing. *)
Lemma isTimeOverlapping_spec_witness :
  isTimeOverlapping SampleHost.getTime Sample.at1000 Sample.at1030 = true /\
  isTimeOverlapping SampleHost.getTime Sample.at1000 Sample.at1130 = false /\
  isTimeOverlapping SampleHost.getTime Sample.unparsed Sample.at1000 = false.
Proof.
  pose proof (isTimeOverlapping_spec SampleHost.getTime
                Sample.at1000 Sample.at1030) as [_ [H1 _]].
  pose proof (isTimeOverlapping_spec SampleHost.getTime
                Sample.at1000 Sample.at1130) as [_ [H2 _]].
  pose proof (isTimeOverlapping_spec SampleHost.getTime
                Sample.unparsed Sample.at1000) as [_ [_ H3]].
  split; [| split ].
  - apply (proj1 (H1 1717236000000%Z 1717237800000%Z eq_refl eq_refl)).
    cbv zeta. split; reflexivity.
  - apply (proj2 (H2 1717236000000%Z 1717241400000%Z eq_refl eq_refl)).
    reflexivity.
  - apply H3. left. reflexivity.
Defined.

(** ** What the handlers do to the booking list *)

Lemma bookings_handleAssignDriver (cn dn vp : string) (st : AppState) :
  bookings (handleAssignDriver cn dn vp st)
  = map (onMatch cn (assignedCopy st dn vp)) (bookings st).
Proof. reflexivity. Qed.

Lemma bookings_handleCancelBooking (cn : string) (st : AppState) :
  bookings (handleCancelBooking cn st) = map (onMatch cn cancelledCopy) (bookings st).
Proof.
  unfold handleCancelBooking, andThen.
  destruct (optEqb _ cn); reflexivity.
Qed.

Lemma bookings_paymentHandler (booking : Booking) (pid : string) (st : AppState) :
  bookings (paymentHandler booking pid st)
  = map (onMatch (confirmationNumber booking) (updatePaymentStatus pid)) (bookings st).
Proof.
  unfold paymentHandler, andThen.
  destruct (optEqb (option_map confirmationNumber (lastBooking st)) _),
           (optEqb (option_map confirmationNumber (selectedBooking st)) _);
    reflexivity.
Qed.

Lemma onMatch_other (cn : string) (g : Booking -> Booking) (b : Booking) :
  confirmationNumber b <> cn -> onMatch cn g b = b.
Proof.
  intros H. unfold onMatch. apply String.eqb_neq in H. rewrite H. reflexivity.
Qed.

Lemma onMatch_same (cn : string) (g : Booking -> Booking) (b : Booking) :
  confirmationNumber b = cn -> onMatch cn g b = g b.
Proof.
  intros H. unfold onMatch. apply String.eqb_eq in H. rewrite H. reflexivity.
Qed.

Lemma map_onMatch_absent (cn : string) (g : Booking -> Booking) (l : list Booking) :
  (forall b, In b l -> confirmationNumber b <> cn) -> map (onMatch cn g) l = l.
Proof.
  induction l as [| b l IH]; intros H; cbn; [ reflexivity | ].
  rewrite onMatch_other by (apply H; left; reflexivity).
  rewrite IH by (intros b' Hb'; apply H; right; exact Hb').
  reflexivity.
Qed.

Lemma nth_error_map_onMatch_changed (cn : string) (g : Booking -> Booking)
    (l : list Booking) (i : nat) :
  nth_error (map (onMatch cn g) l) i <> nth_error l i ->
  nth_error (map confirmationNumber l) i = Some cn.
Proof.
  rewrite !nth_error_map. destruct (nth_error l i) as [b |]; cbn.
  - intros H. destruct (string_dec (confirmationNumber b) cn) as [-> | N].
    + reflexivity.
    + rewrite onMatch_other in H by exact N. congruence.
  - congruence.
Qed.

(** The frame of a rewrite by confirmation number. *)
Lemma map_onMatch_frame (cn : string) (g : Booking -> Booking) (l : list Booking) :
  List.length (map (onMatch cn g) l) = List.length l /\
  (forall i b, nth_error l i = Some b -> confirmationNumber b <> cn ->
     nth_error (map (onMatch cn g) l) i = Some b) /\
  ((forall b, In b l -> confirmationNumber b <> cn) -> map (onMatch cn g) l = l) /\
  (NoDup (map confirmationNumber l) ->
   forall i j,
     nth_error (map (onMatch cn g) l) i <> nth_error l i ->
     nth_error (map (onMatch cn g) l) j <> nth_error l j -> i = j).
Proof.
  split; [ apply List.length_map | split; [| split ] ].
  - intros i b Hi N. rewrite nth_error_map, Hi. cbn.
    rewrite onMatch_other by exact N. reflexivity.
  - apply map_onMatch_absent.
  - intros ND i j Hi Hj.
    apply nth_error_map_onMatch_changed in Hi, Hj.
    apply (proj1 (NoDup_nth_error _) ND).
    + apply nth_error_Some. congruence.
    + congruence.
Qed.

(** ** The checks of [handleSave] *)

Section SaveChecks.

Variable getTime : string -> option Z.

Lemma truthy_false (s : string) : Js.truthy s = false <-> s = "".
Proof.
  unfold Js.truthy. rewrite negb_false_iff. apply String.eqb_eq.
Qed.

Lemma optEqb_true (a : option string) (s : string) :
  optEqb a s = true <-> a = Some s.
Proof.
  destruct a as [x |]; cbn.
  - rewrite String.eqb_eq. split; congruence.
  - split; discriminate.
Qed.

Lemma live_true (s : BookingStatus) :
  negb (bookingStatus_eqb s cancelled) = true <-> s <> cancelled.
Proof.
  destruct s; cbn; split; congruence.
Qed.

Lemma missingSelection_dec (a : Assignment) :
  missingSelection a \/ ~ missingSelection a.
Proof.
  unfold missingSelection.
  destruct (string_dec (driver a) ""), (string_dec (vehicle a) ""); tauto.
Qed.

Lemma missing_reflect (a : Assignment) :
  (negb (Js.truthy (driver a)) || negb (Js.truthy (vehicle a)))%bool = true
  <-> missingSelection a.
Proof.
  unfold missingSelection.
  rewrite orb_true_iff, !negb_true_iff, !truthy_false. reflexivity.
Qed.

Lemma offline_reflect (st : AppState) (a : Assignment) :
  selectedDriverOffline (drivers st) a = true <-> offlineDriverSelected st a.
Proof.
  unfold selectedDriverOffline, offlineDriverSelected.
  destruct (findDriver (driver a) (drivers st)) as [d |].
  - destruct (status d) eqn:E; split.
    + discriminate.
    + intros (d' & [= <-] & H). congruence.
    + intros _. exists d. auto.
    + reflexivity.
  - split; [ discriminate | intros (d & H & _); discriminate ].
Qed.

Lemma driverIsBooked_reflect (st : AppState) (booking : Booking) (a : Assignment) :
  driverIsBooked getTime (bookings st) booking a = true <-> driverConflict getTime st booking a.
Proof.
  unfold driverIsBooked, driverConflict. rewrite existsb_exists.
  split; intros (b & Hin & H); exists b; (split; [ exact Hin | ]).
  - rewrite !andb_true_iff, negb_true_iff, String.eqb_neq, optEqb_true, live_true in H.
    tauto.
  - rewrite !andb_true_iff, negb_true_iff, String.eqb_neq, optEqb_true, live_true.
    tauto.
Qed.

Lemma assignedPlate_some (b : Booking) (p : string) :
  assignedPlate b = Some p <-> exists v, assignedVehicle b = Some v /\ plate v = p.
Proof.
  unfold assignedPlate. destruct (assignedVehicle b) as [v |]; cbn; split.
  - intros [= <-]. exists v. auto.
  - intros (v' & [= <-] & <-). reflexivity.
  - discriminate.
  - intros (v' & H & _). discriminate.
Qed.

Lemma vehicleIsBooked_reflect (st : AppState) (booking : Booking) (a : Assignment) :
  vehicleIsBooked getTime (bookings st) booking a = true <-> vehicleConflict getTime st booking a.
Proof.
  unfold vehicleIsBooked, vehicleConflict. rewrite existsb_exists.
  split; intros (b & Hin & H); exists b; (split; [ exact Hin | ]).
  - rewrite !andb_true_iff, negb_true_iff, String.eqb_neq, optEqb_true,
      live_true, assignedPlate_some in H.
    tauto.
  - rewrite !andb_true_iff, negb_true_iff, String.eqb_neq, optEqb_true,
      live_true, assignedPlate_some.
    tauto.
Qed.

Lemma app_one_neq {A : Type} (l : list A) (x : A) : l <> (l ++ [x])%list.
Proof.
  intros E. apply (f_equal (@List.length A)) in E.
  rewrite List.length_app in E. cbn in E. lia.
Qed.

(** A save cannot report both a success and an error. *)
Lemma reports_exclusive (st st' : AppState) :
  reportsError st st' -> reportsSuccess st st' -> False.
Proof.
  intros [[E _] | [m E]] [m' E']; rewrite E' in E.
  - symmetry in E. exact (app_one_neq _ _ E).
  - apply app_inv_head in E. discriminate E.
Qed.

(** The outcome of [handleSave]: a rejection leaves the booking list as it
    was and reports an error; otherwise the assignment is committed. *)
Lemma handleSave_outcome (booking : Booking) (a : Assignment) (st : AppState) :
  (rejects getTime st booking a /\
   bookings (handleSave getTime booking a st) = bookings st /\
   reportsError st (handleSave getTime booking a st)) \/
  (~ rejects getTime st booking a /\
   handleSave getTime booking a st
   = remountAdminDashboard
       (localHandleAssignDriver (confirmationNumber booking) (driver a) (vehicle a)
          (setAssignmentError "" st))).
Proof.
  unfold handleSave, rejects.
  pose proof (missing_reflect a) as M.
  pose proof (offline_reflect (setAssignmentError "" st) a) as O.
  pose proof (driverIsBooked_reflect (setAssignmentError "" st) booking a) as D.
  pose proof (vehicleIsBooked_reflect (setAssignmentError "" st) booking a) as V.
  assert (EO : offlineDriverSelected (setAssignmentError "" st) a
               <-> offlineDriverSelected st a) by reflexivity.
  assert (ED : driverConflict getTime (setAssignmentError "" st) booking a
               <-> driverConflict getTime st booking a) by reflexivity.
  assert (EV : vehicleConflict getTime (setAssignmentError "" st) booking a
               <-> vehicleConflict getTime st booking a) by reflexivity.
  destruct (negb (Js.truthy (driver a)) || negb (Js.truthy (vehicle a)))%bool.
  { left. split; [ left; apply M; reflexivity | ].
    split; [ reflexivity | left; split; [ reflexivity | cbn; discriminate ] ]. }
  destruct (selectedDriverOffline _ a).
  { left. split; [ right; left; apply EO, O; reflexivity | ].
    split; [ reflexivity | right; eexists; reflexivity ]. }
  destruct (driverIsBooked getTime _ booking a).
  { left. split; [ right; right; left; apply ED, D; reflexivity | ].
    split; [ reflexivity | right; eexists; reflexivity ]. }
  destruct (vehicleIsBooked getTime _ booking a).
  { left. split; [ right; right; right; apply EV, V; reflexivity | ].
    split; [ reflexivity | right; eexists; reflexivity ]. }
  right. split; [| reflexivity ].
  intros [H | [H | [H | H]]].
  - apply M in H. discriminate.
  - apply EO, O in H. discriminate.
  - apply ED, D in H. discriminate.
  - apply EV, V in H. discriminate.
Qed.

Lemma bookings_committed (cn dn vp : string) (st : AppState) :
  bookings (remountAdminDashboard
              (localHandleAssignDriver cn dn vp (setAssignmentError "" st)))
  = map (onMatch cn (assignedCopy st dn vp)) (bookings st).
Proof. reflexivity. Qed.

Lemma reportsSuccess_committed (cn dn vp : string) (st : AppState) :
  reportsSuccess st
    (remountAdminDashboard
       (localHandleAssignDriver cn dn vp (setAssignmentError "" st))).
Proof. eexists. reflexivity. Qed.

(** An assign operation is successful exactly when no check rejects. *)
Lemma handleSave_success_iff (booking : Booking) (a : Assignment) (st : AppState) :
  reportsSuccess st (handleSave getTime booking a st) <-> ~ rejects getTime st booking a.
Proof.
  destruct (handleSave_outcome booking a st) as [(R & _ & E) | (R & ->)].
  - split; [ intros S; destruct (reports_exclusive _ _ E S) | tauto ].
  - split; [ tauto | intros _; apply reportsSuccess_committed ].
Qed.

(** The booking list after [handleSave], by outcome. *)
Lemma handleSave_bookings (booking : Booking) (a : Assignment) (st : AppState) :
  (rejects getTime st booking a ->
     bookings (handleSave getTime booking a st) = bookings st /\
     reportsError st (handleSave getTime booking a st)) /\
  (~ rejects getTime st booking a ->
     reportsSuccess st (handleSave getTime booking a st) /\
     bookings (handleSave getTime booking a st)
     = map (onMatch (confirmationNumber booking)
              (assignedCopy st (driver a) (vehicle a))) (bookings st)).
Proof.
  destruct (handleSave_outcome booking a st) as [(R & E & N) | (R & ->)].
  - split; [ intros _; split; assumption | tauto ].
  - split; [ tauto | intros _; split;
                     [ apply reportsSuccess_committed | reflexivity ] ].
Qed.

(** What a refusal after a complete selection shows: the banner, and no text
    under the selection. *)
Lemma handleSave_refusal_banner (booking : Booking) (a : Assignment) (st : AppState) :
  ~ missingSelection a ->
  let st' := handleSave getTime booking a st in
  (offlineDriverSelected st a ->
     notifications st'
     = (notifications st
        ++ [{| message := "Driver " ++ driver a
                          ++ " is currently offline and cannot be assigned.";
               type := error |}])%list /\
     assignmentError st' = "" /\ justAssigned st' = None) /\
  (rejects getTime st booking a ->
     assignmentError st' = "" /\ justAssigned st' = None /\
     isEditingAssignment st' = isEditingAssignment st /\
     addsBanner error st st').
Proof.
  intros NM. cbv zeta. unfold handleSave.
  destruct (negb (Js.truthy (driver a)) || negb (Js.truthy (vehicle a)))%bool eqn:M.
  { apply missing_reflect in M. contradiction. }
  pose proof (offline_reflect (setAssignmentError "" st) a) as O.
  pose proof (driverIsBooked_reflect (setAssignmentError "" st) booking a) as D.
  pose proof (vehicleIsBooked_reflect (setAssignmentError "" st) booking a) as V.
  destruct (selectedDriverOffline _ a).
  { split; [ intros _; repeat split | intros _; repeat split; eexists; reflexivity ]. }
  split.
  { intros H. apply O in H. discriminate H. }
  destruct (driverIsBooked getTime _ booking a).
  { intros _; repeat split; eexists; reflexivity. }
  destruct (vehicleIsBooked getTime _ booking a).
  { intros _; repeat split; eexists; reflexivity. }
  intros [H | [H | [H | H]]].
  - contradiction.
  - apply O in H. discriminate H.
  - apply D in H. discriminate H.
  - apply V in H. discriminate H.
Qed.

End SaveChecks.

(** ** Assignment: rejection paths and the commit *)

Lemma spreadAssignment_sameRequestFacts (b : Booking) dn dp av ds bs :
  sameRequestFacts b (spreadAssignment b dn dp av ds bs).
Proof. repeat split. Qed.

(** C2. [handleSave] is all-or-nothing.  On each rejection path (no driver or
    vehicle selected, the selected driver offline, a driver time conflict, a
    vehicle time conflict) the booking list after the call is the list before
    it, so every field of the target booking is as it was, and the refusal
    is shown (by the text under the selection or by an error banner).  When
    no check rejects, the success banner is shown, the bookings carrying the
    target's confirmation number get driverName, driverPhone,
    assignedVehicle, driverStatus and bookingStatus written, and none of
    their other fields changes. *)
Theorem handleSave_all_or_nothing (getTime : string -> option Z)
    (booking : Booking) (a : Assignment) (st : AppState) :
  let st' := handleSave getTime booking a st in
  (rejects getTime st booking a ->
     bookings st' = bookings st /\ reportsError st st') /\
  (~ rejects getTime st booking a ->
     reportsSuccess st st' /\
     bookings st'
     = map (onMatch (confirmationNumber booking)
              (assignedCopy st (driver a) (vehicle a))) (bookings st)) /\
  (forall b, sameRequestFacts b (assignedCopy st (driver a) (vehicle a) b)).
Proof.
  cbv zeta.
  destruct (handleSave_bookings getTime booking a st) as [Rej Acc].
  split; [ exact Rej | split; [ exact Acc | ] ].
  intros b. apply spreadAssignment_sameRequestFacts.
Qed.

(** Sunita Sharma is free, but MP20TA7001 is held from 10:00 to 11:30: saving
    it for the 10:30 booking changes no booking. *)
Lemma handleSave_all_or_nothing_witness :
  rejects SampleHost.getTime SampleAssigned.st Sample.at1030 SampleAssigned.sunita7001 /\
  bookings (handleSave SampleHost.getTime Sample.at1030 SampleAssigned.sunita7001
              SampleAssigned.st)
  = bookings SampleAssigned.st.
Proof.
  assert (R : rejects SampleHost.getTime SampleAssigned.st Sample.at1030
                SampleAssigned.sunita7001).
  { right. right. right. exists SampleAssigned.ravi1000.
    split; [ left; reflexivity | ].
    split; [ discriminate | ].
    split; [ eexists; split; reflexivity | ].
    split; [ discriminate | reflexivity ]. }
  split; [ exact R | ].
  exact (proj1 (proj1 (handleSave_all_or_nothing SampleHost.getTime Sample.at1030
                         SampleAssigned.sunita7001 SampleAssigned.st) R)).
Defined.

Lemma findDriver_firstNamed (n : string) (ds : list Driver) (d : Driver) :
  findDriver n ds = Some d <-> firstNamed d n ds.
Proof.
  unfold findDriver, firstNamed. induction ds as [| c ds IH]; cbn.
  - split; [ discriminate | ].
    intros (before & after & E & _). destruct before; discriminate E.
  - destruct (name c =? n) eqn:E.
    + apply String.eqb_eq in E. split.
      * intros [= <-]. exists [], ds. repeat split; [ exact E | intros d' [] ].
      * intros ([| c' before] & after & L & Hn & Hb).
        -- injection L as -> _. reflexivity.
        -- injection L as <- _. exfalso. apply (Hb c); [ left; reflexivity | exact E ].
    + apply String.eqb_neq in E. rewrite IH. split.
      * intros (before & after & -> & Hn & Hb). exists (c :: before), after.
        repeat split; [ exact Hn | ].
        intros d' [<- | Hd']; [ exact E | apply Hb; exact Hd' ].
      * intros ([| c' before] & after & L & Hn & Hb).
        -- injection L as <- _. contradiction.
        -- injection L as <- ->. exists before, after.
           repeat split; [ exact Hn | ].
           intros d' Hd'. apply Hb. right. exact Hd'.
Qed.

(** With pairwise different names, a driver of the roster is the first one
    of that name. *)
Lemma unique_name_firstNamed (ds : list Driver) (d : Driver) :
  NoDup (map name ds) -> In d ds -> firstNamed d (name d) ds.
Proof.
  intros ND Hin. apply in_split in Hin. destruct Hin as (before & after & ->).
  exists before, after. repeat split.
  intros d' Hd' E. rewrite map_app in ND. cbn in ND.
  apply NoDup_remove_2 in ND. apply ND. apply in_or_app. left.
  rewrite <- E. apply in_map. exact Hd'.
Qed.

(** With the first Ravi Kumar online and a second, offline, Ravi Kumar on
    the roster, saving "Ravi Kumar" for the 10:00 booking is accepted: the
    offline driver is named by the call, and the booking is assigned. *)
Lemma offline_namesake_counterexample :
  let st' := handleSave SampleHost.getTime Sample.at1000 SampleAssigned.ravi7001
               SampleNamesake.st2 in
  drivers SampleNamesake.st2
  = (Sample.INITIAL_DRIVERS ++ [SampleNamesake.namesake])%list /\
  status SampleNamesake.namesake = offline /\
  name SampleNamesake.namesake = driver SampleAssigned.ravi7001 /\
  bookings SampleNamesake.st2 = [Sample.at1000] /\
  bookings st'
  = [spreadAssignment Sample.at1000 (Some "Ravi Kumar") (Some "9876543210")
       (Some {| plate := "MP20TA7001"; model := "Tata Tigor XM EV" |})
       (Some tripOnline) assigned] /\
  ~ offlineDriverNeverAssigned.
Proof.
  cbv zeta. repeat split.
  intros H.
  destruct (H SampleHost.getTime Sample.at1000 SampleAssigned.ravi7001
              SampleNamesake.st2 SampleNamesake.namesake)
    with (i := 0%nat) (b := Sample.at1000) as (b' & E & _ & _ & _ & S);
    try reflexivity.
  - do 4 right. left. reflexivity.
  - injection E as <-. discriminate S.
Qed.

(** C7 (amended). The driver named by an assign call is looked up by name,
    and the name resolves to the first driver of the roster who carries it.
    When that driver is offline, [handleSave] refuses whatever the schedule
    is: no hypothesis on the bookings is needed, the booking list is
    unchanged (the target keeps its assignment fields and its bookingStatus)
    and the refusal is shown, by the banner saying that the driver is
    offline when the selection is complete.  Hence every offline driver
    named by a call is refused when the names of the roster are pairwise
    different; an offline driver listed after another driver of the same
    name is not covered. *)
Theorem handleSave_offline_driver_rejected (getTime : string -> option Z)
    (booking : Booking) (a : Assignment) (st : AppState) (d : Driver) :
  status d = offline ->
  firstNamed d (driver a) (drivers st) \/
  (NoDup (map name (drivers st)) /\ In d (drivers st) /\ name d = driver a) ->
  let st' := handleSave getTime booking a st in
  bookings st' = bookings st /\
  reportsError st st' /\
  (~ missingSelection a ->
   notifications st'
   = (notifications st
      ++ [{| message := "Driver " ++ driver a
                        ++ " is currently offline and cannot be assigned.";
             type := error |}])%list /\
   assignmentError st' = "").
Proof.
  intros Hs Hd. cbv zeta.
  assert (F : firstNamed d (driver a) (drivers st)).
  { destruct Hd as [F | (ND & Hin & <-)]; [ exact F | ].
    apply unique_name_firstNamed; assumption. }
  apply findDriver_firstNamed in F.
  assert (O : offlineDriverSelected st a) by (exists d; auto).
  assert (R : rejects getTime st booking a) by (right; left; exact O).
  destruct (handleSave_outcome getTime booking a st) as [(_ & E & N) | (NR & _)];
    [| contradiction ].
  split; [ exact E | split; [ exact N | ] ].
  intros NM.
  destruct (proj1 (handleSave_refusal_banner getTime booking a st NM) O)
    as (B & A & _).
  split; assumption.
Qed.

(** Ravi Kumar is offline: the 10:00 booking cannot be given to him although
    nothing else is scheduled for him. *)
Lemma handleSave_offline_driver_rejected_witness :
  bookings (handleSave SampleHost.getTime Sample.at1000 SampleAssigned.ravi7001
              SampleAssigned.stOffline)
  = bookings SampleAssigned.stOffline /\
  notifications (handleSave SampleHost.getTime Sample.at1000 SampleAssigned.ravi7001
                   SampleAssigned.stOffline)
  = [{| message := "Driver Ravi Kumar is currently offline and cannot be assigned.";
        type := error |}].
Proof.
  assert (F : firstNamed (Sample.mkDriver "Ravi Kumar" "9876543210" "ravi" offline)
                (driver SampleAssigned.ravi7001) (drivers SampleAssigned.stOffline)).
  { exists [], [Sample.mkDriver "Sunita Sharma" "8765432109" "sunita" online].
    repeat split. intros d' []. }
  pose proof (handleSave_offline_driver_rejected SampleHost.getTime Sample.at1000
                SampleAssigned.ravi7001 SampleAssigned.stOffline
                (Sample.mkDriver "Ravi Kumar" "9876543210" "ravi" offline)
                eq_refl (or_introl F)) as (H1 & _ & H3).
  split; [ exact H1 | ].
  apply H3. intros [H | H]; discriminate H.
Defined.

(** ** Unresolved driver or vehicle references *)

(** "Ghost" is no driver and "XX00XX0000" is no vehicle, yet saving them for
    the 10:00 booking reports a success and marks the booking assigned, with
    a null driverPhone and a null assignedVehicle. *)
Lemma unresolved_reference_counterexample :
  let st' := handleSave SampleHost.getTime Sample.at1000 SampleUnresolved.ghost
               SampleUnresolved.st in
  findDriver "Ghost" (drivers SampleUnresolved.st) = None /\
  findVehicle "XX00XX0000" (vehicleTypes SampleUnresolved.st) = None /\
  reportsSuccess SampleUnresolved.st st' /\
  bookings st'
  = [spreadAssignment Sample.at1000 (Some "Ghost") None None (Some tripOffline)
       assigned] /\
  ~ unresolvedReferenceRejected.
Proof.
  cbv zeta.
  split; [ reflexivity | ]. split; [ reflexivity | ].
  split; [ eexists; reflexivity | ]. split; [ reflexivity | ].
  intros H.
  destruct (H SampleHost.getTime Sample.at1000 SampleUnresolved.ghost
              SampleUnresolved.st (or_introl eq_refl)) as [E _].
  apply (f_equal (map bookingStatus)) in E. discriminate E.
Qed.

(** C8 (amended). The only validation of the selection is that neither the
    driver nor the vehicle is empty: an empty selection is refused with no
    booking changed.  A non-empty name that resolves to no driver, or a
    non-empty plate that resolves to no vehicle, is not refused on that
    ground; the call only has to pass the remaining checks.  An unresolved
    name never triggers the offline check: unless a time-conflict check
    rejects the call, the target is marked assigned with the name as given,
    driverPhone null and driverStatus offline.  With an unresolved plate,
    unless the offline-driver check or a time-conflict check rejects the
    call, the target is marked assigned with assignedVehicle null. *)
Theorem handleSave_unresolved_reference (getTime : string -> option Z)
    (booking : Booking) (a : Assignment) (st : AppState) :
  let st' := handleSave getTime booking a st in
  let cn := confirmationNumber booking in
  (missingSelection a ->
     bookings st' = bookings st /\
     assignmentError st' = "Please select both a driver and a vehicle." /\
     notifications st' = notifications st) /\
  (~ missingSelection a ->
   ~ driverConflict getTime st booking a -> ~ vehicleConflict getTime st booking a ->
   findDriver (driver a) (drivers st) = None ->
     reportsSuccess st st' /\
     bookings st'
     = map (onMatch cn (fun b =>
              spreadAssignment b (Some (driver a)) None
                (findVehicle (vehicle a) (vehicleTypes st))
                (Some tripOffline) assigned)) (bookings st)) /\
  (~ missingSelection a -> ~ offlineDriverSelected st a ->
   ~ driverConflict getTime st booking a -> ~ vehicleConflict getTime st booking a ->
   findVehicle (vehicle a) (vehicleTypes st) = None ->
     reportsSuccess st st' /\
     forall i b, nth_error (bookings st) i = Some b -> confirmationNumber b = cn ->
       exists b', nth_error (bookings st') i = Some b' /\
         bookingStatus b' = assigned /\ assignedVehicle b' = None /\
         driverName b' = Some (driver a)).
Proof.
  cbv zeta. split; [| split ].
  - intros M. unfold handleSave.
    apply missing_reflect in M. rewrite M. repeat split.
  - intros NM ND NV Hd.
    assert (NR : ~ rejects getTime st booking a).
    { intros [M | [(d & Hd' & _) | [D | V]]]; try contradiction. congruence. }
    destruct (handleSave_bookings getTime booking a st) as (_ & C).
    destruct (C NR) as [E B]. split; [ exact E | ].
    rewrite B. unfold assignedCopy. rewrite Hd. reflexivity.
  - intros NM NO ND NV Hv.
    assert (NR : ~ rejects getTime st booking a).
    { intros [M | [O | [D | V]]]; contradiction. }
    destruct (handleSave_bookings getTime booking a st) as (_ & C).
    destruct (C NR) as [E B]. split; [ exact E | ].
    intros i b Hi Hcn. rewrite B, nth_error_map, Hi. cbn.
    rewrite onMatch_same by exact Hcn.
    eexists. split; [ reflexivity | ].
    unfold assignedCopy. rewrite Hv. repeat split.
Qed.

Lemma handleSave_unresolved_reference_witness :
  reportsSuccess SampleUnresolved.st
    (handleSave SampleHost.getTime Sample.at1000 SampleUnresolved.ghost
       SampleUnresolved.st) /\
  bookings (handleSave SampleHost.getTime Sample.at1000 SampleUnresolved.ghost
              SampleUnresolved.st)
  = [spreadAssignment Sample.at1000 (Some "Ghost") None None (Some tripOffline)
       assigned].
Proof.
  refine (proj1 (proj2 (handleSave_unresolved_reference SampleHost.getTime
            Sample.at1000 SampleUnresolved.ghost SampleUnresolved.st)) _ _ _ eq_refl).
  - intros [H | H]; discriminate H.
  - intros (b & [<- | []] & N & _). apply N. reflexivity.
  - intros (b & [<- | []] & N & _). apply N. reflexivity.
Defined.

(** ** Frame of assign and cancel *)

Lemma assignOrCancel_onMatch getTime cn st st' :
  assignOrCancel getTime cn st st' ->
  exists g, bookings st' = map (onMatch cn g) (bookings st).
Proof.
  intros [ | dn vp | booking a <- ].
  - exists cancelledCopy. apply bookings_handleCancelBooking.
  - eexists. apply bookings_handleAssignDriver.
  - destruct (handleSave_outcome getTime booking a st) as [(_ & E & _) | (_ & ->)].
    + exists (fun b => b). rewrite E. symmetry.
      rewrite <- (map_id (bookings st)) at 2.
      apply map_ext. intros b. unfold onMatch.
      destruct (_ =? _); reflexivity.
    + eexists. apply bookings_committed.
Qed.

(** The 10:00 and the 10:30 booking carry the same confirmation number: one
    cancel of that number changes both of them. *)
Lemma cancel_duplicate_counterexample :
  let st' := handleCancelBooking "CNF007" SampleDuplicate.st0 in
  bookings SampleDuplicate.st0 = [SampleDuplicate.first; SampleDuplicate.second] /\
  bookings st'
  = [cancelledCopy SampleDuplicate.first; cancelledCopy SampleDuplicate.second] /\
  cancelledCopy SampleDuplicate.first <> SampleDuplicate.first /\
  cancelledCopy SampleDuplicate.second <> SampleDuplicate.second /\
  ~ atMostOneBookingModified.
Proof.
  cbv zeta.
  split; [ reflexivity | ]. split; [ reflexivity | ].
  split; [ intros E; apply (f_equal bookingStatus) in E; discriminate E | ].
  split; [ intros E; apply (f_equal bookingStatus) in E; discriminate E | ].
  intros H.
  specialize (H SampleHost.getTime "CNF007" SampleDuplicate.st0 _
                (ac_cancel _ _ _) 0%nat 1%nat).
  assert (E : 0%nat = 1%nat).
  { apply H; intros E; apply (f_equal (option_map bookingStatus)) in E;
      discriminate E. }
  discriminate E.
Qed.

(** C10 (amended). An assign or a cancel for confirmation number cn keeps the
    length of the booking list and leaves every booking with a different
    confirmation number in place with all its fields; when no booking
    carries cn the whole list is unchanged; and provided the confirmation
    numbers of the list are pairwise different, at most one position of the
    list changes. *)
Theorem assign_cancel_frame (getTime : string -> option Z) (cn : string)
    (st st' : AppState) :
  assignOrCancel getTime cn st st' ->
  List.length (bookings st') = List.length (bookings st) /\
  (forall i b, nth_error (bookings st) i = Some b -> confirmationNumber b <> cn ->
     nth_error (bookings st') i = Some b) /\
  ((forall b, In b (bookings st) -> confirmationNumber b <> cn) ->
     bookings st' = bookings st) /\
  (NoDup (map confirmationNumber (bookings st)) ->
   forall i j,
     nth_error (bookings st') i <> nth_error (bookings st) i ->
     nth_error (bookings st') j <> nth_error (bookings st) j -> i = j).
Proof.
  intros H. destruct (assignOrCancel_onMatch _ _ _ _ H) as [g ->].
  apply map_onMatch_frame.
Qed.

(** Ravi's 10:00 booking is re-assigned: the 10:30 and 11:30 bookings stay. *)
Lemma assign_cancel_frame_witness :
  nth_error (bookings (handleSave SampleHost.getTime SampleAssigned.ravi1000
                         SampleAssigned.sunita7002 SampleAssigned.st)) 1
  = Some Sample.at1030 /\
  nth_error (bookings (handleCancelBooking "CNF001" SampleAssigned.st)) 2
  = Some Sample.at1130.
Proof.
  split.
  - refine (proj1 (proj2 (assign_cancel_frame SampleHost.getTime "CNF001"
              SampleAssigned.st _ (ac_save _ _ _ SampleAssigned.ravi1000
                                     SampleAssigned.sunita7002 eq_refl)))
            1%nat Sample.at1030 eq_refl _).
    discriminate.
  - refine (proj1 (proj2 (assign_cancel_frame SampleHost.getTime "CNF001"
              SampleAssigned.st _ (ac_cancel _ _ _)))
            2%nat Sample.at1130 eq_refl _).
    discriminate.
Defined.

(** ** Cancellation *)

Lemma cancelledCopy_idem (cn : string) (b : Booking) :
  onMatch cn cancelledCopy (onMatch cn cancelledCopy b) = onMatch cn cancelledCopy b.
Proof.
  unfold onMatch. destruct (confirmationNumber b =? cn) eqn:E; cbn; rewrite E;
    reflexivity.
Qed.

Lemma spreadBookingStatus_idem (cn : string) (b : Booking) :
  onMatch cn (fun b => spreadBookingStatus b cancelled)
    (onMatch cn (fun b => spreadBookingStatus b cancelled) b)
  = onMatch cn (fun b => spreadBookingStatus b cancelled) b.
Proof.
  unfold onMatch. destruct (confirmationNumber b =? cn) eqn:E; cbn; rewrite E;
    reflexivity.
Qed.

Lemma views_handleCancelBooking (cn : string) (st : AppState) :
  drivers (handleCancelBooking cn st) = drivers st /\
  vehicleTypes (handleCancelBooking cn st) = vehicleTypes st /\
  lastBooking (handleCancelBooking cn st) = lastBooking st /\
  guestBookings (handleCancelBooking cn st)
  = map (onMatch cn (fun b => spreadBookingStatus b cancelled)) (guestBookings st) /\
  selectedBooking (handleCancelBooking cn st)
  = option_map (onMatch cn (fun b => spreadBookingStatus b cancelled))
      (selectedBooking st).
Proof.
  unfold handleCancelBooking, andThen.
  destruct (selectedBooking st) as [sb |] eqn:S; cbn.
  - unfold onMatch. destruct (confirmationNumber sb =? cn); cbn; rewrite ?S;
      repeat split.
  - rewrite ?S. repeat split.
Qed.

(** C6. Cancelling confirmation number cn turns every booking carrying it
    into a cancelled one: bookingStatus cancelled, driverName, driverPhone and
    assignedVehicle null, driverStatus offline.  Cancelling twice leaves the
    bookings, drivers, vehicles and the cached views exactly as cancelling
    once does. *)
Theorem handleCancelBooking_clears_and_idempotent (cn : string) (st : AppState) :
  let st' := handleCancelBooking cn st in
  (forall i b, nth_error (bookings st) i = Some b -> confirmationNumber b = cn ->
     exists b', nth_error (bookings st') i = Some b' /\
       bookingStatus b' = cancelled /\ driverName b' = None /\
       driverPhone b' = None /\ assignedVehicle b' = None /\
       driverStatus b' = Some tripOffline /\ sameRequestFacts b b') /\
  storeOf (handleCancelBooking cn st') = storeOf st'.
Proof.
  cbv zeta. split.
  - intros i b Hi Hcn. rewrite bookings_handleCancelBooking, nth_error_map, Hi.
    cbn. rewrite onMatch_same by exact Hcn.
    eexists. split; [ reflexivity | ]. repeat split.
  - destruct (views_handleCancelBooking cn st) as (D & V & L & G & S).
    destruct (views_handleCancelBooking cn (handleCancelBooking cn st))
      as (D' & V' & L' & G' & S').
    unfold storeOf. rewrite D', V', L', G', S', G, S.
    rewrite (bookings_handleCancelBooking cn (handleCancelBooking cn st)).
    rewrite bookings_handleCancelBooking, !map_map.
    rewrite (map_ext _ _ (cancelledCopy_idem cn)).
    rewrite (map_ext _ _ (spreadBookingStatus_idem cn)).
    destruct (selectedBooking st) as [sb |]; cbn; [| reflexivity ].
    rewrite spreadBookingStatus_idem. reflexivity.
Qed.

(** Cancelling Ravi's 10:00 booking releases the driver and the vehicle. *)
Lemma handleCancelBooking_clears_and_idempotent_witness :
  exists b',
    nth_error (bookings (handleCancelBooking "CNF001" SampleAssigned.st)) 0 = Some b' /\
    bookingStatus b' = cancelled /\ driverName b' = None /\
    driverPhone b' = None /\ assignedVehicle b' = None /\
    driverStatus b' = Some tripOffline /\
    sameRequestFacts SampleAssigned.ravi1000 b'.
Proof.
  exact (proj1 (handleCancelBooking_clears_and_idempotent "CNF001"
                  SampleAssigned.st) 0%nat SampleAssigned.ravi1000 eq_refl eq_refl).
Defined.

(** ** Payment *)

(** A second run of the handler on the paid 10:00 booking replaces the
    recorded payment id "pay_001" by "pay_002". *)
Lemma paymentHandler_overwrites_counterexample :
  paymentStatus SamplePaid.paid1000 = paid /\
  paymentId SamplePaid.paid1000 = Some "pay_001" /\
  option_map paymentId
    (nth_error (bookings (paymentHandler SamplePaid.paid1000 "pay_002" SamplePaid.st)) 0)
  = Some (Some "pay_002") /\
  ~ paidBookingUntouched.
Proof.
  repeat split.
  intros H.
  specialize (H SamplePaid.paid1000 "pay_002" SamplePaid.st 0%nat
                SamplePaid.paid1000 eq_refl eq_refl eq_refl).
  discriminate H.
Qed.

(** C3 (amended). The payment handler records the payment unconditionally:
    every booking carrying the confirmation number ends with paymentStatus
    paid and with the new paymentId, whatever it held before, so on a booking
    that is already paid the status stays paid and the recorded id is
    replaced; no other field changes.  The already-paid case is kept away only
    by the two screens, which offer the payment button while paymentStatus is
    pending. *)
Theorem paymentHandler_records_unconditionally (booking : Booking) (pid : string)
    (st : AppState) :
  (forall i b, nth_error (bookings st) i = Some b ->
     confirmationNumber b = confirmationNumber booking ->
     nth_error (bookings (paymentHandler booking pid st)) i
     = Some (spreadPayment b paid (Some pid)) /\
     paymentStatus (spreadPayment b paid (Some pid)) = paid /\
     paymentId (spreadPayment b paid (Some pid)) = Some pid) /\
  (forall b, payNowOnConfirmation b = true -> paymentStatus b = pending) /\
  (forall b, payNowOnDetails b = true -> paymentStatus b = pending).
Proof.
  split; [| split ].
  - intros i b Hi Hcn.
    rewrite bookings_paymentHandler, nth_error_map, Hi. cbn.
    rewrite onMatch_same by exact Hcn. repeat split.
  - intros b. unfold payNowOnConfirmation. destruct (paymentStatus b);
      [ reflexivity | discriminate ].
  - intros b. unfold payNowOnDetails. destruct (paymentStatus b);
      [ reflexivity | discriminate ].
Qed.

Lemma paymentHandler_records_unconditionally_witness :
  nth_error (bookings (paymentHandler SamplePaid.paid1000 "pay_002" SamplePaid.st)) 0
  = Some (spreadPayment SamplePaid.paid1000 paid (Some "pay_002")).
Proof.
  exact (proj1 (proj1 (paymentHandler_records_unconditionally SamplePaid.paid1000
                         "pay_002" SamplePaid.st)
                  0%nat SamplePaid.paid1000 eq_refl eq_refl)).
Defined.

(** ** No double booking *)

Section NoDoubleBooking.

Variable getTime : string -> option Z.

Lemma isTimeOverlapping_ext (a a' b b' : Booking) :
  date a' = date a -> time a' = time a -> date b' = date b -> time b' = time b ->
  isTimeOverlapping getTime a' b' = isTimeOverlapping getTime a b.
Proof.
  intros Da Ta Db Tb. unfold isTimeOverlapping, startOf.
  rewrite Da, Ta, Db, Tb. reflexivity.
Qed.

Lemma findVehicle_plate (p : string) (vts : VehicleTypes) (v : Vehicle) :
  findVehicle p vts = Some v -> plate v = p.
Proof.
  unfold findVehicle.
  destruct (find _ vts) as [[key details] |]; [| discriminate ].
  destruct (Js.truthy key); [| discriminate ].
  intros H. apply find_some in H. destruct H as [_ H].
  apply String.eqb_eq. exact H.
Qed.

Lemma unique_by_number (l : list Booking) (x y : Booking) :
  NoDup (map confirmationNumber l) -> In x l -> In y l ->
  confirmationNumber x = confirmationNumber y -> x = y.
Proof.
  induction l as [| c l IH]; cbn; intros ND Hx Hy E; [ contradiction | ].
  inversion ND as [| ? ? Hnotin ND']; subst.
  destruct Hx as [-> | Hx], Hy as [-> | Hy].
  - reflexivity.
  - exfalso. apply Hnotin. rewrite E. apply in_map. exact Hy.
  - exfalso. apply Hnotin. rewrite <- E. apply in_map. exact Hx.
  - apply IH; assumption.
Qed.

Lemma map_number_onMatch (cn : string) (g : Booking -> Booking) (l : list Booking) :
  (forall b, confirmationNumber (g b) = confirmationNumber b) ->
  map confirmationNumber (map (onMatch cn g) l) = map confirmationNumber l.
Proof.
  intros Hg. rewrite map_map. apply map_ext. intros b. unfold onMatch.
  destruct (_ =? _); [ apply Hg | reflexivity ].
Qed.

(** The pair made of the freshly assigned booking and another live booking. *)
Lemma fresh_pair_disjoint (st : AppState) (booking : Booking) (a : Assignment)
    (b2 : Booking) :
  ~ rejects getTime st booking a ->
  In b2 (bookings st) ->
  confirmationNumber b2 <> confirmationNumber booking ->
  bookingStatus b2 <> cancelled ->
  let b1' := assignedCopy st (driver a) (vehicle a) booking in
  sharesDriver b1' b2 \/ sharesVehicle b1' b2 ->
  isTimeOverlapping getTime booking b2 = false.
Proof.
  intros NR Hin N L b1' S.
  destruct (isTimeOverlapping getTime booking b2) eqn:O; [| reflexivity ].
  exfalso. apply NR. right. right.
  destruct S as [(d & H1 & H2) | (v1 & v2 & H1 & H2 & P)].
  - left. exists b2. cbn in H1. repeat split; try assumption. congruence.
  - right. exists b2. cbn in H1. apply findVehicle_plate in H1.
    repeat split; try assumption. exists v2. split; congruence.
Qed.

Lemma handleSave_preserves (st : AppState) (booking : Booking) (a : Assignment) :
  uniqueConfirmationNumbers st ->
  noDoubleBooking getTime (bookings st) ->
  In booking (bookings st) ->
  reportsSuccess st (handleSave getTime booking a st) ->
  uniqueConfirmationNumbers (handleSave getTime booking a st) /\
  noDoubleBooking getTime (bookings (handleSave getTime booking a st)).
Proof.
  intros U Inv Hin Ok.
  apply handleSave_success_iff in Ok.
  destruct (handleSave_bookings getTime booking a st) as (_ & C).
  destruct (C Ok) as [_ B]. clear C.
  set (g := assignedCopy st (driver a) (vehicle a)) in *.
  set (cn := confirmationNumber booking) in *.
  unfold uniqueConfirmationNumbers. rewrite B. split.
  { rewrite map_number_onMatch by reflexivity. exact U. }
  intros b1' b2' H1 H2 D L1 L2 S.
  apply in_map_iff in H1, H2.
  destruct H1 as (b1 & <- & H1), H2 as (b2 & <- & H2).
  destruct (string_dec (confirmationNumber b1) cn) as [E1 | N1],
           (string_dec (confirmationNumber b2) cn) as [E2 | N2].
  - exfalso. apply D. f_equal. apply (unique_by_number _ _ _ U H1 H2). congruence.
  - assert (b1 = booking) by (apply (unique_by_number _ _ _ U H1 Hin); exact E1).
    subst b1. rewrite (onMatch_same _ _ _ E1) in *.
    rewrite (onMatch_other _ _ _ N2) in *.
    rewrite (isTimeOverlapping_ext booking (g booking) b2 b2) by reflexivity.
    apply (fresh_pair_disjoint st booking a b2 Ok H2 N2 L2 S).
  - assert (b2 = booking) by (apply (unique_by_number _ _ _ U H2 Hin); exact E2).
    subst b2. rewrite (onMatch_same _ _ _ E2) in *.
    rewrite (onMatch_other _ _ _ N1) in *.
    rewrite isTimeOverlapping_sym.
    rewrite (isTimeOverlapping_ext booking (g booking) b1 b1) by reflexivity.
    apply (fresh_pair_disjoint st booking a b1 Ok H1 N1 L1).
    destruct S as [(d & Ha & Hb) | (v1 & v2 & Ha & Hb & P)].
    + left. exists d. auto.
    + right. exists v2, v1. auto.
  - rewrite (onMatch_other _ _ _ N1) in *. rewrite (onMatch_other _ _ _ N2) in *.
    apply Inv; assumption.
Qed.

Lemma noAssignments_noDoubleBooking (st : AppState) :
  noAssignments st -> noDoubleBooking getTime (bookings st).
Proof.
  intros NA b1 b2 H1 _ _ _ _ [(d & Hd & _) | (v1 & v2 & Hv & _)];
    destruct (NA b1 H1); congruence.
Qed.

Lemma assigns_invariant (st0 st : AppState) :
  uniqueConfirmationNumbers st0 -> noAssignments st0 -> assigns getTime st0 st ->
  uniqueConfirmationNumbers st /\ noDoubleBooking getTime (bookings st).
Proof.
  intros U NA R. induction R as [| st booking a R IH Hin Ok].
  - split; [ exact U | apply noAssignments_noDoubleBooking; exact NA ].
  - destruct IH as [U' Inv]. apply handleSave_preserves; assumption.
Qed.

End NoDoubleBooking.

(** With one confirmation number carried by the 10:00 and the 10:30 booking,
    one successful save gives both of them Ravi Kumar and MP20TA7001, although
    their windows overlap. *)
Lemma duplicate_number_counterexample :
  noAssignments SampleDuplicate.st0 /\
  reportsSuccess SampleDuplicate.st0 SampleDuplicate.st1 /\
  bookings SampleDuplicate.st1
  = [SampleDuplicate.assignedTo SampleDuplicate.first;
     SampleDuplicate.assignedTo SampleDuplicate.second] /\
  isTimeOverlapping SampleHost.getTime
    (SampleDuplicate.assignedTo SampleDuplicate.first)
    (SampleDuplicate.assignedTo SampleDuplicate.second) = true /\
  ~ noDoubleBookingFromAnyStore.
Proof.
  assert (NA : noAssignments SampleDuplicate.st0).
  { intros b [<- | [<- | []]]; split; reflexivity. }
  assert (S : reportsSuccess SampleDuplicate.st0 SampleDuplicate.st1)
    by (eexists; reflexivity).
  split; [ exact NA | ].
  split; [ exact S | ]. split; [ reflexivity | ]. split; [ reflexivity | ].
  intros H.
  assert (R : assigns SampleHost.getTime SampleDuplicate.st0 SampleDuplicate.st1).
  { apply assigns_save; [ apply assigns_none | left; reflexivity | exact S ]. }
  specialize (H SampleHost.getTime _ _ NA R
                (SampleDuplicate.assignedTo SampleDuplicate.first)
                (SampleDuplicate.assignedTo SampleDuplicate.second)).
  assert (F : isTimeOverlapping SampleHost.getTime
                (SampleDuplicate.assignedTo SampleDuplicate.first)
                (SampleDuplicate.assignedTo SampleDuplicate.second) = false).
  { apply H.
    - left. reflexivity.
    - right. left. reflexivity.
    - discriminate.
    - discriminate.
    - discriminate.
    - left. exists "Ravi Kumar". split; reflexivity. }
  discriminate F.
Qed.

(** C1 (amended). Provided the confirmation numbers of the store are pairwise
    different: after every sequence of successful saves that starts from a
    store with no assignments, any two distinct non-cancelled bookings that
    share a driverName, or whose assigned vehicles share a plate, have trip
    windows that do not overlap. *)
Theorem no_double_booking (getTime : string -> option Z) (st0 st : AppState) :
  uniqueConfirmationNumbers st0 ->
  noAssignments st0 ->
  assigns getTime st0 st ->
  noDoubleBooking getTime (bookings st).
Proof.
  intros U NA R. exact (proj2 (assigns_invariant getTime st0 st U NA R)).
Qed.

Lemma no_double_booking_witness :
  noDoubleBooking SampleHost.getTime (bookings SampleDay.st2).
Proof.
  apply (no_double_booking SampleHost.getTime SampleDay.st0).
  - unfold uniqueConfirmationNumbers. cbn.
    repeat constructor; cbn; intuition discriminate.
  - intros b [<- | [<- | [<- | []]]]; split; reflexivity.
  - apply assigns_save; [ apply assigns_save | |].
    + apply assigns_none.
    + left. reflexivity.
    + eexists. reflexivity.
    + right. right. left. reflexivity.
    + eexists. reflexivity.
Defined.

(** The scenario of the 10:00 and 10:30 bookings: the driver of the first is
    refused for the second, and the booking list stays as it was. *)
Example second_overlapping_assignment_refused :
  notifications SampleDay.st3
  = (notifications SampleDay.st2
     ++ [{| message := "Driver Ravi Kumar has an overlapping booking.";
            type := error |}])%list /\
  bookings SampleDay.st3 = bookings SampleDay.st2.
Proof. split; reflexivity. Qed.

(** In binary64 the product 15 * (1 - 0.9) is 1.4999999999999996, below the
    tie 1.5: one minute remains, not two. *)
Example calculateSimulatedETA_at_nine_tenths :
  (15 * (1 - 0.9))%float = 1.4999999999999996%float /\
  calculateSimulatedETA SampleHost.numberToString 0.9 = "Less than a minute" /\
  calculateSimulatedETA SampleHost.numberToString 0.96 = "Arriving now" /\
  calculateSimulatedETA SampleHost.numberToString 1 = "Arrived" /\
  calculateSimulatedETA SampleHost.numberToString 0 = "approx. 15 mins" /\
  calculateSimulatedETA SampleHost.numberToString nan = "approx. NaN mins".
Proof. repeat split; vm_compute; reflexivity. Qed.

(** [Math.round] on ties, negative values and the value just below one half. *)
Example Math_round_examples :
  Js.Math_round 2.5 = 3%float /\ Js.Math_round (-2.5) = (-2)%float /\
  Js.Math_round 7.5 = 8%float /\ Js.Math_round 442.5 = 443%float /\
  Js.Math_round 0.49999999999999994 = 0%float /\
  Js.Math_round (-0.2) = (-0)%float /\
  Js.Math_round infinity = infinity.
Proof. repeat split; vm_compute; reflexivity. Qed.

(** * Further properties *)

(** ** Overlap detector *)

(** X1. The detector is symmetric; a booking overlaps itself exactly when its
    start parses (which is why the checks must skip the booking's own
    number); and two parsed starts overlap exactly when they are less than
    90 minutes apart. *)
Theorem isTimeOverlapping_symmetric_reflexive (getTime : string -> option Z)
    (A B : Booking) :
  isTimeOverlapping getTime A B = isTimeOverlapping getTime B A /\
  (isTimeOverlapping getTime A A = true <-> startOf getTime A <> None) /\
  (forall a b, startOf getTime A = Some a -> startOf getTime B = Some b ->
     (isTimeOverlapping getTime A B = true <-> (Z.abs (a - b) < 5400000)%Z)).
Proof.
  split; [ apply isTimeOverlapping_sym | split ].
  - unfold isTimeOverlapping. destruct (startOf getTime A) as [a |].
    + split; [ discriminate | intros _ ].
      unfold DURATION_MS. apply andb_true_iff.
      rewrite Z.ltb_lt, Z.gtb_lt. lia.
    + split; [ discriminate | congruence ].
  - intros a b HA HB. unfold isTimeOverlapping. rewrite HA, HB.
    unfold DURATION_MS. rewrite andb_true_iff, Z.ltb_lt, Z.gtb_lt. lia.
Qed.

Lemma isTimeOverlapping_symmetric_reflexive_witness :
  isTimeOverlapping SampleHost.getTime Sample.at1030 Sample.at1000 = true.
Proof.
  apply (proj2 (proj2 (isTimeOverlapping_symmetric_reflexive SampleHost.getTime
                         Sample.at1030 Sample.at1000))
           1717237800000%Z 1717236000000%Z eq_refl eq_refl).
  reflexivity.
Defined.

(** ** Fare estimator *)

Lemma lowerChar_idem (c : ascii) : Js.lowerChar (Js.lowerChar c) = Js.lowerChar c.
Proof.
  destruct c as [[] [] [] [] [] [] [] []]; reflexivity.
Qed.

Lemma toLowerCase_idem (s : string) :
  Js.toLowerCase (Js.toLowerCase s) = Js.toLowerCase s.
Proof.
  induction s as [| c s IH]; cbn; [ reflexivity | ].
  rewrite lowerChar_idem, IH. reflexivity.
Qed.

Lemma trimStart_noLeadingSpace (s : string) : noLeadingSpace (Js.trimStart s).
Proof.
  induction s as [| c s IH]; cbn; [ exact I | ].
  destruct (Js.isSpace c) eqn:E; [ exact IH | exact E ].
Qed.

Lemma trimStart_fixed (s : string) : noLeadingSpace s -> Js.trimStart s = s.
Proof.
  destruct s as [| c s]; cbn; [ reflexivity | intros -> ]. reflexivity.
Qed.

Lemma trimEnd_noLeadingSpace (s : string) :
  noLeadingSpace s -> noLeadingSpace (Js.trimEnd s).
Proof.
  destruct s as [| c s]; cbn; [ auto | intros E ].
  destruct (Js.trimEnd s); cbn; [ rewrite E; exact E | exact E ].
Qed.

Lemma trimEnd_idem (s : string) : Js.trimEnd (Js.trimEnd s) = Js.trimEnd s.
Proof.
  induction s as [| c s IH]; cbn; [ reflexivity | ].
  destruct (Js.trimEnd s) as [| c' r] eqn:E.
  - destruct (Js.isSpace c) eqn:S; cbn; [ reflexivity | rewrite S; reflexivity ].
  - cbn. cbn in IH. rewrite IH. reflexivity.
Qed.

Lemma trim_idem (s : string) : Js.trim (Js.trim s) = Js.trim s.
Proof.
  unfold Js.trim.
  rewrite (trimStart_fixed (Js.trimEnd (Js.trimStart s))).
  - apply trimEnd_idem.
  - apply trimEnd_noLeadingSpace, trimStart_noLeadingSpace.
Qed.

(** X2. The fare does not depend on the letter case of the location nor on
    white space around it. *)
Theorem estimateFare_case_and_space_insensitive (loc vt : string) :
  estimateFare (Js.toLowerCase loc) vt = estimateFare loc vt /\
  estimateFare (Js.trim loc) vt = estimateFare loc vt.
Proof.
  unfold estimateFare. split.
  - rewrite toLowerCase_idem. reflexivity.
  - rewrite <- trim_toLowerCase, trim_idem. reflexivity.
Qed.

(** X3. At every location an SUV costs strictly more than any other vehicle
    type, and every fare is one of 295, 443, 590 and 885. *)
Theorem estimateFare_suv_dearer (loc vt : string) :
  (vt <> "SUV" -> (estimateFare loc vt <? estimateFare loc "SUV")%float = true) /\
  (estimateFare loc vt = 590%float \/ estimateFare loc vt = 885%float \/
   estimateFare loc vt = 295%float \/ estimateFare loc vt = 443%float).
Proof.
  split; [| apply estimateFare_values ].
  intros N. apply String.eqb_neq in N. unfold estimateFare. rewrite N.
  destruct (Js.includes _ "airport");
    [| destruct (_ || _ || _ || _)%bool ]; vm_compute; reflexivity.
Qed.

Lemma estimateFare_suv_dearer_witness :
  (estimateFare "Madan Mahal Station" "Standard Sedan"
   <? estimateFare "Madan Mahal Station" "SUV")%float = true.
Proof.
  apply (proj1 (estimateFare_suv_dearer "Madan Mahal Station" "Standard Sedan")).
  discriminate.
Defined.

(** ** Booking creation *)

Lemma missingField_reflect (f : Form.t) :
  (negb (Js.truthy (Form.guestName f)) || negb (Js.truthy (Form.guestPhone f))
   || negb (Js.truthy (Form.location f)) || negb (Js.truthy (Form.date f))
   || negb (Js.truthy (Form.time f)))%bool = true <-> missingField f.
Proof.
  unfold missingField.
  rewrite !orb_true_iff, !negb_true_iff, !truthy_false. tauto.
Qed.

Lemma handleBooking_bookings (response : option Generated.t) (w : World) :
  bookings (app (handleBooking response w)) = bookings (app w) \/
  (exists r, response = Some r /\ ~ missingField (form w) /\
     bookings (app (handleBooking response w))
     = (bookings (app w) ++ [newBooking r (form w)])%list).
Proof.
  unfold handleBooking.
  destruct (_ || _ || _ || _ || _)%bool eqn:M; [ left; reflexivity | ].
  destruct response as [r |]; [| left; reflexivity ].
  right. exists r. split; [ reflexivity | split; [| reflexivity ] ].
  intros H. apply missingField_reflect in H. congruence.
Qed.

(** X4. A submission stores no booking when a required field (name, phone,
    location, date, time) is empty or when the text service fails: the booking
    list, the drivers, the vehicles and the last booking are as before, the
    form keeps what the guest typed and reports an error. *)
Theorem handleBooking_failure_stores_nothing (response : option Generated.t)
    (w : World) :
  missingField (form w) \/ response = None ->
  let w' := handleBooking response w in
  bookings (app w') = bookings (app w) /\
  drivers (app w') = drivers (app w) /\
  vehicleTypes (app w') = vehicleTypes (app w) /\
  lastBooking (app w') = lastBooking (app w) /\
  Form.formError (form w') <> "" /\
  Form.guestName (form w') = Form.guestName (form w) /\
  Form.guestPhone (form w') = Form.guestPhone (form w) /\
  Form.location (form w') = Form.location (form w) /\
  Form.date (form w') = Form.date (form w) /\
  Form.time (form w') = Form.time (form w).
Proof.
  intros H. cbv zeta. unfold handleBooking.
  destruct (_ || _ || _ || _ || _)%bool eqn:M.
  - repeat split; discriminate.
  - destruct H as [H | ->].
    + apply missingField_reflect in H. congruence.
    + repeat split; discriminate.
Qed.

Lemma handleBooking_failure_stores_nothing_witness :
  bookings (app (handleBooking None SampleForm.empty)) = [] /\
  Form.formError (form (handleBooking None SampleForm.empty))
  = "An unexpected error occurred. Please try again later.".
Proof.
  split.
  - exact (proj1 (handleBooking_failure_stores_nothing None SampleForm.empty
                    (or_intror eq_refl))).
  - reflexivity.
Defined.

(** X5. A submission with the five required fields filled and an answer of
    the text service appends exactly one booking and keeps all earlier ones:
    the new booking carries the form's data and the generated number, the fare
    estimated from the form's location and vehicle type, no driver and no
    vehicle, and it is confirmed, offline and pending payment; it becomes the
    last booking and the five fields of the form are cleared. *)
Theorem handleBooking_appends_confirmed (r : Generated.t) (w : World) :
  ~ missingField (form w) ->
  let w' := handleBooking (Some r) w in
  let b := newBooking r (form w) in
  bookings (app w') = (bookings (app w) ++ [b])%list /\
  lastBooking (app w') = Some b /\
  confirmationNumber b = Generated.confirmationNumber r /\
  estimatedFare b
  = estimateFare (Form.location (form w)) (Form.selectedVehicleType (form w)) /\
  driverName b = None /\ driverPhone b = None /\ assignedVehicle b = None /\
  bookingStatus b = confirmed /\ driverStatus b = Some tripOffline /\
  paymentStatus b = pending /\ paymentId b = None /\
  Form.guestName (form w') = "" /\ Form.guestPhone (form w') = "" /\
  Form.location (form w') = "" /\ Form.date (form w') = "" /\
  Form.time (form w') = "" /\ Form.isConfirmationVisible (form w') = true.
Proof.
  intros NM. cbv zeta. unfold handleBooking.
  destruct (_ || _ || _ || _ || _)%bool eqn:M.
  - apply missingField_reflect in M. contradiction.
  - repeat split.
Qed.

Lemma handleBooking_appends_confirmed_witness :
  bookings (app (handleBooking (Some SampleForm.generated) SampleForm.empty))
  = [newBooking SampleForm.generated SampleForm.filled] /\
  estimatedFare (newBooking SampleForm.generated SampleForm.filled) = 885%float.
Proof.
  split.
  - refine (proj1 (handleBooking_appends_confirmed SampleForm.generated
                     SampleForm.empty _)).
    intros [H | [H | [H | [H | H]]]]; discriminate H.
  - reflexivity.
Defined.

Lemma created_bookings (w0 w : World) :
  created w0 w ->
  exists added, bookings (app w) = (bookings (app w0) ++ added)%list /\
    forall b, In b added ->
      driverName b = None /\ assignedVehicle b = None /\
      bookingStatus b = confirmed /\ paymentStatus b = pending.
Proof.
  induction 1 as [| w f response R (added & E & P)].
  - exists []. split; [ symmetry; apply app_nil_r | intros b [] ].
  - set (w1 := {| app := app w; form := f; session := session w;
                  tracking := tracking w |}).
    destruct (handleBooking_bookings response w1) as [U | (r & _ & _ & A)].
    + exists added. rewrite U. cbn. split; assumption.
    + exists (added ++ [newBooking r f])%list. rewrite A. cbn. rewrite E.
      split; [ symmetry; apply app_assoc | ].
      intros b Hb. apply in_app_or in Hb. destruct Hb as [Hb | [<- | []]];
        [ apply P; exact Hb | repeat split ].
Qed.

(** X6. Creation never assigns: in a store built from an empty booking list
    by any sequence of form submissions, every booking is confirmed, pending
    payment and without driver or vehicle; in particular the store has no
    assignments, the starting point of the no-double-booking property. *)
Theorem created_store_has_no_assignments (w0 w : World) :
  bookings (app w0) = [] ->
  created w0 w ->
  noAssignments (app w) /\
  forall b, In b (bookings (app w)) ->
    bookingStatus b = confirmed /\ paymentStatus b = pending.
Proof.
  intros E R. destruct (created_bookings w0 w R) as (added & A & P).
  rewrite E in A. cbn in A. unfold noAssignments. rewrite A.
  split; intros b Hb; destruct (P b Hb) as (H1 & H2 & H3 & H4); auto.
Qed.

Lemma created_store_has_no_assignments_witness :
  noAssignments
    (app (handleBooking (Some SampleForm.generated) SampleForm.empty)).
Proof.
  refine (proj1 (created_store_has_no_assignments SampleForm.empty _ eq_refl
                   (created_submit SampleForm.empty SampleForm.empty
                      SampleForm.filled (Some SampleForm.generated)
                      (created_none SampleForm.empty)))).
Defined.

(** ** Login *)

Lemma find_app_none {A : Type} (p : A -> bool) (l l' : list A) :
  find p l = None -> find p (l ++ l') = find p l'.
Proof.
  induction l as [| a l IH]; cbn; [ reflexivity | ].
  destruct (p a); [ discriminate | exact IH ].
Qed.

Lemma handleLogin_outcome (u p : string) (w : World) :
  let w' := handleLogin u p w in
  let s := session w in
  let s' := session w' in
  (Session.loginRole s = "admin" ->
     (u = "admin" /\ p = "admin123" ->
        Session.currentUserRole s' = "admin" /\ Session.loginError s' = "") /\
     (~ (u = "admin" /\ p = "admin123") ->
        Session.currentUserRole s' = Session.currentUserRole s /\
        Session.loggedInDriver s' = Session.loggedInDriver s /\
        Session.loginError s' = "Invalid admin credentials." /\ app w' = app w)) /\
  (Session.loginRole s = "driver" ->
     ((exists d, In d (drivers (app w)) /\ username d = u /\ password d = Some p) ->
        exists d, Session.loggedInDriver s' = Some d /\
          In d (drivers (app w)) /\ username d = u /\ password d = Some p /\
          Session.currentUserRole s' = "driver" /\ Session.loginError s' = "") /\
     (~ (exists d, In d (drivers (app w)) /\ username d = u /\ password d = Some p) ->
        Session.currentUserRole s' = Session.currentUserRole s /\
        Session.loggedInDriver s' = Session.loggedInDriver s /\
        Session.loginError s' = "Invalid driver credentials." /\ app w' = app w)) /\
  bookings (app w') = bookings (app w) /\ drivers (app w') = drivers (app w) /\
  vehicleTypes (app w') = vehicleTypes (app w).
Proof.
  cbv zeta. unfold handleLogin. split; [| split ].
  - intros ->. cbn.
    destruct ((u =? "admin") && (p =? "admin123"))%bool eqn:E.
    + split; [ intros _; split; reflexivity | ].
      apply andb_true_iff in E. rewrite !String.eqb_eq in E. tauto.
    + split; [| intros _; repeat split ].
      intros [-> ->]. discriminate E.
  - intros ->. cbn.
    destruct (find _ (drivers (app w))) as [d |] eqn:F.
    + apply find_some in F. destruct F as [Hin F].
      apply andb_true_iff in F. rewrite String.eqb_eq, optEqb_true in F.
      split; [ intros _; exists d; tauto | ].
      intros N. exfalso. apply N. exists d. tauto.
    + split; [| intros _; repeat split ].
      intros (d & Hin & Hu & Hp). exfalso.
      pose proof (find_none _ _ F d Hin) as N. cbn in N.
      apply andb_false_iff in N. rewrite String.eqb_neq in N.
      destruct N as [N | N]; [ congruence | ].
      rewrite Hp in N. cbn in N. rewrite String.eqb_refl in N. discriminate.
  - destruct (Session.loginRole (session w) =? "admin");
      [ destruct (_ && _)%bool; repeat split | ].
    destruct (Session.loginRole (session w) =? "driver");
      [ destruct (find _ _); repeat split | repeat split ].
Qed.

(** X7. A login as administrator succeeds exactly with the user name "admin"
    and the password "admin123"; a login as driver succeeds exactly when some
    driver of the roster has the user name and the password entered, and then
    the session holds such a driver.  A failed login, as administrator or as
    driver, changes neither the role nor the logged-in driver nor the state
    of the application, and reports an error.  No login changes the
    bookings, the drivers or the vehicles. *)
Theorem handleLogin_credentials (u p : string) (w : World) :
  let w' := handleLogin u p w in
  let s := session w in
  let s' := session w' in
  (Session.loginRole s = "admin" ->
     (u = "admin" /\ p = "admin123" ->
        Session.currentUserRole s' = "admin" /\ Session.loginError s' = "") /\
     (~ (u = "admin" /\ p = "admin123") ->
        Session.currentUserRole s' = Session.currentUserRole s /\
        Session.loggedInDriver s' = Session.loggedInDriver s /\
        Session.loginError s' = "Invalid admin credentials." /\ app w' = app w)) /\
  (Session.loginRole s = "driver" ->
     ((exists d, In d (drivers (app w)) /\ username d = u /\ password d = Some p) ->
        exists d, Session.loggedInDriver s' = Some d /\
          In d (drivers (app w)) /\ username d = u /\ password d = Some p /\
          Session.currentUserRole s' = "driver" /\ Session.loginError s' = "") /\
     (~ (exists d, In d (drivers (app w)) /\ username d = u /\ password d = Some p) ->
        Session.currentUserRole s' = Session.currentUserRole s /\
        Session.loggedInDriver s' = Session.loggedInDriver s /\
        Session.loginError s' = "Invalid driver credentials." /\ app w' = app w)) /\
  bookings (app w') = bookings (app w) /\ drivers (app w') = drivers (app w) /\
  vehicleTypes (app w') = vehicleTypes (app w).
Proof. exact (handleLogin_outcome u p w). Qed.

Lemma handleLogin_credentials_witness :
  exists d,
    Session.loggedInDriver
      (session (handleLogin "sunita" "password123"
                  (SampleForm.world SampleAdmin.st SampleForm.driverLogin)))
    = Some d /\ username d = "sunita".
Proof.
  destruct (proj1 (proj1 (proj2 (handleLogin_credentials "sunita" "password123"
              (SampleForm.world SampleAdmin.st SampleForm.driverLogin))) eq_refl))
    as (d & H & _ & Hu & _).
  - exists (Sample.mkDriver "Sunita Sharma" "8765432109" "sunita" online).
    split; [ right; left; reflexivity | split; reflexivity ].
  - exists d. split; assumption.
Defined.

(** ** Driver management *)

Lemma handleAddDriver_cases (avatar0 : string) (ad : Admin.t) (st : AppState) :
  let new :=
    {| name := Admin.newDriverName ad; phone := Admin.newDriverPhone ad;
       username := Admin.newDriverUsername ad;
       password := Some (Admin.newDriverPassword ad);
       status := online; position := None;
       avatar := Some (Admin.newDriverAvatar ad) |} in
  (fst (handleAddDriver avatar0 ad st) = st /\
   Admin.driverError (snd (handleAddDriver avatar0 ad st)) <> "" /\
   (Admin.newDriverName ad = "" \/ Admin.newDriverPhone ad = "" \/
    Admin.newDriverUsername ad = "" \/ Admin.newDriverPassword ad = "" \/
    exists d, In d (drivers st) /\ username d = Admin.newDriverUsername ad)) \/
  (drivers (fst (handleAddDriver avatar0 ad st)) = (drivers st ++ [new])%list /\
   bookings (fst (handleAddDriver avatar0 ad st)) = bookings st /\
   vehicleTypes (fst (handleAddDriver avatar0 ad st)) = vehicleTypes st /\
   Admin.driverError (snd (handleAddDriver avatar0 ad st)) = "" /\
   Admin.newDriverName ad <> "" /\ Admin.newDriverPhone ad <> "" /\
   Admin.newDriverUsername ad <> "" /\ Admin.newDriverPassword ad <> "" /\
   forall d, In d (drivers st) -> username d <> Admin.newDriverUsername ad).
Proof.
  cbv zeta. unfold handleAddDriver.
  destruct (_ || _ || _ || _)%bool eqn:M.
  - left. repeat split; [ cbn; discriminate | ].
    rewrite !orb_true_iff, !negb_true_iff, !truthy_false in M. tauto.
  - destruct (existsb _ (drivers st)) eqn:X.
    + left. repeat split; [ cbn; discriminate | ].
      apply existsb_exists in X. destruct X as (d & Hin & E).
      apply String.eqb_eq in E. do 4 right. exists d. auto.
    + right. rewrite !orb_false_iff, !negb_false_iff in M.
      destruct M as (((M1 & M2) & M3) & M4).
      unfold Js.truthy in M1, M2, M3, M4.
      rewrite negb_true_iff, String.eqb_neq in M1, M2, M3, M4.
      repeat split; try assumption.
      intros d Hin E.
      pose proof (existsb_exists (fun d => username d =? Admin.newDriverUsername ad)
                    (drivers st)) as [_ Hx].
      rewrite Hx in X; [ discriminate | ].
      exists d. split; [ exact Hin | apply String.eqb_eq; exact E ].
Qed.

(** X8. Adding a driver keeps user names pairwise different.  A request with
    an empty name, phone, user name or password changes nothing and reports
    that all fields are required; a complete request whose user name is
    already on the roster changes nothing and reports that the user name
    exists; every other request is accepted: it reports no error and appends
    one online driver, without position, with the entered data.  Bookings
    and vehicles are left alone in every case. *)
Theorem handleAddDriver_keeps_usernames_unique (avatar0 : string) (ad : Admin.t)
    (st : AppState) :
  NoDup (map username (drivers st)) ->
  let st' := fst (handleAddDriver avatar0 ad st) in
  let err := Admin.driverError (snd (handleAddDriver avatar0 ad st)) in
  let emptyField :=
    Admin.newDriverName ad = "" \/ Admin.newDriverPhone ad = "" \/
    Admin.newDriverUsername ad = "" \/ Admin.newDriverPassword ad = "" in
  let taken :=
    exists d, In d (drivers st) /\ username d = Admin.newDriverUsername ad in
  NoDup (map username (drivers st')) /\
  bookings st' = bookings st /\ vehicleTypes st' = vehicleTypes st /\
  (emptyField -> st' = st /\ err = "All fields are required.") /\
  (~ emptyField -> taken -> st' = st /\ err = "Username already exists.") /\
  (~ emptyField -> ~ taken ->
     err = "" /\
     drivers st'
     = (drivers st
        ++ [{| name := Admin.newDriverName ad; phone := Admin.newDriverPhone ad;
               username := Admin.newDriverUsername ad;
               password := Some (Admin.newDriverPassword ad);
               status := online; position := None;
               avatar := Some (Admin.newDriverAvatar ad) |}])%list /\
     notifications st'
     = (notifications st
        ++ [{| message := "New driver added successfully."; type := success |}])%list).
Proof.
  intros ND. cbv zeta.
  assert (M : (negb (Js.truthy (Admin.newDriverName ad))
               || negb (Js.truthy (Admin.newDriverPhone ad))
               || negb (Js.truthy (Admin.newDriverUsername ad))
               || negb (Js.truthy (Admin.newDriverPassword ad)))%bool = true
              <-> (Admin.newDriverName ad = "" \/ Admin.newDriverPhone ad = "" \/
                   Admin.newDriverUsername ad = "" \/ Admin.newDriverPassword ad = "")).
  { rewrite !orb_true_iff, !negb_true_iff, !truthy_false. tauto. }
  assert (X : existsb (fun d => username d =? Admin.newDriverUsername ad) (drivers st)
              = true
              <-> exists d, In d (drivers st) /\ username d = Admin.newDriverUsername ad).
  { rewrite existsb_exists. split; intros (d & Hin & E); exists d;
      (split; [ exact Hin | apply String.eqb_eq; exact E ]). }
  unfold handleAddDriver.
  destruct (_ || _ || _ || _)%bool.
  { cbn [fst snd Admin.driverError].
    split; [ exact ND | ]. split; [ reflexivity | ]. split; [ reflexivity | ].
    split; [ intros _; split; reflexivity | ].
    split; intros N; exfalso; apply N, M; reflexivity. }
  destruct (existsb _ (drivers st)).
  { cbn [fst snd Admin.driverError].
    split; [ exact ND | ]. split; [ reflexivity | ]. split; [ reflexivity | ].
    split; [ intros E; apply M in E; discriminate E | ].
    split; [ intros _ _; split; reflexivity | ].
    intros _ N. exfalso. apply N, X. reflexivity. }
  cbn [fst snd]. split; [| split; [ reflexivity | split; [ reflexivity | ] ] ].
  - change (NoDup (map username
              (drivers st
               ++ [{| name := Admin.newDriverName ad; phone := Admin.newDriverPhone ad;
                      username := Admin.newDriverUsername ad;
                      password := Some (Admin.newDriverPassword ad);
                      status := online; position := None;
                      avatar := Some (Admin.newDriverAvatar ad) |}]))%list).
    rewrite map_app. cbn [map username]. apply NoDup_app; [ exact ND | | ].
    + repeat constructor. intros [].
    + intros u Hu [<- | []]. apply in_map_iff in Hu.
      destruct Hu as (d & E & Hin).
      assert (T : false = true) by (apply X; exists d; auto).
      discriminate T.
  - split; [ intros E; apply M in E; discriminate E | ].
    split; [ intros _ T; apply X in T; discriminate T | ].
    intros _ _. repeat split.
Qed.

Lemma handleAddDriver_keeps_usernames_unique_witness :
  NoDup (map username
           (drivers (fst (handleAddDriver "avatar.svg" SampleAdmin.newDriver
                            SampleAdmin.st)))).
Proof.
  refine (proj1 (handleAddDriver_keeps_usernames_unique "avatar.svg"
                   SampleAdmin.newDriver SampleAdmin.st _)).
  cbn. repeat constructor; cbn; intuition discriminate.
Defined.

(** X9. A driver who has just been added can log in: after an accepted
    request, a driver login with the user name and the password that were
    entered succeeds, and the session holds the new driver. *)
Theorem added_driver_can_log_in (avatar0 : string) (ad : Admin.t) (w : World) :
  Admin.driverError (snd (handleAddDriver avatar0 ad (app w))) = "" ->
  Session.loginRole (session w) = "driver" ->
  let w1 :=
    {| app := fst (handleAddDriver avatar0 ad (app w)); form := form w;
       session := session w; tracking := tracking w |} in
  let w2 := handleLogin (Admin.newDriverUsername ad) (Admin.newDriverPassword ad) w1 in
  Session.currentUserRole (session w2) = "driver" /\
  exists d, Session.loggedInDriver (session w2) = Some d /\
    name d = Admin.newDriverName ad /\ phone d = Admin.newDriverPhone ad /\
    username d = Admin.newDriverUsername ad /\ status d = online.
Proof.
  intros Ok Role. cbv zeta.
  destruct (handleAddDriver_cases avatar0 ad (app w))
    as [(_ & Err & _) | (D & _ & _ & _ & _ & _ & _ & _ & Fresh)];
    [ contradiction | ].
  unfold handleLogin. cbn [session app]. rewrite Role. cbn [String.eqb Ascii.eqb Bool.eqb].
  rewrite D, find_app_none.
  - cbn. rewrite !String.eqb_refl. cbn. split; [ reflexivity | ].
    eexists. split; [ reflexivity | repeat split ].
  - destruct (find _ (drivers (app w))) as [d |] eqn:F; [| reflexivity ].
    apply find_some in F. destruct F as [Hin F].
    apply andb_true_iff in F. destruct F as [F _]. apply String.eqb_eq in F.
    exfalso. exact (Fresh d Hin F).
Qed.

Lemma added_driver_can_log_in_witness :
  Session.currentUserRole
    (session (handleLogin "meena" "secret1"
       {| app := fst (handleAddDriver "avatar.svg" SampleAdmin.newDriver SampleAdmin.st);
          form := SampleForm.filled; session := SampleForm.driverLogin;
          tracking := SampleForm.noTracking |}))
  = "driver".
Proof.
  exact (proj1 (added_driver_can_log_in "avatar.svg" SampleAdmin.newDriver
                  (SampleForm.world SampleAdmin.st SampleForm.driverLogin)
                  eq_refl eq_refl)).
Defined.

(** X10. Removing a driver by user name deletes every driver with that user
    name and nobody else, keeping the order of the rest; no login with that
    user name succeeds afterwards, whatever the password; and the bookings
    are not touched, so a booking keeps the name and phone of a removed
    driver. *)
Theorem handleRemoveDriver_effect (removed : string) (st : AppState) :
  let st' := handleRemoveDriver removed st in
  drivers st' = filter (fun d => negb (username d =? removed)) (drivers st) /\
  (forall d, In d (drivers st') <-> In d (drivers st) /\ username d <> removed) /\
  bookings st' = bookings st /\ vehicleTypes st' = vehicleTypes st /\
  (forall (p : string) (w : World),
     app w = st' -> Session.loginRole (session w) = "driver" ->
     Session.loginError (session (handleLogin removed p w))
     = "Invalid driver credentials." /\
     Session.currentUserRole (session (handleLogin removed p w))
     = Session.currentUserRole (session w)).
Proof.
  cbv zeta. split; [ reflexivity | split; [| split; [ reflexivity | split ] ] ];
    [ | reflexivity | ].
  - intros d. change (drivers (handleRemoveDriver removed st))
      with (filter (fun d => negb (username d =? removed)) (drivers st)).
    rewrite filter_In, negb_true_iff, String.eqb_neq. reflexivity.
  - intros p w E Role.
    destruct (handleLogin_outcome removed p w) as (_ & Hd & _).
    destruct (Hd Role) as [_ Fail].
    destruct Fail as (R & _ & L & _); [| split; assumption ].
    intros (d & Hin & Hu & _). rewrite E in Hin.
    change (drivers (handleRemoveDriver removed st))
      with (filter (fun d => negb (username d =? removed)) (drivers st)) in Hin.
    apply filter_In in Hin. destruct Hin as [_ N].
    rewrite negb_true_iff, String.eqb_neq in N. contradiction.
Qed.

Lemma handleRemoveDriver_effect_witness :
  map username (drivers (handleRemoveDriver "ravi" SampleAdmin.st))
  = ["sunita"; "amit"; "priya"].
Proof.
  rewrite (proj1 (handleRemoveDriver_effect "ravi" SampleAdmin.st)).
  reflexivity.
Defined.

Lemma offlineHidesPosition_map (u : string) (g : Driver -> Driver) (ds : list Driver) :
  (forall d, status (g d) = offline -> position (g d) = None) ->
  offlineHidesPosition ds ->
  offlineHidesPosition (map (fun d => if username d =? u then g d else d) ds).
Proof.
  intros Hg H d Hin Off. apply in_map_iff in Hin.
  destruct Hin as (d0 & E & Hin0). destruct (username d0 =? u); subst d.
  - apply Hg. exact Off.
  - apply H; assumption.
Qed.

(** X11. Every handler that writes the driver list (adding and removing a
    driver, changing a driver's avatar, going offline, the position callback
    and its error callback) keeps the rule that an offline driver shares no
    position. *)
Theorem driver_handlers_keep_offline_hidden (avatar0 : string) (st st' : AppState) :
  offlineHidesPosition (drivers st) ->
  driverListStep avatar0 st st' ->
  offlineHidesPosition (drivers st').
Proof.
  intros H [ad | removed | d | d la lo wn | denied d | file changed].
  - destruct (handleAddDriver_cases avatar0 ad st)
      as [(E & _) | (D & _)].
    + rewrite E. exact H.
    + rewrite D. intros x Hin Off. apply in_app_or in Hin.
      destruct Hin as [Hin | [<- | []]]; [ apply H; assumption | reflexivity ].
  - intros x Hin Off.
    change (drivers (handleRemoveDriver removed st))
      with (filter (fun d => negb (username d =? removed)) (drivers st)) in Hin.
    apply filter_In in Hin. apply H; tauto.
  - apply (offlineHidesPosition_map (username d)
             (fun x => spreadDriverStatus x offline None)); [ reflexivity | exact H ].
  - assert (E : drivers (onPosition d la lo wn st)
                = map (fun x => if username x =? username d
                                then spreadDriverStatus x online (Some (la, lo))
                                else x) (drivers st))
      by (destruct wn; reflexivity).
    rewrite E.
    apply (offlineHidesPosition_map (username d)
             (fun x => spreadDriverStatus x online (Some (la, lo))));
      [ discriminate | exact H ].
  - apply (offlineHidesPosition_map (username d)
             (fun x => spreadDriverStatus x offline None)); [ reflexivity | exact H ].
  - unfold handleDriverAvatarChange.
    destruct file as [[size readResult] |]; [| exact H ].
    destruct (handleFileRead size readResult) as [base64 | m]; [| exact H ].
    intros x Hin Off.
    change (In x (map (fun d => if username d =? changed
                                then spreadAvatar d base64 else d) (drivers st))) in Hin.
    apply in_map_iff in Hin. destruct Hin as (d0 & E & Hin0).
    destruct (username d0 =? changed); subst x; apply (H d0 Hin0 Off).
Qed.

Lemma driver_handlers_keep_offline_hidden_witness :
  offlineHidesPosition
    (drivers (goOffline (Sample.mkDriver "Ravi Kumar" "9876543210" "ravi" online)
                (onPosition (Sample.mkDriver "Ravi Kumar" "9876543210" "ravi" online)
                   23.18 79.98 false SampleAdmin.st))).
Proof.
  assert (H0 : offlineHidesPosition (drivers SampleAdmin.st)).
  { intros d [<- | [<- | [<- | [<- | []]]]]; discriminate. }
  apply (driver_handlers_keep_offline_hidden "avatar.svg" _ _
           (driver_handlers_keep_offline_hidden "avatar.svg" _ _ H0
              (dl_position "avatar.svg" SampleAdmin.st _ 23.18 79.98 false))
           (dl_offline "avatar.svg" _ _)).
Defined.

(** ** Vehicle management *)

Lemma truthy_true (s : string) : Js.truthy s = true <-> s <> "".
Proof.
  unfold Js.truthy. rewrite negb_true_iff. apply String.eqb_neq.
Qed.

Lemma updateVehicles_compose (type : string) (f g : list Vehicle -> list Vehicle)
    (vts : VehicleTypes) :
  updateVehicles type g (updateVehicles type f vts)
  = updateVehicles type (fun vs => g (f vs)) vts.
Proof.
  induction vts as [| [key details] rest IH]; cbn; [ reflexivity | ].
  destruct (key =? type) eqn:E; cbn; rewrite E; [ reflexivity | ].
  rewrite IH. reflexivity.
Qed.

Lemma updateVehicles_same (type : string) (f : list Vehicle -> list Vehicle)
    (vts : VehicleTypes) :
  (forall details, lookupType type vts = Some details ->
     f (vehicles details) = vehicles details) ->
  updateVehicles type f vts = vts.
Proof.
  unfold lookupType.
  induction vts as [| [key details] rest IH]; cbn; [ reflexivity | ].
  destruct (key =? type) eqn:E; cbn.
  - intros H. rewrite (H details eq_refl). destruct details; reflexivity.
  - intros H. rewrite IH by exact H. reflexivity.
Qed.

Lemma lookupType_updateVehicles (type : string) (f : list Vehicle -> list Vehicle)
    (vts : VehicleTypes) (key : string) :
  lookupType key (updateVehicles type f vts)
  = if key =? type
    then option_map (fun d => {| capacity := capacity d; vehicles := f (vehicles d) |})
           (lookupType key vts)
    else lookupType key vts.
Proof.
  unfold lookupType.
  induction vts as [| [k details] rest IH];
    [ cbn; destruct (key =? type); reflexivity | ].
  cbn [updateVehicles].
  destruct (k =? type) eqn:E.
  - apply String.eqb_eq in E. subst k. cbn [find fst].
    destruct (type =? key) eqn:K.
    + apply String.eqb_eq in K. subst key. rewrite String.eqb_refl. reflexivity.
    + rewrite String.eqb_sym in K. rewrite K. reflexivity.
  - cbn [find fst]. destruct (k =? key) eqn:K.
    + apply String.eqb_eq in K. subst k. rewrite E. reflexivity.
    + exact IH.
Qed.

Lemma filter_plate_app_fresh (p m : string) (vs : list Vehicle) :
  (forall v, In v vs -> plate v <> p) ->
  filter (fun v => negb (plate v =? p)) (vs ++ [{| plate := p; model := m |}]) = vs.
Proof.
  intros H. rewrite filter_app. cbn. rewrite String.eqb_refl. cbn.
  rewrite app_nil_r. induction vs as [| v vs IH]; cbn; [ reflexivity | ].
  assert (N : plate v <> p) by (apply H; left; reflexivity).
  apply String.eqb_neq in N. rewrite N. cbn. f_equal.
  apply IH. intros v' Hv'. apply H. right. exact Hv'.
Qed.

(** X12. Adding a vehicle to a type and removing its plate from that type
    again gives back the vehicle types as they were, provided the type did
    not hold the plate before; the plate and the model must not be empty, and
    the type must exist, for the vehicle to be added. *)
Theorem add_then_remove_vehicle_restores (avatar0 type : string) (ad : Admin.t)
    (st : AppState) (details : VehicleTypeDetails) :
  Admin.newVehiclePlate ad <> "" -> Admin.newVehicleModel ad <> "" ->
  lookupType type (vehicleTypes st) = Some details ->
  (forall v, In v (vehicles details) -> plate v <> Admin.newVehiclePlate ad) ->
  exists st1 ad1,
    handleAddVehicle avatar0 type ad st = Returned (st1, ad1) /\
    lookupType type (vehicleTypes st1)
    = Some {| capacity := capacity details;
              vehicles := (vehicles details
                           ++ [{| plate := Admin.newVehiclePlate ad;
                                  model := Admin.newVehicleModel ad |}])%list |} /\
    exists st2,
      handleRemoveVehicle type (Admin.newVehiclePlate ad) st1 = Returned st2 /\
      vehicleTypes st2 = vehicleTypes st /\
      bookings st2 = bookings st /\ drivers st2 = drivers st.
Proof.
  intros Hp Hm L Fresh. unfold handleAddVehicle.
  apply truthy_true in Hp. apply truthy_true in Hm.
  rewrite Hp, Hm, L. cbn [negb orb].
  eexists. eexists. split; [ reflexivity | ].
  split.
  { cbn. rewrite lookupType_updateVehicles, String.eqb_refl, L. reflexivity. }
  unfold handleRemoveVehicle. cbn [vehicleTypes setVehicleTypes andThen addNotification
    setNotifications remountAdminDashboard setJustAssigned setAssignmentError].
  rewrite lookupType_updateVehicles, String.eqb_refl, L. cbn [option_map].
  eexists. split; [ reflexivity | ].
  cbn. split; [| split; reflexivity ].
  rewrite updateVehicles_compose. apply updateVehicles_same.
  intros d' L'. rewrite L in L'. injection L' as <-.
  apply filter_plate_app_fresh. exact Fresh.
Qed.

Lemma add_then_remove_vehicle_restores_witness :
  exists st1 ad1,
    handleAddVehicle "avatar.svg" "SUV" SampleAdmin.newDriver SampleAdmin.st
    = Returned (st1, ad1) /\
    exists st2,
      handleRemoveVehicle "SUV" "MP20TA8001" st1 = Returned st2 /\
      vehicleTypes st2 = Sample.INITIAL_VEHICLE_TYPES.
Proof.
  destruct (add_then_remove_vehicle_restores "avatar.svg" "SUV" SampleAdmin.newDriver
              SampleAdmin.st
              {| capacity := 6;
                 vehicles := [ {| plate := "MP20TA1969"; model := "Toyota Innova" |} ] |})
    as (st1 & ad1 & H1 & _ & st2 & H2 & V & _).
  - discriminate.
  - discriminate.
  - reflexivity.
  - intros v [<- | []]. discriminate.
  - exists st1, ad1. split; [ exact H1 | ]. exists st2. split; [ exact H2 | exact V ].
Defined.

Lemma find_all_false {A : Type} (p : A -> bool) (l : list A) :
  (forall a, In a l -> p a = false) -> find p l = None.
Proof.
  induction l as [| a l IH]; cbn; intros H; [ reflexivity | ].
  rewrite (H a (or_introl eq_refl)). apply IH. intros b Hb. apply H. right. exact Hb.
Qed.

Lemma in_updateVehicles (type : string) (f : list Vehicle -> list Vehicle)
    (vts : VehicleTypes) (k : string) (d : VehicleTypeDetails) :
  NoDup (map fst vts) ->
  In (k, d) (updateVehicles type f vts) ->
  (k = type /\ exists d0, In (type, d0) vts /\ vehicles d = f (vehicles d0)) \/
  (k <> type /\ In (k, d) vts).
Proof.
  induction vts as [| [key details] rest IH]; cbn; [ intros _ [] | ].
  intros ND. inversion ND as [| ? ? Hnotin ND']; subst.
  destruct (key =? type) eqn:E.
  - apply String.eqb_eq in E. subst key. intros [H | H].
    + injection H as <- <-. left. split; [ reflexivity | ].
      exists details. split; [ left; reflexivity | reflexivity ].
    + right. split; [| right; exact H ].
      intros ->. apply Hnotin. apply (in_map fst) in H. exact H.
  - apply String.eqb_neq in E. intros [H | H].
    + injection H as <- <-. right. split; [ exact E | left; reflexivity ].
    + destruct (IH ND' H) as [(-> & d0 & Hin & Hv) | (N & Hin)].
      * left. split; [ reflexivity | ]. exists d0. split; [ right; exact Hin | exact Hv ].
      * right. split; [ exact N | right; exact Hin ].
Qed.

(** X13. Removing a plate from a type deletes every vehicle with that plate
    from the type, keeps the type's other vehicles in order and leaves the
    other types, the bookings and the drivers alone; when no other type holds
    the plate, the plate no longer resolves to a vehicle afterwards.  On a
    type that is no key of the vehicle types, removing throws, and so does
    adding once a plate and a model are entered; both leave the stores as
    they were. *)
Theorem handleRemoveVehicle_effect (avatar0 type removed : string) (st : AppState) :
  (forall details, lookupType type (vehicleTypes st) = Some details ->
     exists st',
       handleRemoveVehicle type removed st = Returned st' /\
       lookupType type (vehicleTypes st')
       = Some {| capacity := capacity details;
                 vehicles := filter (fun v => negb (plate v =? removed))
                               (vehicles details) |} /\
       (forall key, key <> type ->
          lookupType key (vehicleTypes st') = lookupType key (vehicleTypes st)) /\
       bookings st' = bookings st /\ drivers st' = drivers st /\
       (NoDup (map fst (vehicleTypes st)) ->
        (forall key d, In (key, d) (vehicleTypes st) -> key <> type ->
           forall v, In v (vehicles d) -> plate v <> removed) ->
        findVehicle removed (vehicleTypes st') = None)) /\
  (lookupType type (vehicleTypes st) = None ->
     handleRemoveVehicle type removed st = Threw st /\
     forall ad, Admin.newVehiclePlate ad <> "" -> Admin.newVehicleModel ad <> "" ->
       exists ad', handleAddVehicle avatar0 type ad st = Threw (st, ad')).
Proof.
  split.
  - intros details L. unfold handleRemoveVehicle. rewrite L.
    eexists. split; [ reflexivity | ]. cbn.
    split; [ rewrite lookupType_updateVehicles, String.eqb_refl, L; reflexivity | ].
    split.
    { intros key N. rewrite lookupType_updateVehicles.
      apply String.eqb_neq in N. rewrite N. reflexivity. }
    split; [ reflexivity | split; [ reflexivity | ] ].
    intros ND Others. unfold findVehicle.
    rewrite find_all_false; [ reflexivity | ].
    intros [k d] Hin. cbn [snd].
    destruct (existsb _ (vehicles d)) eqn:X; [| reflexivity ].
    exfalso. apply existsb_exists in X. destruct X as (v & Hv & E).
    apply String.eqb_eq in E.
    destruct (in_updateVehicles _ _ _ _ _ ND Hin) as [(-> & d0 & _ & Hf) | (N & Hin0)].
    + rewrite Hf in Hv. apply filter_In in Hv. destruct Hv as [_ Hv].
      rewrite negb_true_iff, String.eqb_neq in Hv. contradiction.
    + exact (Others k d Hin0 N v Hv E).
  - intros L. unfold handleRemoveVehicle, handleAddVehicle. rewrite L.
    split; [ reflexivity | ].
    intros ad Hp Hm. apply truthy_true in Hp. apply truthy_true in Hm.
    rewrite Hp, Hm. cbn. eexists. reflexivity.
Qed.

Lemma handleRemoveVehicle_effect_witness :
  exists st',
    handleRemoveVehicle "SUV" "MP20TA1969" SampleAdmin.st = Returned st' /\
    findVehicle "MP20TA1969" (vehicleTypes st') = None.
Proof.
  destruct (proj1 (handleRemoveVehicle_effect "avatar.svg" "SUV" "MP20TA1969"
                     SampleAdmin.st)
              _ eq_refl) as (st' & H & _ & _ & _ & _ & F).
  exists st'. split; [ exact H | ]. apply F.
  - cbn. repeat constructor; cbn; intuition discriminate.
  - intros key d [E | [E | []]] N v Hv; injection E as <- <-.
    + destruct Hv as [<- | [<- | [<- | [<- | [<- | []]]]]]; discriminate.
    + contradiction.
Defined.

(** ** The availability lists and the save checks *)

Section AvailabilityFacts.

Variable getTime : string -> option Z.
Variable toLocaleTimeString : Z -> string.

Lemma conflictMaps_split (bs : list Booking) (booking : Booking) :
  conflictMaps getTime toLocaleTimeString bs booking
  = (notesBy getTime toLocaleTimeString driverName booking
       (allOtherBookings bs booking) [],
     notesBy getTime toLocaleTimeString assignedPlate booking
       (allOtherBookings bs booking) []).
Proof.
  unfold conflictMaps, notesBy.
  generalize (@nil (string * string)) at 1 3.
  generalize (@nil (string * string)).
  induction (allOtherBookings bs booking) as [| o l IH]; intros a b;
    [ reflexivity | ].
  cbn [fold_left].
  destruct (isTimeOverlapping getTime booking o); cbn [fst snd]; apply IH.
Qed.

Lemma mapGet_app (k k' v' : string) (m : ConflictMap) :
  mapGet k (m ++ [(k', v')])%list
  = match mapGet k m with
    | Some v => Some v
    | None => if k' =? k then Some v' else None
    end.
Proof.
  unfold mapGet. induction m as [| [k0 v0] m IH]; cbn.
  - destruct (k' =? k); reflexivity.
  - destruct (k0 =? k); [ reflexivity | exact IH ].
Qed.

Lemma mapHas_mapGet (k : string) (m : ConflictMap) :
  mapHas k m = false <-> mapGet k m = None.
Proof.
  unfold mapHas, mapGet. induction m as [| [k0 v0] m IH]; cbn.
  - tauto.
  - destruct (k0 =? k); cbn; [ split; discriminate | exact IH ].
Qed.

Lemma mapGet_in (k v : string) (m : ConflictMap) :
  mapGet k m = Some v -> In (k, v) m.
Proof.
  unfold mapGet. destruct (find _ m) as [[k0 v0] |] eqn:F; [| discriminate ].
  cbn. intros [= <-]. apply find_some in F. destruct F as [Hin E].
  apply String.eqb_eq in E. cbn in E. subst k0. exact Hin.
Qed.

Lemma conflictNote_truthy (other : Booking) :
  Js.truthy (conflictNote getTime toLocaleTimeString other) = true.
Proof. reflexivity. Qed.

(** One turn of the loop. *)
Lemma noteConflict_step (key : option string) (other : Booking) (m : ConflictMap)
    (k : string) :
  allNoted m ->
  let m' := noteConflict getTime toLocaleTimeString key other m in
  allNoted m' /\
  (noted (mapGet k m') = true <->
   noted (mapGet k m) = true \/ (key = Some k /\ k <> "")) /\
  (forall v, mapGet k m' = Some v ->
     mapGet k m = Some v \/
     (key = Some k /\ v = conflictNote getTime toLocaleTimeString other)).
Proof.
  intros A. cbv zeta. unfold noteConflict.
  destruct key as [k0 |]; [| split; [ exact A | split; [| auto ] ];
                             split; [ auto | intros [H | [H _]]; [ exact H | discriminate ] ] ].
  destruct (Js.truthy k0) eqn:T; cbn [andb].
  2:{ split; [ exact A | split; [| auto ] ].
      split; [ auto | intros [H | [[= ->] N]]; [ exact H | ] ].
      apply truthy_true in N. congruence. }
  destruct (mapHas k0 m) eqn:H; cbn [negb].
  - split; [ exact A | split; [| auto ] ].
    split; [ auto | intros [G | [[= ->] N]]; [ exact G | ] ].
    destruct (mapGet k m) as [v |] eqn:G.
    + cbn. apply (A k v). apply mapGet_in. exact G.
    + apply mapHas_mapGet in G. congruence.
  - unfold mapSet. fold (conflictNote getTime toLocaleTimeString other).
    split; [| split ].
    + intros k1 v1 Hin. apply in_app_or in Hin.
      destruct Hin as [Hin | [[= <- <-] | []]]; [ exact (A k1 v1 Hin) | ].
      apply conflictNote_truthy.
    + rewrite mapGet_app. destruct (mapGet k m) as [v |] eqn:G.
      * split; [ auto | intros [G' | [[= ->] _]]; [ exact G' | ] ].
        apply mapHas_mapGet in H. congruence.
      * destruct (k0 =? k) eqn:E.
        -- apply String.eqb_eq in E. subst k0. cbn.
           split; [ intros _; right; split; [ reflexivity | ] | reflexivity ].
           apply truthy_true. exact T.
        -- cbn. split; [ discriminate | intros [G' | [[= ->] _]]; [ discriminate | ] ].
           rewrite String.eqb_refl in E. discriminate.
    + intros v. rewrite mapGet_app. destruct (mapGet k m) as [v0 |] eqn:G;
        [ auto | ].
      destruct (k0 =? k) eqn:E; [| discriminate ].
      apply String.eqb_eq in E. subst k0. intros [= <-]. right. auto.
Qed.

Lemma notesBy_spec (key : Booking -> option string) (booking : Booking)
    (others : list Booking) (m : ConflictMap) (k : string) :
  allNoted m ->
  let m' := notesBy getTime toLocaleTimeString key booking others m in
  (noted (mapGet k m') = true <->
   noted (mapGet k m) = true \/
   exists other, In other others /\
     isTimeOverlapping getTime booking other = true /\
     key other = Some k /\ k <> "") /\
  (forall v, mapGet k m' = Some v ->
     mapGet k m = Some v \/
     exists other, In other others /\
       isTimeOverlapping getTime booking other = true /\
       key other = Some k /\ v = conflictNote getTime toLocaleTimeString other).
Proof.
  cbv zeta. unfold notesBy. revert m.
  induction others as [| o l IH]; intros m A; cbn [fold_left].
  - split; [ split; [ auto | intros [H | (o & [] & _)]; exact H ] | auto ].
  - destruct (isTimeOverlapping getTime booking o) eqn:O.
    + destruct (noteConflict_step (key o) o m k A) as (A' & S1 & S2).
      destruct (IH _ A') as [I1 I2]. split.
      * rewrite I1, S1. split.
        -- intros [[H | (Hk & N)] | (o' & Hin & H)].
           ++ left. exact H.
           ++ right. exists o. split; [ left; reflexivity | auto ].
           ++ right. exists o'. split; [ right; exact Hin | exact H ].
        -- intros [H | (o' & [<- | Hin] & O' & Hk & N)].
           ++ left. left. exact H.
           ++ left. right. auto.
           ++ right. exists o'. auto.
      * intros v Hv. destruct (I2 v Hv) as [H | (o' & Hin & H)].
        -- destruct (S2 v H) as [H' | (Hk & ->)]; [ left; exact H' | ].
           right. exists o. split; [ left; reflexivity | auto ].
        -- right. exists o'. split; [ right; exact Hin | exact H ].
    + destruct (IH m A) as [I1 I2]. split.
      * rewrite I1. split.
        -- intros [H | (o' & Hin & H)]; [ left; exact H | ].
           right. exists o'. split; [ right; exact Hin | exact H ].
        -- intros [H | (o' & [<- | Hin] & O' & H)]; [ left; exact H | congruence | ].
           right. exists o'. auto.
      * intros v Hv. destruct (I2 v Hv) as [H | (o' & Hin & H)]; [ left; exact H | ].
        right. exists o'. split; [ right; exact Hin | exact H ].
Qed.

Lemma in_allOtherBookings (bs : list Booking) (booking b : Booking) :
  In b (allOtherBookings bs booking) <->
  In b bs /\ confirmationNumber b <> confirmationNumber booking /\
  bookingStatus b <> cancelled.
Proof.
  unfold allOtherBookings.
  rewrite filter_In, andb_true_iff, negb_true_iff, String.eqb_neq, live_true.
  reflexivity.
Qed.

(** A driver is noted as conflicting exactly when the name is not empty and
    the save check finds a driver conflict. *)
Lemma driver_noted_iff (st : AppState) (booking : Booking) (k v0 : string) :
  noted (mapGet k (fst (conflictMaps getTime toLocaleTimeString (bookings st) booking)))
  = true
  <-> k <> "" /\ driverConflict getTime st booking {| driver := k; vehicle := v0 |}.
Proof.
  rewrite conflictMaps_split. cbn [fst].
  rewrite (proj1 (notesBy_spec driverName booking _ [] k (fun _ _ H => match H with end))).
  unfold driverConflict. cbn [driver]. split.
  - intros [H | (o & Hin & O & Hk & N)]; [ discriminate | ].
    apply in_allOtherBookings in Hin. split; [ exact N | ]. exists o. tauto.
  - intros (N & o & Hin & Hc & Hd & L & O). right. exists o.
    rewrite in_allOtherBookings. tauto.
Qed.

Lemma vehicle_noted_iff (st : AppState) (booking : Booking) (d0 p : string) :
  noted (mapGet p (snd (conflictMaps getTime toLocaleTimeString (bookings st) booking)))
  = true
  <-> p <> "" /\ vehicleConflict getTime st booking {| driver := d0; vehicle := p |}.
Proof.
  rewrite conflictMaps_split. cbn [snd].
  rewrite (proj1 (notesBy_spec assignedPlate booking _ [] p (fun _ _ H => match H with end))).
  unfold vehicleConflict. cbn [vehicle]. split.
  - intros [H | (o & Hin & O & Hk & N)]; [ discriminate | ].
    apply in_allOtherBookings in Hin. apply assignedPlate_some in Hk.
    split; [ exact N | ]. exists o. tauto.
  - intros (N & o & Hin & Hc & Hv & L & O). right. exists o.
    rewrite in_allOtherBookings. apply assignedPlate_some in Hv. tauto.
Qed.

(** The note of a key names the window of an overlapping live booking that
    holds the resource. *)
Lemma note_names_window (key : Booking -> option string) (st : AppState)
    (booking : Booking) (k v : string) :
  mapGet k (notesBy getTime toLocaleTimeString key booking
              (allOtherBookings (bookings st) booking) []) = Some v ->
  exists other, In other (bookings st) /\
    confirmationNumber other <> confirmationNumber booking /\
    bookingStatus other <> cancelled /\
    isTimeOverlapping getTime booking other = true /\
    key other = Some k /\ v = conflictNote getTime toLocaleTimeString other.
Proof.
  intros H.
  destruct (proj2 (notesBy_spec key booking _ [] k (fun _ _ H => match H with end)) v H)
    as [H0 | (o & Hin & O & Hk & ->)]; [ discriminate | ].
  apply in_allOtherBookings in Hin. exists o. tauto.
Qed.

End AvailabilityFacts.

(** X14. The availability lists agree with the save checks: a driver taken
    from the Available group and a vehicle taken from the Available group are
    accepted by [handleSave], provided the name and the plate are not empty
    and the name resolves to that driver. *)
Theorem available_selection_is_accepted (getTime : string -> option Z)
    (fmt : Z -> string) (st : AppState) (booking : Booking)
    (d : DriverOption) (v : VehicleOption) :
  In d (availableDrivers getTime fmt st booking) ->
  In v (availableVehicles getTime fmt st booking) ->
  name (optionDriver d) <> "" -> plate (optionVehicle v) <> "" ->
  findDriver (name (optionDriver d)) (drivers st) = Some (optionDriver d) ->
  let a := {| driver := name (optionDriver d); vehicle := plate (optionVehicle v) |} in
  reportsSuccess st (handleSave getTime booking a st) /\
  bookings (handleSave getTime booking a st)
  = map (onMatch (confirmationNumber booking)
           (assignedCopy st (driver a) (vehicle a))) (bookings st).
Proof.
  intros Hd Hv Nd Nv Res a.
  apply (proj2 (handleSave_bookings getTime booking a st)).
  unfold availableDrivers in Hd. apply filter_In in Hd. destruct Hd as [Hd Fd].
  unfold availableVehicles in Hv. apply filter_In in Hv. destruct Hv as [Hv Fv].
  unfold allDriversWithStatus in Hd. apply in_map_iff in Hd.
  destruct Hd as (d0 & <- & Hd0).
  unfold allVehiclesWithStatus in Hv. apply in_map_iff in Hv.
  destruct Hv as (v0 & <- & Hv0).
  cbn [optionDriver optionVehicle driverConflictNote vehicleConflictNote isOffline] in *.
  apply andb_true_iff in Fd. destruct Fd as [Fd Off].
  rewrite negb_true_iff in Fd, Off, Fv.
  intros [M | [(d1 & R1 & S1) | [D | V]]].
  - destruct M as [M | M]; cbn in M; contradiction.
  - cbn [driver a] in R1. rewrite Res in R1. injection R1 as <-.
    rewrite S1 in Off. discriminate.
  - assert (T : noted (mapGet (name d0)
                   (fst (conflictMaps getTime fmt (bookings st) booking))) = true).
    { apply (driver_noted_iff getTime fmt st booking (name d0) (plate v0)).
      split; assumption. }
    congruence.
  - assert (T : noted (mapGet (plate v0)
                   (snd (conflictMaps getTime fmt (bookings st) booking))) = true).
    { apply (vehicle_noted_iff getTime fmt st booking (name d0) (plate v0)).
      split; assumption. }
    congruence.
Qed.

(** X15. A driver listed under Unavailable (Overlapping) is rejected by
    [handleSave] whatever vehicle goes with it, and likewise a vehicle listed
    there whatever the driver; and the note shown beside the option is the
    window "Booked <time> - <end>" of a live booking with another number that
    holds the resource and overlaps the booking being edited. *)
Theorem overlapping_option_is_rejected (getTime : string -> option Z)
    (fmt : Z -> string) (st : AppState) (booking : Booking) :
  (forall d other_vehicle, In d (overlappingDrivers getTime fmt st booking) ->
     let a := {| driver := name (optionDriver d); vehicle := other_vehicle |} in
     bookings (handleSave getTime booking a st) = bookings st /\
     reportsError st (handleSave getTime booking a st) /\
     exists other, In other (bookings st) /\
       confirmationNumber other <> confirmationNumber booking /\
       bookingStatus other <> cancelled /\
       isTimeOverlapping getTime booking other = true /\
       driverName other = Some (name (optionDriver d)) /\
       driverConflictNote d = Some (conflictNote getTime fmt other)) /\
  (forall v other_driver, In v (overlappingVehicles getTime fmt st booking) ->
     let a := {| driver := other_driver; vehicle := plate (optionVehicle v) |} in
     bookings (handleSave getTime booking a st) = bookings st /\
     reportsError st (handleSave getTime booking a st) /\
     exists other, In other (bookings st) /\
       confirmationNumber other <> confirmationNumber booking /\
       bookingStatus other <> cancelled /\
       isTimeOverlapping getTime booking other = true /\
       assignedPlate other = Some (plate (optionVehicle v)) /\
       vehicleConflictNote v = Some (conflictNote getTime fmt other)).
Proof.
  split.
  - intros d ov Hd a. unfold overlappingDrivers in Hd.
    apply filter_In in Hd. destruct Hd as [Hd N].
    unfold allDriversWithStatus in Hd. apply in_map_iff in Hd.
    destruct Hd as (d0 & <- & Hd0).
    cbn [optionDriver driverConflictNote] in *.
    pose proof (proj1 (driver_noted_iff getTime fmt st booking (name d0) ov) N)
      as [_ C].
    destruct (proj1 (handleSave_bookings getTime booking a st)) as [E Err].
    { right. right. left. exact C. }
    split; [ exact E | split; [ exact Err | ] ].
    rewrite conflictMaps_split in N |- *. cbn [fst] in *.
    destruct (mapGet (name d0) _) as [note |] eqn:G; [| discriminate ].
    destruct (note_names_window getTime fmt driverName st booking _ _ G)
      as (o & H1 & H2 & H3 & H4 & H5 & ->).
    exists o. repeat split; assumption.
  - intros v od Hv a. unfold overlappingVehicles in Hv.
    apply filter_In in Hv. destruct Hv as [Hv N].
    unfold allVehiclesWithStatus in Hv. apply in_map_iff in Hv.
    destruct Hv as (v0 & <- & Hv0).
    cbn [optionVehicle vehicleConflictNote] in *.
    pose proof (proj1 (vehicle_noted_iff getTime fmt st booking od (plate v0)) N)
      as [_ C].
    destruct (proj1 (handleSave_bookings getTime booking a st)) as [E Err].
    { right. right. right. exact C. }
    split; [ exact E | split; [ exact Err | ] ].
    rewrite conflictMaps_split in N |- *. cbn [snd] in *.
    destruct (mapGet (plate v0) _) as [note |] eqn:G; [| discriminate ].
    destruct (note_names_window getTime fmt assignedPlate st booking _ _ G)
      as (o & H1 & H2 & H3 & H4 & H5 & ->).
    exists o. repeat split; assumption.
Qed.

(** While Ravi Kumar holds the 10:00 booking, the form of the 10:30 booking
    offers Sunita Sharma and MP20TA7002, and saving them succeeds. *)
Lemma available_selection_is_accepted_witness :
  reportsSuccess SampleAssigned.st
    (handleSave SampleHost.getTime Sample.at1030 SampleAssigned.sunita7002
       SampleAssigned.st).
Proof.
  refine (proj1 (available_selection_is_accepted SampleHost.getTime
            SampleSort.toLocaleTimeString SampleAssigned.st Sample.at1030
            SampleOptions.sunita SampleOptions.v7002 _ _ _ _ eq_refl)).
  - vm_compute. left. reflexivity.
  - vm_compute. left. reflexivity.
  - discriminate.
  - discriminate.
Defined.

(** Ravi Kumar is listed as "Booked 10:00 - 11:30" and cannot be saved. *)
Lemma overlapping_option_is_rejected_witness :
  In SampleOptions.ravi
     (overlappingDrivers SampleHost.getTime SampleSort.toLocaleTimeString
        SampleAssigned.st Sample.at1030) /\
  bookings (handleSave SampleHost.getTime Sample.at1030 SampleAssigned.ravi7001
              SampleAssigned.st)
  = bookings SampleAssigned.st.
Proof.
  assert (H : In SampleOptions.ravi
                (overlappingDrivers SampleHost.getTime SampleSort.toLocaleTimeString
                   SampleAssigned.st Sample.at1030)).
  { vm_compute. left. reflexivity. }
  split; [ exact H | ].
  exact (proj1 (proj1 (overlapping_option_is_rejected SampleHost.getTime
                         SampleSort.toLocaleTimeString SampleAssigned.st Sample.at1030)
                  SampleOptions.ravi "MP20TA7001" H)).
Defined.

(** ** Cancellation and re-assignment *)

Lemma in_cancelled_live (cn : string) (bs : list Booking) (b : Booking) :
  In b (map (onMatch cn cancelledCopy) bs) /\ bookingStatus b <> cancelled
  <-> In b bs /\ confirmationNumber b <> cn /\ bookingStatus b <> cancelled.
Proof.
  rewrite in_map_iff. split.
  - intros ((b0 & E & Hin) & L).
    destruct (string_dec (confirmationNumber b0) cn) as [C | C].
    + rewrite (onMatch_same _ _ _ C) in E. subst b. exfalso. apply L. reflexivity.
    + rewrite (onMatch_other _ _ _ C) in E. subst b0. auto.
  - intros (Hin & C & L). split; [| exact L ].
    exists b. split; [ apply onMatch_other; exact C | exact Hin ].
Qed.

(** X16. Cancelling releases the resources: after the bookings numbered cn
    are cancelled, the driver conflicts and the vehicle conflicts found by the
    save checks are exactly those caused by bookings with another number, so
    a driver or vehicle whose only overlapping booking was the cancelled one
    can be assigned again. *)
Theorem cancel_releases_resources (getTime : string -> option Z) (cn : string)
    (st : AppState) (booking : Booking) (a : Assignment) :
  let st' := handleCancelBooking cn st in
  (driverConflict getTime st' booking a <->
   exists b, In b (bookings st) /\ confirmationNumber b <> cn /\
     confirmationNumber b <> confirmationNumber booking /\
     driverName b = Some (driver a) /\ bookingStatus b <> cancelled /\
     isTimeOverlapping getTime booking b = true) /\
  (vehicleConflict getTime st' booking a <->
   exists b, In b (bookings st) /\ confirmationNumber b <> cn /\
     confirmationNumber b <> confirmationNumber booking /\
     (exists v, assignedVehicle b = Some v /\ plate v = vehicle a) /\
     bookingStatus b <> cancelled /\
     isTimeOverlapping getTime booking b = true) /\
  drivers st' = drivers st /\ vehicleTypes st' = vehicleTypes st.
Proof.
  cbv zeta. unfold driverConflict, vehicleConflict.
  rewrite bookings_handleCancelBooking.
  destruct (views_handleCancelBooking cn st) as (D & V & _).
  split; [| split; [| split; assumption ] ].
  - split.
    + intros (b & Hin & C & Hd & L & O).
      destruct (proj1 (in_cancelled_live cn (bookings st) b) (conj Hin L))
        as (Hin0 & C0 & _).
      exists b. tauto.
    + intros (b & Hin & C0 & C & Hd & L & O).
      destruct (proj2 (in_cancelled_live cn (bookings st) b) (conj Hin (conj C0 L)))
        as (Hin' & _).
      exists b. tauto.
  - split.
    + intros (b & Hin & C & Hv & L & O).
      destruct (proj1 (in_cancelled_live cn (bookings st) b) (conj Hin L))
        as (Hin0 & C0 & _).
      exists b. tauto.
    + intros (b & Hin & C0 & C & Hv & L & O).
      destruct (proj2 (in_cancelled_live cn (bookings st) b) (conj Hin (conj C0 L)))
        as (Hin' & _).
      exists b. tauto.
Qed.

(** After Ravi's 10:00 booking is cancelled, he can take the 10:30 booking. *)
Lemma cancel_releases_resources_witness :
  ~ driverConflict SampleHost.getTime
      (handleCancelBooking "CNF001" SampleAssigned.st) Sample.at1030
      SampleAssigned.ravi7001 /\
  reportsSuccess (handleCancelBooking "CNF001" SampleAssigned.st)
    (handleSave SampleHost.getTime Sample.at1030 SampleAssigned.ravi7001
       (handleCancelBooking "CNF001" SampleAssigned.st)).
Proof.
  split; [| eexists; reflexivity ].
  intros H.
  apply (proj1 (proj1 (cancel_releases_resources SampleHost.getTime "CNF001"
                         SampleAssigned.st Sample.at1030 SampleAssigned.ravi7001))) in H.
  destruct H as (b & [<- | [<- | [<- | []]]] & C0 & C & Hd & _);
    [ apply C0; reflexivity | discriminate Hd | discriminate Hd ].
Defined.

(** X17. In a store with pairwise different confirmation numbers and no
    double booking, saving again the driver and the vehicle that a live
    booking already holds meets no conflict: a booking never conflicts with
    its own assignment, and the save succeeds unless the driver has gone
    offline. *)
Theorem resave_meets_no_conflict (getTime : string -> option Z) (st : AppState)
    (booking : Booking) (d : string) (v : Vehicle) :
  uniqueConfirmationNumbers st ->
  noDoubleBooking getTime (bookings st) ->
  In booking (bookings st) ->
  bookingStatus booking <> cancelled ->
  driverName booking = Some d ->
  assignedVehicle booking = Some v ->
  let a := {| driver := d; vehicle := plate v |} in
  ~ driverConflict getTime st booking a /\
  ~ vehicleConflict getTime st booking a /\
  (d <> "" -> plate v <> "" -> ~ offlineDriverSelected st a ->
   reportsSuccess st (handleSave getTime booking a st)).
Proof.
  intros U Inv Hin L Hd Hv a.
  assert (ND : ~ driverConflict getTime st booking a).
  { intros (b & Hb & C & Db & Lb & O).
    rewrite (Inv booking b Hin Hb) in O; [ discriminate | congruence | exact L | exact Lb | ].
    left. exists d. auto. }
  assert (NV : ~ vehicleConflict getTime st booking a).
  { intros (b & Hb & C & (v' & Vb & P) & Lb & O).
    rewrite (Inv booking b Hin Hb) in O; [ discriminate | congruence | exact L | exact Lb | ].
    right. exists v, v'. auto. }
  split; [ exact ND | split; [ exact NV | ] ].
  intros N1 N2 NO. apply handleSave_success_iff.
  intros [[M | M] | [O | [D | V]]]; try (cbn in M); tauto.
Qed.

Lemma resave_meets_no_conflict_witness :
  reportsSuccess SampleAssigned.st
    (handleSave SampleHost.getTime SampleAssigned.ravi1000 SampleAssigned.ravi7001
       SampleAssigned.st).
Proof.
  refine (proj2 (proj2 (resave_meets_no_conflict SampleHost.getTime SampleAssigned.st
            SampleAssigned.ravi1000 "Ravi Kumar"
            {| plate := "MP20TA7001"; model := "Tata Tigor XM EV" |} _ _ _ _ eq_refl eq_refl))
          _ _ _).
  - unfold uniqueConfirmationNumbers. cbn.
    repeat constructor; cbn; intuition discriminate.
  - intros b1 b2 [<- | [<- | [<- | []]]] [<- | [<- | [<- | []]]] N _ _
      [(x & H1 & H2) | (x & y & H1 & H2 & _)];
      try (exfalso; apply N; reflexivity); discriminate.
  - left. reflexivity.
  - discriminate.
  - discriminate.
  - discriminate.
  - intros (x & F & S). injection F as <-. discriminate S.
Defined.

(** ** Payment *)

(** X18. The payment handler writes nothing but paymentStatus and paymentId:
    every booking keeps its position in the list and all its other fields
    (assignment, bookingStatus, request facts), bookings with another
    confirmation number are untouched, drivers and vehicles are untouched, and
    the cached views (guest list, selected booking, last booking) receive the
    same update as the booking list. *)
Theorem paymentHandler_frame (booking : Booking) (pid : string) (st : AppState) :
  let st' := paymentHandler booking pid st in
  let cn := confirmationNumber booking in
  (forall i b, nth_error (bookings st) i = Some b ->
     exists b', nth_error (bookings st') i = Some b' /\ samePaymentFrame b b' /\
       (confirmationNumber b <> cn -> b' = b)) /\
  drivers st' = drivers st /\ vehicleTypes st' = vehicleTypes st /\
  guestBookings st' = map (onMatch cn (updatePaymentStatus pid)) (guestBookings st) /\
  selectedBooking st'
  = option_map (onMatch cn (updatePaymentStatus pid)) (selectedBooking st) /\
  lastBooking st' = option_map (onMatch cn (updatePaymentStatus pid)) (lastBooking st).
Proof.
  cbv zeta. split.
  - intros i b Hi. rewrite bookings_paymentHandler, nth_error_map, Hi. cbn.
    eexists. split; [ reflexivity | ]. split.
    + unfold onMatch. destruct (_ =? _); repeat split.
    + intros N. apply onMatch_other. exact N.
  - unfold paymentHandler, andThen, onMatch.
    destruct (lastBooking st) as [lb |] eqn:EL,
             (selectedBooking st) as [sb |] eqn:ES; cbn;
      repeat match goal with
             | |- context [confirmationNumber ?x =? confirmationNumber booking] =>
                 destruct (confirmationNumber x =? confirmationNumber booking)
             end; cbn; rewrite ?EL, ?ES; repeat split.
Qed.

Lemma paymentHandler_frame_witness :
  exists b',
    nth_error (bookings (paymentHandler SampleAssigned.ravi1000 "pay_001"
                           SampleAssigned.st)) 0 = Some b' /\
    samePaymentFrame SampleAssigned.ravi1000 b'.
Proof.
  destruct (proj1 (paymentHandler_frame SampleAssigned.ravi1000 "pay_001"
                     SampleAssigned.st) 0%nat SampleAssigned.ravi1000 eq_refl)
    as (b' & H & F & _).
  exists b'. split; assumption.
Defined.

(** ** What [handleSave] leaves alone *)

(** X19. [handleSave] never writes the drivers, the vehicles or the guest's
    cached views (guest list, selected booking, last booking), whether it
    accepts or refuses, and it adds at most one notification.  An accepted
    save closes the edit form and shows the success banner; a refused one
    leaves the edit form as it was.  A save with an empty selection sets no
    state of [App]: the dashboard stays mounted, with the text under the
    selection.  Every other save ends with the dashboard mounted anew, so
    that afterwards no booking is marked as just assigned and no text stands
    under the selection: the mark that [localHandleAssignDriver] asks for is
    never seen. *)
Theorem handleSave_frame (getTime : string -> option Z) (booking : Booking)
    (a : Assignment) (st : AppState) :
  let st' := handleSave getTime booking a st in
  drivers st' = drivers st /\ vehicleTypes st' = vehicleTypes st /\
  guestBookings st' = guestBookings st /\
  selectedBooking st' = selectedBooking st /\ lastBooking st' = lastBooking st /\
  (notifications st' = notifications st \/
   exists n, notifications st' = (notifications st ++ [n])%list) /\
  (~ rejects getTime st booking a ->
     isEditingAssignment st' = None /\ reportsSuccess st st') /\
  (rejects getTime st booking a ->
     isEditingAssignment st' = isEditingAssignment st) /\
  (missingSelection a ->
     justAssigned st' = justAssigned st /\
     notifications st' = notifications st /\
     assignmentError st' = "Please select both a driver and a vehicle.") /\
  (~ missingSelection a -> justAssigned st' = None /\ assignmentError st' = "").
Proof.
  cbv zeta.
  assert (F : drivers (handleSave getTime booking a st) = drivers st /\
              vehicleTypes (handleSave getTime booking a st) = vehicleTypes st /\
              guestBookings (handleSave getTime booking a st) = guestBookings st /\
              selectedBooking (handleSave getTime booking a st) = selectedBooking st /\
              lastBooking (handleSave getTime booking a st) = lastBooking st /\
              (notifications (handleSave getTime booking a st) = notifications st \/
               exists n, notifications (handleSave getTime booking a st)
                         = (notifications st ++ [n])%list) /\
              (missingSelection a ->
                 justAssigned (handleSave getTime booking a st) = justAssigned st /\
                 notifications (handleSave getTime booking a st) = notifications st /\
                 assignmentError (handleSave getTime booking a st)
                 = "Please select both a driver and a vehicle." /\
                 isEditingAssignment (handleSave getTime booking a st)
                 = isEditingAssignment st) /\
              (~ missingSelection a ->
                 justAssigned (handleSave getTime booking a st) = None /\
                 assignmentError (handleSave getTime booking a st) = "")).
  { unfold handleSave.
    destruct (negb (Js.truthy (driver a)) || negb (Js.truthy (vehicle a)))%bool eqn:M.
    { apply missing_reflect in M.
      repeat split; auto; contradiction. }
    assert (NM : ~ missingSelection a).
    { intros N. apply missing_reflect in N. rewrite N in M. discriminate M. }
    destruct (selectedDriverOffline _ a);
      [| destruct (driverIsBooked getTime _ booking a);
         [| destruct (vehicleIsBooked getTime _ booking a) ] ];
      repeat split; try (right; eexists; reflexivity); contradiction. }
  destruct F as (F1 & F2 & F3 & F4 & F5 & F6 & F7 & F8).
  repeat (split; [ assumption | ]).
  split; [| split; [| split; [ intros N; destruct (F7 N) as (J & B & E & _);
                                 repeat split; assumption
                             | exact F8 ] ] ].
  - intros NR.
    destruct (handleSave_outcome getTime booking a st) as [(R & _) | (_ & E)];
      [ contradiction | ].
    rewrite E. split; [ reflexivity | apply reportsSuccess_committed ].
  - intros R.
    destruct (missingSelection_dec a) as [N | N].
    + exact (proj2 (proj2 (proj2 (F7 N)))).
    + destruct (proj2 (handleSave_refusal_banner getTime booking a st N) R)
        as (_ & _ & E & _).
      exact E.
Qed.

(** The accepted save of the 10:30 booking closes the form and leaves no
    booking marked as just assigned. *)
Lemma handleSave_frame_witness :
  isEditingAssignment (handleSave SampleHost.getTime Sample.at1030
                         SampleAssigned.sunita7002 SampleAssigned.st) = None /\
  justAssigned (handleSave SampleHost.getTime Sample.at1030 SampleAssigned.sunita7002
                  SampleAssigned.st) = None.
Proof.
  pose proof (handleSave_frame SampleHost.getTime Sample.at1030
                SampleAssigned.sunita7002 SampleAssigned.st)
    as (_ & _ & _ & _ & _ & _ & Acc & _ & _ & Full).
  split.
  - apply Acc. apply handleSave_success_iff. eexists. reflexivity.
  - apply Full. intros [H | H]; discriminate H.
Defined.

(** ** The driver's dashboard *)

(** X20. The effect that copies the logged-in driver's status onto the
    bookings changes only driverStatus, and only on bookings that carry the
    driver's name and have not arrived: an arrived booking never goes back,
    the bookings of other drivers and the unassigned ones are untouched, and
    running the effect twice is the same as running it once. *)
Theorem syncDriverStatus_effect (d : Driver) (online : bool) (st : AppState) :
  let st' := syncDriverStatus d online st in
  (forall i b, nth_error (bookings st) i = Some b ->
     exists b', nth_error (bookings st') i = Some b' /\
       sameButTracking b b' /\ driverPosition b' = driverPosition b /\
       eta b' = eta b /\
       (driverStatus b = Some tripArrived -> b' = b) /\
       (driverName b <> Some (name d) -> b' = b) /\
       (driverName b = Some (name d) -> driverStatus b <> Some tripArrived ->
          driverStatus b' = Some (statusFor online))) /\
  bookings (syncDriverStatus d online st') = bookings st' /\
  drivers st' = drivers st.
Proof.
  cbv zeta. split; [| split; [| reflexivity ] ].
  - intros i b Hi. unfold syncDriverStatus. cbn [bookings setBookings].
    rewrite nth_error_map, Hi. cbn [option_map].
    eexists. split; [ reflexivity | ].
    destruct (optEqb (driverName b) (name d)) eqn:E.
    + apply optEqb_true in E.
      destruct (driverStatus b) as [[ | | ] |] eqn:S; cbn;
        repeat split; try congruence; try (intros; reflexivity).
    + cbn. repeat split; try congruence.
      intros N _. rewrite N in E. cbn in E. rewrite String.eqb_refl in E.
      discriminate.
  - unfold syncDriverStatus. cbn [bookings setBookings]. rewrite map_map.
    apply map_ext. intros b.
    destruct (optEqb (driverName b) (name d)) eqn:E; cbn [andb]; [| rewrite E; reflexivity ].
    destruct (driverStatus b) as [[ | | ] |] eqn:S; cbn; rewrite ?E, ?S; cbn;
      try reflexivity; destruct online; reflexivity.
Qed.

Lemma syncDriverStatus_effect_witness :
  exists b',
    nth_error (bookings (syncDriverStatus
                           (Sample.mkDriver "Ravi Kumar" "9876543210" "ravi" offline)
                           false SampleAssigned.st)) 0 = Some b' /\
    driverStatus b' = Some tripOffline.
Proof.
  destruct (proj1 (syncDriverStatus_effect
                     (Sample.mkDriver "Ravi Kumar" "9876543210" "ravi" offline)
                     false SampleAssigned.st) 0%nat SampleAssigned.ravi1000 eq_refl)
    as (b' & H & _ & _ & _ & _ & _ & S).
  exists b'. split; [ exact H | ]. apply S; [ reflexivity | discriminate ].
Defined.

(** ** The simulation tick *)

Lemma calculateSimulatedETA_before_arrival (fmt : float -> string) (p : float) :
  (1 <=? p)%float = false -> calculateSimulatedETA fmt p <> "Arrived".
Proof.
  intros H. unfold calculateSimulatedETA. rewrite H.
  destruct (0.95 <? p)%float; [ discriminate | ].
  destruct (_ <=? 1)%float; discriminate.
Qed.

(** X21. A tick keeps the trip status and the ETA text in step: at a
    progress below 1 the booking is online, its ETA is not "Arrived" and no
    notification is added; at a progress of 1 or more the booking is arrived,
    its ETA is "Arrived" and one arrival notification is added.  A tick writes
    only driverPosition, driverStatus and eta, and only on the bookings with
    the ticking confirmation number. *)
Theorem tickAt_status_matches_eta (fmt : float -> string) (cn : string)
    (p : float) (st : AppState) :
  let st' := tickAt fmt cn p st in
  (forall i b, nth_error (bookings st) i = Some b ->
     exists b', nth_error (bookings st') i = Some b' /\ sameButTracking b b' /\
       (confirmationNumber b <> cn -> b' = b) /\
       (confirmationNumber b = cn ->
          driverPosition b' = Some (simulatedPosition p) /\
          ((p <? 1)%float = true ->
             driverStatus b' = Some tripOnline /\ eta b' <> Some "Arrived") /\
          ((1 <=? p)%float = true ->
             driverStatus b' = Some tripArrived /\ eta b' = Some "Arrived"))) /\
  ((p <? 1)%float = true -> notifications st' = notifications st) /\
  ((1 <=? p)%float = true ->
     exists n, notifications st' = (notifications st ++ [n])%list /\ type n = success) /\
  drivers st' = drivers st.
Proof.
  cbv zeta. unfold tickAt, andThen. split; [| split; [| split ] ].
  - intros i b Hi.
    assert (B : bookings
                  ((if (1 <=? p)%float
                    then addNotification
                           ("You have arrived for booking #" ++ Js.sliceLast4 cn ++ ".")
                           success
                    else skip)
                     (setBookings
                        (map (fun b0 =>
                           if confirmationNumber b0 =? cn
                           then spreadTracking b0 (simulatedPosition p)
                                  (if (p <? 1)%float then tripOnline else tripArrived)
                                  (calculateSimulatedETA fmt p)
                           else b0)) st))
                = map (fun b0 =>
                         if confirmationNumber b0 =? cn
                         then spreadTracking b0 (simulatedPosition p)
                                (if (p <? 1)%float then tripOnline else tripArrived)
                                (calculateSimulatedETA fmt p)
                         else b0) (bookings st)).
    { destruct (1 <=? p)%float; reflexivity. }
    rewrite B, nth_error_map, Hi. cbn [option_map].
    eexists. split; [ reflexivity | ].
    destruct (confirmationNumber b =? cn) eqn:E.
    + split; [ repeat split | ].
      split; [ intros N; apply String.eqb_neq in N; congruence | ].
      intros _. split; [ reflexivity | split ].
      * intros L. cbn. rewrite L. split; [ reflexivity | ].
        intros [= H]. revert H. apply calculateSimulatedETA_before_arrival.
        apply ltb_leb_false. exact L.
      * intros G. cbn. unfold calculateSimulatedETA. rewrite G.
        destruct (p <? 1)%float eqn:L; [| split; reflexivity ].
        apply ltb_leb_false in L. congruence.
    + split; [ repeat split | ].
      split; [ reflexivity | ].
      intros C. apply String.eqb_eq in C. congruence.
  - intros L. apply ltb_leb_false in L. rewrite L. reflexivity.
  - intros G. rewrite G. eexists. split; reflexivity.
  - destruct (1 <=? p)%float; reflexivity.
Qed.

Lemma tickAt_status_matches_eta_witness :
  exists b',
    nth_error (bookings (tickAt SampleHost.numberToString "CNF001" 0.5
                           SampleAssigned.st)) 0 = Some b' /\
    driverStatus b' = Some tripOnline /\ driverPosition b' = Some (50%float, 50%float).
Proof.
  destruct (proj1 (tickAt_status_matches_eta SampleHost.numberToString "CNF001" 0.5
                     SampleAssigned.st) 0%nat SampleAssigned.ravi1000 eq_refl)
    as (b' & H & _ & _ & T).
  destruct (T eq_refl) as (P & L & _).
  exists b'. split; [ exact H | ]. split; [ exact (proj1 (L eq_refl)) | exact P ].
Defined.

(** ** [Math.min] and [Math.max] *)

Lemma is_nan_false (x : float) :
  PrimFloat.is_nan x = false -> Prim2SF x <> S754_nan.
Proof.
  unfold PrimFloat.is_nan. rewrite negb_false_iff, FloatAxioms.eqb_spec.
  intros H E. rewrite E in H. discriminate.
Qed.

Lemma ltb_leb (x y : float) : (x <? y)%float = true -> (x <=? y)%float = true.
Proof.
  rewrite FloatAxioms.ltb_spec, FloatAxioms.leb_spec. unfold SFltb, SFleb.
  destruct (SFcompare _ _) as [[ | | ] |]; congruence.
Qed.

Lemma not_ltb_leb (x y : float) :
  PrimFloat.is_nan x = false -> PrimFloat.is_nan y = false ->
  (x <? y)%float = false -> (y <=? x)%float = true.
Proof.
  intros Nx Ny. apply is_nan_false in Nx. apply is_nan_false in Ny.
  rewrite FloatAxioms.ltb_spec, FloatAxioms.leb_spec. unfold SFltb, SFleb.
  rewrite (SFcompare_antisym (Prim2SF x) (Prim2SF y)).
  pose proof (SFcompare_defined _ _ Nx Ny) as D.
  destruct (SFcompare (Prim2SF x) (Prim2SF y)) as [[ | | ] |]; cbn; congruence.
Qed.

Lemma leb_refl (x : float) : PrimFloat.is_nan x = false -> (x <=? x)%float = true.
Proof.
  intros N. apply not_ltb_leb; try exact N.
  destruct (x <? x)%float eqn:L; [| reflexivity ].
  pose proof (ltb_leb_false _ _ L) as F. apply ltb_leb in L. congruence.
Qed.

Lemma zero_below_one (q : float) :
  PrimFloat.is_zero q = true -> (q <? 1)%float = true.
Proof.
  assert (P0 : Prim2SF 0 = S754_zero false) by (vm_compute; reflexivity).
  assert (P1 : Prim2SF 1 = S754_finite false 4503599627370496 (-52))
    by (vm_compute; reflexivity).
  unfold PrimFloat.is_zero.
  rewrite FloatAxioms.eqb_spec, FloatAxioms.ltb_spec.
  change PrimFloat.zero with 0%float. rewrite P0, P1. unfold SFeqb, SFltb.
  destruct (Prim2SF q) as [s | s | | s m e]; cbn [SFcompare]; try discriminate.
  - intros _. reflexivity.
  - destruct s; discriminate.
  - destruct s; discriminate.
Qed.

Lemma Math_max_spec (a b : float) :
  PrimFloat.is_nan a = false -> PrimFloat.is_nan b = false ->
  (JsMath.Math_max a b = a \/ JsMath.Math_max a b = b) /\
  (a <=? JsMath.Math_max a b)%float = true /\
  (b <=? JsMath.Math_max a b)%float = true.
Proof.
  intros Na Nb. unfold JsMath.Math_max. rewrite Na, Nb. cbn [orb].
  destruct (a <? b)%float eqn:L1.
  - split; [ right; reflexivity | ].
    split; [ apply ltb_leb; exact L1 | apply leb_refl; exact Nb ].
  - destruct (b <? a)%float eqn:L2.
    + split; [ left; reflexivity | ].
      split; [ apply leb_refl; exact Na | apply ltb_leb; exact L2 ].
    + destruct (JsMath.isNegativeZero a).
      * split; [ right; reflexivity | ].
        split; [ apply not_ltb_leb; assumption | apply leb_refl; exact Nb ].
      * split; [ left; reflexivity | ].
        split; [ apply leb_refl; exact Na | apply not_ltb_leb; assumption ].
Qed.

Lemma Math_min_spec (a b : float) :
  PrimFloat.is_nan a = false -> PrimFloat.is_nan b = false ->
  (JsMath.Math_min a b = a \/ JsMath.Math_min a b = b) /\
  (JsMath.Math_min a b <=? a)%float = true /\
  (JsMath.Math_min a b <=? b)%float = true.
Proof.
  intros Na Nb. unfold JsMath.Math_min. rewrite Na, Nb. cbn [orb].
  destruct (a <? b)%float eqn:L1.
  - split; [ left; reflexivity | ].
    split; [ apply leb_refl; exact Na | apply ltb_leb; exact L1 ].
  - destruct (b <? a)%float eqn:L2.
    + split; [ right; reflexivity | ].
      split; [ apply ltb_leb; exact L2 | apply leb_refl; exact Nb ].
    + destruct (JsMath.isNegativeZero a).
      * split; [ left; reflexivity | ].
        split; [ apply leb_refl; exact Na | apply not_ltb_leb; assumption ].
      * split; [ right; reflexivity | ].
        split; [ apply not_ltb_leb; assumption | apply leb_refl; exact Nb ].
Qed.

(** X22. The simulated progress is capped: with [q] the elapsed time over the
    20 seconds of the simulation, the progress is [q] while [q] is below 1
    and exactly 1 from then on, so it never exceeds 1; from that moment the
    car sits exactly on the drop-off point (85, 50) and the tick marks the
    booking arrived with the ETA "Arrived". *)
Theorem simulationProgress_capped (now startTime : Z) :
  let q := (JsMath.numberOfZ (now - startTime) / 20000)%float in
  let p := simulationProgress now startTime in
  PrimFloat.is_nan q = false ->
  (p <=? 1)%float = true /\
  ((q <? 1)%float = true -> p = q) /\
  ((q <? 1)%float = false ->
     p = 1%float /\ simulatedPosition p = (85%float, 50%float) /\
     forall fmt cn st i b,
       nth_error (bookings st) i = Some b -> confirmationNumber b = cn ->
       exists b', nth_error (bookings (tick fmt cn now startTime st)) i = Some b' /\
         driverStatus b' = Some tripArrived /\ eta b' = Some "Arrived" /\
         driverPosition b' = Some (85%float, 50%float)).
Proof.
  intros q p N.
  assert (N1 : PrimFloat.is_nan 1%float = false) by reflexivity.
  split; [ apply (Math_min_spec q 1 N N1) | split ].
  - intros L. subst p. unfold simulationProgress, JsMath.Math_min. fold q.
    rewrite N, L. reflexivity.
  - intros L.
    assert (E : p = 1%float).
    { subst p. unfold simulationProgress, JsMath.Math_min. fold q.
      rewrite N, L. cbn [orb PrimFloat.is_nan].
      destruct (1 <? q)%float; [ reflexivity | ].
      unfold JsMath.isNegativeZero.
      destruct (PrimFloat.is_zero q) eqn:Z; [| reflexivity ].
      apply zero_below_one in Z. congruence. }
    split; [ exact E | ]. split; [ rewrite E; reflexivity | ].
    intros fmt cn st i b Hi Hcn. unfold tick. fold p. rewrite E.
    unfold tickAt, andThen. cbn.
    rewrite nth_error_map, Hi. cbn.
    apply String.eqb_eq in Hcn. rewrite Hcn.
    eexists. split; [ reflexivity | repeat split ].
Qed.

Lemma simulationProgress_capped_witness :
  simulationProgress 1717236025000 1717236000000 = 1%float /\
  simulationProgress 1717236005000 1717236000000 = 0.25%float.
Proof.
  split.
  - exact (proj1 (proj2 (proj2 (simulationProgress_capped 1717236025000 1717236000000
                                  eq_refl)) eq_refl)).
  - exact (proj1 (proj2 (simulationProgress_capped 1717236005000 1717236000000
                           eq_refl)) eq_refl).
Defined.

(** ** The map zoom *)

(** X23. Zooming keeps the scale between 0.5 and 3: whatever the wheel
    delta, as long as the requested scale is a number the new scale is at
    least 0.5 and at most 3; a request that is not a number gives a scale
    that is not a number; and while the map element is not mounted the
    transform is left alone. *)
Theorem handleWheel_scale_clamped (deltaY clientX clientY : float)
    (rect : option (float * float)) (t : Zoom.Transform) :
  let requested := (Zoom.scale t + - deltaY * 0.001)%float in
  let t' := Zoom.handleWheel deltaY clientX clientY rect t in
  (rect = None -> t' = t) /\
  (rect <> None -> PrimFloat.is_nan requested = false ->
     (0.5 <=? Zoom.scale t')%float = true /\ (Zoom.scale t' <=? 3)%float = true) /\
  (rect <> None -> PrimFloat.is_nan requested = true -> Zoom.scale t' = nan).
Proof.
  cbv zeta. unfold Zoom.handleWheel. split; [ intros ->; reflexivity | ].
  destruct rect as [[l tp] |]; [| split; intros H; contradiction ].
  cbn [Zoom.scale]. split; intros _ N.
  - assert (H5 : PrimFloat.is_nan 0.5%float = false) by reflexivity.
    assert (H3 : PrimFloat.is_nan 3%float = false) by reflexivity.
    destruct (Math_max_spec 0.5 _ H5 N) as (Cm & Lo & _).
    set (m := JsMath.Math_max 0.5 (Zoom.scale t + - deltaY * 0.001)) in *.
    assert (Nm : PrimFloat.is_nan m = false)
      by (destruct Cm as [-> | ->]; assumption).
    destruct (Math_min_spec m 3 Nm H3) as (Cs & _ & Hi).
    split; [| exact Hi ].
    destruct Cs as [-> | ->]; [ exact Lo | reflexivity ].
  - unfold JsMath.Math_max. rewrite N. cbn [orb PrimFloat.is_nan].
    reflexivity.
Qed.

Lemma handleWheel_scale_clamped_witness :
  Zoom.scale (Zoom.handleWheel (-5000) 10 10 (Some (0%float, 0%float))
                {| Zoom.scale := 1; Zoom.x := 0; Zoom.y := 0 |}) = 3%float /\
  (Zoom.scale (Zoom.handleWheel (-5000) 10 10 (Some (0%float, 0%float))
                 {| Zoom.scale := 1; Zoom.x := 0; Zoom.y := 0 |}) <=? 3)%float = true.
Proof.
  split; [ reflexivity | ].
  refine (proj2 (proj1 (proj2 (handleWheel_scale_clamped (-5000) 10 10
            (Some (0%float, 0%float))
            {| Zoom.scale := 1; Zoom.x := 0; Zoom.y := 0 |})) _ eq_refl)).
  discriminate.
Defined.

(** ** Guest tracking *)

Lemma SampleSort_insert_perm (cmp : Booking -> Booking -> option Z) (b : Booking)
    (l : list Booking) :
  Permutation (b :: l) (SampleSort.insert cmp b l).
Proof.
  induction l as [| c r IH]; cbn; [ apply Permutation_refl | ].
  destruct (cmp b c) as [n |]; [| apply Permutation_refl ].
  destruct (n <=? 0)%Z; [ apply Permutation_refl | ].
  eapply Permutation_trans; [ apply perm_swap | ].
  apply perm_skip. exact IH.
Qed.

Lemma SampleSort_sort_perm (cmp : Booking -> Booking -> option Z) (l : list Booking) :
  Permutation l (SampleSort.sort cmp l).
Proof.
  unfold SampleSort.sort. induction l as [| b l IH]; cbn; [ constructor | ].
  eapply Permutation_trans; [ apply perm_skip; exact IH | ].
  apply SampleSort_insert_perm.
Qed.

(** X24. Tracking by phone shows exactly the bookings made with that phone
    number, each as often as it is stored, in the order the host's sort gives
    them; the error "No bookings found" is reported exactly when there is
    none; any selected booking is dropped and the stored bookings are not
    touched. *)
Theorem handleTrackBooking_finds_by_phone (getTime : string -> option Z)
    (arraySort : (Booking -> Booking -> option Z) -> list Booking -> list Booking)
    (w : World) :
  (forall cmp l, Permutation l (arraySort cmp l)) ->
  let w' := handleTrackBooking getTime arraySort w in
  let phone := Tracking.trackingPhone (tracking w) in
  Permutation (filter (fun b => guestPhone b =? phone) (bookings (app w)))
              (guestBookings (app w')) /\
  (forall b, In b (guestBookings (app w')) <->
             In b (bookings (app w)) /\ guestPhone b = phone) /\
  (Tracking.trackingError (tracking w') = "" <->
   exists b, In b (bookings (app w)) /\ guestPhone b = phone) /\
  (Tracking.trackingError (tracking w') <> "" ->
   Tracking.trackingError (tracking w') = "No bookings found for this mobile number.") /\
  selectedBooking (app w') = None /\ bookings (app w') = bookings (app w).
Proof.
  intros Perm. cbv zeta. unfold handleTrackBooking.
  set (phone := Tracking.trackingPhone (tracking w)).
  set (found := filter (fun b => guestPhone b =? phone) (bookings (app w))).
  pose proof (Perm (newestFirst getTime) found) as P.
  assert (In_found : forall b, In b found <->
                       In b (bookings (app w)) /\ guestPhone b = phone).
  { intros b. unfold found. rewrite filter_In, String.eqb_eq. reflexivity. }
  destruct (arraySort (newestFirst getTime) found) as [| s0 rest] eqn:S.
  - apply Permutation_sym, Permutation_nil in P.
    cbn. rewrite P. split; [ constructor | ].
    split; [ intros b; rewrite <- In_found, P; reflexivity | ].
    split; [| split; [ reflexivity | split; reflexivity ] ].
    split; [ discriminate | ].
    intros (b & Hb). apply In_found in Hb. rewrite P in Hb. destruct Hb.
  - cbn. split; [ exact P | ].
    split.
    { intros b. rewrite <- In_found. split; intros H.
      - apply (Permutation_in _ (Permutation_sym P)). exact H.
      - apply (Permutation_in _ P). exact H. }
    split; [| split; [ intros N; contradiction | split; reflexivity ] ].
    split; [ intros _ | reflexivity ].
    exists s0. apply In_found. apply (Permutation_in _ (Permutation_sym P)).
    left. reflexivity.
Qed.

Lemma handleTrackBooking_finds_by_phone_witness :
  Tracking.trackingError
    (tracking (handleTrackBooking SampleHost.getTime SampleSort.sort
                 (SampleTracking.byPhone "9000000001"))) = "".
Proof.
  apply (proj1 (proj2 (proj2 (handleTrackBooking_finds_by_phone SampleHost.getTime
           SampleSort.sort (SampleTracking.byPhone "9000000001")
           SampleSort_sort_perm)))).
  exists Sample.at1000. split; [ left; reflexivity | reflexivity ].
Defined.

(** ** Logout *)

(** X25. Logging out loses no stored data: bookings, drivers (with their
    online status) and vehicles are as before.  It ends the session (role
    guest, no logged-in driver), empties the guest's tracked list, selection
    and last booking, clears the booking form, and announces the logout only
    to an administrator or a driver; logging out twice is the same as logging
    out once. *)
Theorem handleLogout_keeps_stores (w : World) :
  let w' := handleLogout w in
  bookings (app w') = bookings (app w) /\ drivers (app w') = drivers (app w) /\
  vehicleTypes (app w') = vehicleTypes (app w) /\
  Session.currentUserRole (session w') = "guest" /\
  Session.loggedInDriver (session w') = None /\
  guestBookings (app w') = [] /\ selectedBooking (app w') = None /\
  lastBooking (app w') = None /\ isEditingAssignment (app w') = None /\
  Form.guestName (form w') = "" /\ Form.guestPhone (form w') = "" /\
  (Session.currentUserRole (session w) = "admin" \/
   Session.currentUserRole (session w) = "driver" ->
     exists n, notifications (app w') = (notifications (app w) ++ [n])%list /\
       type n = info) /\
  (Session.currentUserRole (session w) <> "admin" ->
   Session.currentUserRole (session w) <> "driver" ->
     notifications (app w') = notifications (app w)) /\
  handleLogout w' = w'.
Proof.
  cbv zeta. unfold handleLogout at 1 2 3 4 5 6 7 8 9 10 11 12 13.
  set (role := Session.currentUserRole (session w)).
  destruct ((role =? "admin") || (role =? "driver"))%bool eqn:R.
  - repeat split.
    + intros _. eexists. split; reflexivity.
    + intros N1 N2. apply orb_true_iff in R. rewrite !String.eqb_eq in R. tauto.
  - repeat split.
    + intros H. apply orb_false_iff in R. rewrite !String.eqb_neq in R. tauto.
Qed.

Lemma handleLogout_keeps_stores_witness :
  exists n,
    notifications
      (app (handleLogout
              (SampleForm.world SampleAssigned.st SampleTracking.adminSession)))
    = [n] /\ type n = info.
Proof.
  exact (proj1 (proj2 (proj2 (proj2 (proj2 (proj2 (proj2 (proj2 (proj2 (proj2
    (proj2 (proj2 (handleLogout_keeps_stores
       (SampleForm.world SampleAssigned.st SampleTracking.adminSession)))))))))))))
    (or_introl eq_refl)).
Defined.
